(** * THS: screening over TDX fixed-record files

    A shallow embedding of [通达信.py]: the two binary decoders
    ([parse_tdx_day_file], [parse_tdx_chip_data]), the indicator functions
    ([calculate_ma], [check_box_break], [check_ma_break],
    [get_prev_trade_date]) and the selection loop
    ([stock_selection_tdx_auto]).

    Conventions of the embedding.
    - A Python [float] and a numpy [float64] are IEEE-754 binary64 values:
      Rocq's primitive [float], whose operations are the hardware ones.
    - A Python [int] and a numpy [int64] are [Z]; every integer of the program
      is an unsigned 32-bit field or such a field times 100, so no [int64]
      operation wraps.
    - A [bytes] object is a [list byte]; an open binary file is the list of
      bytes not read yet.
    - A pandas frame is the list of its rows; a column that may be missing
      from a frame is an [option] field of the row.
    - A Python exception is a constructor of [exn]; code that may raise
      returns a [result].
    - Of pandas, the rolling mean is written out step by step, as its
      rounding shows in the averages; [stock_basic.csv] enters as the frame
      [pd.read_csv] makes of it, with the type it inferred for the code
      column. *)

From Stdlib Require Import String Ascii DecimalString DecimalN DecimalPos.
From Stdlib.Strings Require Import Byte.
From Stdlib Require Import ZArith List Bool Lia Permutation Sorted.
From Stdlib Require Import RelationClasses OrderedTypeEx.
From Stdlib Require Import Floats Uint63.
From Stdlib Require Import QArith Qcanon.
Import ListNotations.

Set Warnings "-inexact-float".
#[local] Open Scope Z_scope.

(* ================================================================== *)
(** * Python values and exceptions *)

Inductive exn : Type :=
| FileNotFoundError
| KeyError (key : string)
| IndexError
| ValueError
| AttributeError
| TypeError.

Inductive result (A : Type) : Type :=
| Ok (a : A)
| Raise (e : exn).
Arguments Ok {A} a.
Arguments Raise {A} e.

Definition bind {A B : Type} (m : result A) (k : A -> result B) : result B :=
  match m with
  | Ok a => k a
  | Raise e => Raise e
  end.

Declare Scope py_scope.
Delimit Scope py_scope with py.
Notation "x <- m ;; k" := (bind m (fun x => k))
  (at level 61, m at next level, right associativity) : py_scope.
Notation "' pat <- m ;; k" := (bind m (fun x => match x with pat => k end))
  (at level 61, pat pattern, m at next level, right associativity) : py_scope.

(** [int -> float]: exact for the magnitudes below [2^53] that occur here. *)
Definition float_of_int (z : Z) : float :=
  if z <? 0 then (- of_uint63 (of_Z (- z)))%float else of_uint63 (of_Z z).

(** [str(n)] of a non-negative integer: its decimal digits. *)
Definition str (n : Z) : string :=
  NilEmpty.string_of_uint (N.to_uint (Z.to_N n)).

(** [x[0]] and [.iloc[0]]: the first element, [IndexError] on an empty
    sequence. *)
Definition iloc0 {A : Type} (l : list A) : result A :=
  match l with
  | [] => Raise IndexError
  | x :: _ => Ok x
  end.

(** [l[a:b]] for [0 <= a <= b]. *)
Definition slice {A : Type} (a b : nat) (l : list A) : list A :=
  firstn (b - a) (skipn a l).

(** [any(f(x) for x in l)] and [all(f(x) for x in l)] over a generator whose
    body may raise: evaluation stops at the first deciding element. *)
Fixpoint any_gen {A : Type} (f : A -> result bool) (l : list A) : result bool :=
  match l with
  | [] => Ok false
  | x :: l' =>
      match f x with
      | Ok true => Ok true
      | Ok false => any_gen f l'
      | Raise e => Raise e
      end
  end.

(** [[f(x) for x in l]]: a list comprehension whose body may raise. *)
Fixpoint list_gen {A B : Type} (f : A -> result B) (l : list A) : result (list B) :=
  match l with
  | [] => Ok []
  | x :: l' =>
      match f x with
      | Ok y =>
          match list_gen f l' with
          | Ok ys => Ok (y :: ys)
          | Raise e => Raise e
          end
      | Raise e => Raise e
      end
  end.

(* ================================================================== *)
(** * [struct.unpack] on the little-endian layouts of the record formats *)

(** The unsigned integer a little-endian byte string denotes. *)
Fixpoint le_uint (bs : list byte) : Z :=
  match bs with
  | [] => 0
  | b :: bs' => Z.of_N (Byte.to_N b) + 256 * le_uint bs'
  end.

(** [struct.unpack("I", bs)[0]]; every call site passes a 4-byte slice of a
    record whose length was checked. *)
Definition unpack_I (bs : list byte) : Z := le_uint bs.

(** The binary64 value with the value of the binary32 number of bit pattern
    [w]: bit 31 the sign, bits 30-23 the biased exponent, bits 22-0 the
    fraction. Widening binary32 to binary64 is exact. *)
Definition float_of_bits32 (w : Z) : float :=
  let sign := Z.testbit w 31 in
  let e := (w / 2 ^ 23) mod 2 ^ 8 in
  let frac := w mod 2 ^ 23 in
  let mag :=
    if e =? 255 then (if frac =? 0 then infinity else nan)
    else if e =? 0 then Z.ldexp (float_of_int frac) (-149)
    else Z.ldexp (float_of_int (2 ^ 23 + frac)) (e - 150) in
  if sign then (- mag)%float else mag.

(** [struct.unpack("f", bs)[0]]: a Python float. *)
Definition unpack_f (bs : list byte) : float := float_of_bits32 (le_uint bs).

(* ================================================================== *)
(** * Frames *)

(** One entry of the list [data] of [parse_tdx_day_file]:
    [[date, open_p, high, low, close, vol, amount]]. *)
Record DayRecord : Type := mkDayRecord {
  rec_date : Z;
  rec_open : float;
  rec_high : float;
  rec_low : float;
  rec_close : float;
  rec_vol : Z;
  rec_amount : float
}.

(** A row of the daily frame. [ma] holds the columns ["ma<period>"] that
    [calculate_ma] adds, keyed by the period, the latest assignment first. *)
Record DayRow : Type := mkDayRow {
  trade_date : string;
  open : float;
  high : float;
  low : float;
  close : float;
  vol : Z;
  amount : float;
  ma : list (nat * float)
}.

(** A row of the concentration frame. *)
Record ChipRow : Type := mkChipRow {
  chip_trade_date : string;
  chip_concentration_70 : float
}.

(* ================================================================== *)
(** * The decoders *)

(** The read loop both parsers share:
<<
    while True:
        record = f.read(width)
        if not record: break
        if len(record) != width: continue
        data.append(decode(record))
>>
    [f] is what is left of the file; [fuel] bounds the iterations. *)
Fixpoint read_loop {A : Type} (width : nat) (decode : list byte -> A)
  (fuel : nat) (f : list byte) (data : list A) : option (list A) :=
  match fuel with
  | O => None
  | S fuel' =>
      let record := firstn width f in
      let f' := skipn width f in
      match record with
      | [] => Some data
      | _ :: _ =>
          if negb (length record =? width)%nat
          then read_loop width decode fuel' f' data
          else read_loop width decode fuel' f' (data ++ [decode record])
      end
  end.

(** The loop run to the end of the file: one iteration per chunk and one
    for the empty read ([read_loop_fuel] below shows the fuel is enough). *)
Definition read_records {A : Type} (width : nat) (decode : list byte -> A)
  (f : list byte) : list A :=
  match read_loop width decode (S (length f)) f [] with
  | Some data => data
  | None => []
  end.

(** Lines 59-66: the fields of one 32-byte daily record. *)
Definition decode_day_record (record : list byte) : DayRecord :=
  let date := unpack_I (slice 0 4 record) in
  let open_p := (float_of_int (unpack_I (slice 4 8 record)) / 100)%float in
  let high := (float_of_int (unpack_I (slice 8 12 record)) / 100)%float in
  let low := (float_of_int (unpack_I (slice 12 16 record)) / 100)%float in
  let close := (float_of_int (unpack_I (slice 16 20 record)) / 100)%float in
  let vol := unpack_I (slice 20 24 record) in
  let amount := (float_of_int (unpack_I (slice 24 28 record)) / 100)%float in
  mkDayRecord date open_p high low close vol amount.

(** The list [data] built by the loop of [parse_tdx_day_file]. *)
Definition day_data (f : list byte) : list DayRecord :=
  read_records 32 decode_day_record f.

(** [pd.DataFrame(data, columns=...)] followed by
    [df["trade_date"].astype(str)]. *)
Definition day_frame (data : list DayRecord) : list DayRow :=
  map (fun r => mkDayRow (str (rec_date r)) (rec_open r) (rec_high r)
                 (rec_low r) (rec_close r) (rec_vol r) (rec_amount r) []) data.

(** [df.sort_values("trade_date")]: ascending in the order of Python strings.
    The default sort of pandas is not stable: it returns the rows of one
    date in an order of its own. The insertion below returns them in file
    order, one of the orders a sort may give; the statements on the frame
    use that it is a permutation of the rows and ascending, never the order
    among rows of one date. *)
Fixpoint insert_row (r : DayRow) (l : list DayRow) : list DayRow :=
  match l with
  | [] => [r]
  | x :: l' =>
      if String.leb (trade_date r) (trade_date x) then r :: l
      else x :: insert_row r l'
  end.

Fixpoint sort_values (l : list DayRow) : list DayRow :=
  match l with
  | [] => []
  | r :: l' => insert_row r (sort_values l')
  end.

Definition parse_tdx_day_file (f : list byte) : list DayRow :=
  sort_values (day_frame (day_data f)).

(** Lines 110-112: the fields of one 48-byte concentration record. *)
Definition decode_chip_record (record : list byte) : Z * float :=
  let date := unpack_I (slice 0 4 record) in
  let concentration_70 := unpack_f (slice 24 28 record) in
  (date, concentration_70).

Definition chip_data (f : list byte) : list (Z * float) :=
  read_records 48 decode_chip_record f.

Definition chip_frame (data : list (Z * float)) : list ChipRow :=
  map (fun r => mkChipRow (str (fst r)) (snd r)) data.

(** [parse_tdx_chip_data], from the file's content ([None] when
    [os.path.exists(chip_file)] is false) to the value for the target date. *)
Definition parse_tdx_chip_data (chip_file : option (list byte))
  (target_date : string) : option float :=
  match chip_file with
  | None => None
  | Some f =>
      let chip_df := chip_frame (chip_data f) in
      let target_chip :=
        filter (fun r => String.eqb (chip_trade_date r) target_date) chip_df in
      match target_chip with
      | [] => None
      | r :: _ => Some (chip_concentration_70 r)
      end
  end.

(* ================================================================== *)
(** * The rolling mean of pandas

    [Series.rolling(window, min_periods).mean()] runs [roll_mean] of
    [pandas/_libs/window/aggregations.pyx] over the window bounds of
    [FixedWindowIndexer]: one state is carried from row to row, a value is
    added to a compensated (Kahan) sum when the window reaches it and
    subtracted when the window has passed it, and [calc_mean] reads the
    mean off the state.

    The steps are written over a record of arithmetic operations: the
    program runs them on binary64; read over the rationals they are the
    same steps without rounding. *)

Record Arith (F : Type) : Type := mkArith {
  num_zero : F;
  num_nan : F;
  num_add : F -> F -> F;
  num_sub : F -> F -> F;
  num_opp : F -> F;
  num_div : F -> F -> F;
  num_of_count : Z -> F;       (** [<float64_t>nobs] *)
  num_eqb : F -> F -> bool;    (** [==] *)
  num_ltb : F -> F -> bool;    (** [<] *)
  num_signbit : F -> bool;
  num_isinf : F -> bool
}.

Arguments num_zero {F}.
Arguments num_nan {F}.
Arguments num_add {F}.
Arguments num_sub {F}.
Arguments num_opp {F}.
Arguments num_div {F}.
Arguments num_of_count {F}.
Arguments num_eqb {F}.
Arguments num_ltb {F}.
Arguments num_signbit {F}.
Arguments num_isinf {F}.

(** The variables [roll_mean] carries from row to row. *)
Record MeanState (F : Type) : Type := mkMeanState {
  nobs : Z;
  sum_x : F;
  neg_ct : Z;
  compensation_add : F;
  compensation_remove : F;
  num_consecutive_same_value : Z;
  prev_value : F
}.

Arguments mkMeanState {F}.
Arguments nobs {F}.
Arguments sum_x {F}.
Arguments neg_ct {F}.
Arguments compensation_add {F}.
Arguments compensation_remove {F}.
Arguments num_consecutive_same_value {F}.
Arguments prev_value {F}.

Section RollMean.

Context {F : Type} (A : Arith F).

(** The values [add_mean] and [remove_mean] take into account: those that
    are not NaN ([val == val]). *)
Definition counted (val : F) : bool := num_eqb A val val.

(** [add_mean]: a value that is not NaN enters the sum. *)
Definition add_mean (val : F) (st : MeanState F) : MeanState F :=
  if num_eqb A val val then
    let y := num_sub A val (compensation_add st) in
    let t := num_add A (sum_x st) y in
    mkMeanState (nobs st + 1) t
      (if num_signbit A val then neg_ct st + 1 else neg_ct st)
      (num_sub A (num_sub A t (sum_x st)) y)
      (compensation_remove st)
      (if num_eqb A val (prev_value st)
       then num_consecutive_same_value st + 1 else 1)
      val
  else st.

(** [remove_mean]: a value that is not NaN leaves the sum. *)
Definition remove_mean (val : F) (st : MeanState F) : MeanState F :=
  if num_eqb A val val then
    let y := num_sub A (num_opp A val) (compensation_remove st) in
    let t := num_add A (sum_x st) y in
    mkMeanState (nobs st - 1) t
      (if num_signbit A val then neg_ct st - 1 else neg_ct st)
      (compensation_add st)
      (num_sub A (num_sub A t (sum_x st)) y)
      (num_consecutive_same_value st)
      (prev_value st)
  else st.

(** [calc_mean]: the mean when there are [minp] observations; the value
    itself when the window holds one repeated value; zero instead of a
    mean whose sign no observation has. *)
Definition calc_mean (minp : Z) (st : MeanState F) : F :=
  if (minp <=? nobs st) && (0 <? nobs st) then
    let result := num_div A (sum_x st) (num_of_count A (nobs st)) in
    if nobs st <=? num_consecutive_same_value st then prev_value st
    else if (neg_ct st =? 0) && num_ltb A result (num_zero A)
    then num_zero A
    else if (neg_ct st =? nobs st) && num_ltb A (num_zero A) result
    then num_zero A
    else result
  else num_nan A.

(** The bounds [start[i]], [end[i]] of [FixedWindowIndexer] for a window
    closed on the right: rows [i + 1 - window .. i], clipped at 0; an empty
    window at [i] when [window] is 0. *)
Definition window_start (window i : nat) : nat :=
  if (window =? 0)%nat then i else (S i - window)%nat.

Definition window_end (window i : nat) : nat :=
  if (window =? 0)%nat then i else S i.

(** The branch "setup" of [roll_mean]: a fresh state whose [prev_value] is
    the first value of the window, then the values of rows [s .. e - 1]. *)
Definition fresh_state (prev : F) : MeanState F :=
  mkMeanState 0 (num_zero A) 0 (num_zero A) (num_zero A) 0 prev.

Definition setup_mean (values : list F) (s e : nat) : MeanState F :=
  fold_left (fun st val => add_mean val st) (slice s e values)
    (fresh_state (nth s values (num_nan A))).

(** The state after the body of the loop of [roll_mean] at row [i]: set up
    at row 0 and where the window starts at or after the end of the one
    before; otherwise the state of row [i - 1], the values that left the
    window removed, those that entered it added. *)
Fixpoint roll_state (values : list F) (window i : nat) : MeanState F :=
  let s := window_start window i in
  let e := window_end window i in
  match i with
  | O => setup_mean values s e
  | S i' =>
      if (window_end window i' <=? s)%nat then setup_mean values s e
      else
        let st := roll_state values window i' in
        let st := fold_left (fun st val => remove_mean val st)
                    (slice (window_start window i') s values) st in
        fold_left (fun st val => add_mean val st)
          (slice (window_end window i') e values) st
  end.

(** [_prep_values]: infinities are turned into NaN before the loop. *)
Definition prep_values (values : list F) : list F :=
  map (fun x => if num_isinf A x then num_nan A else x) values.

(** [output[i]]; [roll_mean] takes [max(minp, 1)] for [minp]. *)
Definition roll_at (window min_periods : nat) (values : list F) (i : nat) : F :=
  calc_mean (Z.max (Z.of_nat min_periods) 1)
    (roll_state (prep_values values) window i).

End RollMean.

(* ================================================================== *)
(** * Indicators *)

#[local] Open Scope float_scope.

(** binary64, the arithmetic of the program. *)
Definition binary64 : Arith float :=
  mkArith float 0 nan PrimFloat.add PrimFloat.sub PrimFloat.opp PrimFloat.div
    float_of_int PrimFloat.eqb PrimFloat.ltb get_sign is_infinity.

(** [xs.rolling(window=window, min_periods=min_periods).mean()] at row
    [i], and the whole column. *)
Definition rolling_at (window min_periods : nat) (xs : list float) (i : nat)
  : float :=
  roll_at binary64 window min_periods xs i.

Definition rolling_mean (window min_periods : nat) (xs : list float) : list float :=
  map (rolling_at window min_periods xs) (seq 0 (length xs)).

(** [df["ma<period>"] = col], row by row. *)
Definition put_ma (period : nat) (v : float) (r : DayRow) : DayRow :=
  mkDayRow (trade_date r) (open r) (high r) (low r) (close r) (vol r)
    (amount r) ((period, v) :: ma r).

Definition set_ma (period : nat) (col : list float) (df : list DayRow) : list DayRow :=
  map (fun rv : DayRow * float => put_ma period (snd rv) (fst rv))
      (combine df col).

Definition calculate_ma (df : list DayRow) (ma_periods : list nat) : list DayRow :=
  fold_left
    (fun df period => set_ma period (rolling_mean period period (map close df)) df)
    ma_periods df.

(** [row["ma<period>"]]: [KeyError] when the column was never assigned. *)
Definition ma_col (period : nat) (r : DayRow) : result float :=
  match find (fun kv => Nat.eqb (fst kv) period) (ma r) with
  | Some kv => Ok (snd kv)
  | None => Raise (KeyError ("ma" ++ str (Z.of_nat period)))
  end.

(** [df[df["trade_date"] == d]]. *)
Definition rows_on (d : string) (df : list DayRow) : list DayRow :=
  filter (fun r => String.eqb (trade_date r) d) df.

(** [df[df["trade_date"] < target_date]]: the order of Python strings. *)
Definition bars_before (target_date : string) (df : list DayRow) : list DayRow :=
  filter (fun r => String.ltb (trade_date r) target_date) df.

(** [df.tail(n)]. *)
Definition tail {A : Type} (n : nat) (l : list A) : list A :=
  skipn (length l - n) l.

(** [Series.max()]: the largest value that is not NaN; NaN when there is
    none. [max_step] is the update of the running maximum by one value. *)
Definition max_step (acc x : float) : float :=
  if is_nan x then acc
  else if is_nan acc then x
  else if acc <? x then x else acc.

Definition series_max (xs : list float) : float := fold_left max_step xs nan.

(** What [check_box_break] returns: a pair on its first [return], a triple
    on its second. *)
Inductive box_result : Type :=
| Tuple2 (is_break : bool) (zero : float)
| Tuple3 (is_break : bool) (box_upper : float) (break_ratio : float).

Definition check_box_break (df : list DayRow) (target_date : string)
  (box_days : nat) : result box_result :=
  let df_target := tail box_days (bars_before target_date df) in
  if (length df_target <? box_days)%nat then Ok (Tuple2 false 0)
  else
    let box_upper := series_max (map close df_target) in
    (target_close <- bind (iloc0 (rows_on target_date df)) (fun r => Ok (close r)) ;;
     let is_break := box_upper * 1.005 <? target_close in
     let break_ratio :=
       if is_break then (target_close / box_upper - 1) * 100 else 0 in
     Ok (Tuple3 is_break box_upper break_ratio))%py.

(** [is_box_break, box_upper, break_ratio = t]: unpacking into three
    targets. *)
Definition unpack3 (t : box_result) : result (bool * float * float) :=
  match t with
  | Tuple3 b u r => Ok (b, u, r)
  | Tuple2 _ _ => Raise ValueError
  end.

Definition check_ma_break (stock_df : list DayRow) (target_date : string)
  (ma_list : list nat) (break_type : string) : result bool :=
  match rows_on target_date stock_df with
  | [] => Ok false
  | target_row :: _ =>
      let target_close := close target_row in
      (ma_values <- list_gen (fun m => ma_col m target_row) ma_list ;;
       if String.eqb break_type "all"
       then Ok (forallb (fun m => m <? target_close) ma_values)
       else if String.eqb break_type "any"
       then Ok (existsb (fun m => m <? target_close) ma_values)
       else Ok false)%py
  end.

(** [l.index(x)]: the first position of [x], [None] standing for the
    [not in] test that guards it. *)
Fixpoint index_of (x : string) (l : list string) : option nat :=
  match l with
  | [] => None
  | y :: l' => if String.eqb y x then Some O else option_map S (index_of x l')
  end.

Definition get_prev_trade_date (df : list DayRow) (target_date : string)
  : option string :=
  let trade_dates := map trade_date df in
  match index_of target_date trade_dates with
  | None => None
  | Some target_idx =>
      if (0 <? target_idx)%nat then nth_error trade_dates (target_idx - 1)
      else None
  end.

(** [round(x, 2)] of a numpy [float64]: [rint(x * 100) / 100], [rint]
    rounding to the nearest integer, ties to even. *)
Definition rint (x : float) : float :=
  if abs x <? 0x1p52 then
    let r := (abs x + 0x1p52) - 0x1p52 in
    if get_sign x then - r else r
  else x.

Definition round2 (x : float) : float := rint (x * 100) / 100.

(* ================================================================== *)
(** * Configuration, basic information, files *)

(** The module-level parameters (section 1 of the source). *)
Record Config : Type := mkConfig {
  TARGET_DATE : string;
  BOX_DAYS : nat;
  VOLUME_GROWTH_RATIO : float;
  TURNOVER_RATE_THRESHOLD : float;
  MARKET_CAP_THRESHOLD : float;
  CHIP_CONCENTRATION : float;
  MA_LIST : list nat;
  BREAK_MA_TYPE : string
}.

(** The values the source assigns. *)
Definition source_config : Config :=
  mkConfig "20251030" 20 1.5 10 100 70 [5; 10; 20]%nat "all".

(** A cell of the column [circulating_market_cap] as [pd.read_csv] hands it
    over. A column whose fields are all numeric literals or empty is read
    as [float64], NaN standing for an empty field; a column that holds a
    field that is not a number is read as text: every field of it that is
    not empty is a Python string, and the empty ones are NaN. *)
Inductive CapCell : Type :=
| CapNumber (x : float)
| CapText (s : string).

(** A line of [stock_basic.csv] in a frame whose code column was read as
    text; the columns the program never reads (total_share,
    total_market_cap, industry, region, list_date) are left out. The code
    is [None] for an empty field, which the frame holds as NaN. *)
Record CsvRow : Type := mkCsvRow {
  csv_ts_code : option string;
  csv_name : string;
  csv_circulating_share : float;
  csv_circulating_market_cap : CapCell
}.

(** The frame of lines 79-80, by the type [pd.read_csv] inferred for the
    code column: numbers when every code field is a numeric literal (or
    empty), Python strings otherwise. *)
Inductive CsvFrame : Type :=
| NumericCodes
| TextCodes (rows : list CsvRow).

(** A row of [basic_df]. [circulating_share] is [None] in a frame that has
    no such column. *)
Record BasicRow : Type := mkBasicRow {
  ts_code : string;
  name : string;
  circulating_market_cap : float;
  circulating_share : option float
}.

(** [re.match(r"^60|^00|^30", code)]. *)
Definition a_share (code : string) : bool :=
  String.prefix "60" code || String.prefix "00" code || String.prefix "30" code.

(** [get_stock_basic_info]. [stock_basic] is [None] when the file does not
    exist, [Some (Raise e)] when [pd.read_csv] or the assignment of the nine
    column names raises [e], [Some (Ok frame)] for the frame they give.
    - Line 83: the accessor [.str] raises [AttributeError] on a column that
      does not hold strings; on a column of strings [str.match] answers NaN
      for an empty field, and a mask that holds NaN raises [ValueError].
    - Line 85: the division raises [TypeError] on a string.
    - Line 86: the frame returned is the selection
      [df[["ts_code", "name", "circulating_market_cap"]]]. *)
Definition get_stock_basic_info (stock_basic : option (result CsvFrame))
  : result (list BasicRow) :=
  match stock_basic with
  | None => Raise FileNotFoundError
  | Some (Raise e) => Raise e
  | Some (Ok NumericCodes) => Raise AttributeError
  | Some (Ok (TextCodes rows)) =>
      (coded <- list_gen (fun r => match csv_ts_code r with
                                   | Some code => Ok (code, r)
                                   | None => Raise ValueError
                                   end) rows ;;
       let df := filter (fun cr => a_share (fst cr)) coded in
       list_gen (fun cr : string * CsvRow =>
                   match csv_circulating_market_cap (snd cr) with
                   | CapNumber x =>
                       Ok (mkBasicRow (fst cr) (csv_name (snd cr))
                             (x / 10000) None)
                   | CapText _ => Raise TypeError
                   end) df)%py
  end.

(** [frame["circulating_share"]] on the rows selected from [basic_df]. *)
Definition share_col (r : BasicRow) : result float :=
  match circulating_share r with
  | Some v => Ok v
  | None => Raise (KeyError "circulating_share")
  end.

(** The data directories: for a code, the first file
    [glob(DAY_DATA_PATH/<code>*.day)] finds and the file
    [CHIP_DATA_PATH/<code>.chip], when they exist. *)
Record FileSystem : Type := mkFileSystem {
  day_files : string -> option (list byte);
  chip_files : string -> option (list byte)
}.

(** The dictionary appended to [final_selected]. *)
Record ScreeningResult : Type := mkScreeningResult {
  sr_code : string;
  sr_name : string;
  sr_market_cap : float;
  sr_close : float;
  sr_ma5 : option float;
  sr_ma10 : option float;
  sr_ma20 : option float;
  sr_volume_growth_pct : float;
  sr_turnover_rate : float;
  sr_chip_concentration : float;
  sr_box_upper : float;
  sr_break_ratio : float
}.

(* ================================================================== *)
(** * The selection loop *)

(** [turnover_rate = (target_vol * 100) / circulating_share] (line 220). *)
Definition turnover_rate (target_vol : Z) (circulating_share : float) : float :=
  float_of_int (target_vol * 100) / circulating_share.

(** [volume_growth = target_vol / prev_vol] (line 224), a division of numpy
    integers: it does not raise on a zero divisor. *)
Definition volume_growth (target_vol prev_vol : Z) : float :=
  float_of_int target_vol / float_of_int prev_vol.

(** [round(target_row["ma<p>"].iloc[0], 2) if p in MA_LIST else "-"]. *)
Definition ma_entry (cfg : Config) (p : nat) (target_row : DayRow)
  : result (option float) :=
  if existsb (Nat.eqb p) (MA_LIST cfg)
  then bind (ma_col p target_row) (fun v => Ok (Some (round2 v)))
  else Ok None.

(** The body of the loop over [ts_codes] (lines 188-260) for one code:
    [Ok None] is [continue], [Ok (Some r)] is [final_selected.append(r)],
    [Raise e] is an exception leaving the loop. *)
Definition process_stock (cfg : Config) (fs : FileSystem)
  (basic_df : list BasicRow) (code : string) : result (option ScreeningResult) :=
  (* 2.1 *)
  match day_files fs code with
  | None => Ok None
  | Some day_file =>
  let day_df := parse_tdx_day_file day_file in
  (* 2.2 *)
  if negb (existsb (String.eqb (TARGET_DATE cfg)) (map trade_date day_df))
  then Ok None else
  (* 2.3 *)
  match get_prev_trade_date day_df (TARGET_DATE cfg) with
  | None => Ok None
  | Some prev_date =>
  if String.eqb prev_date ""
     || negb (existsb (String.eqb prev_date) (map trade_date day_df))
  then Ok None else
  (* 2.4 *)
  let day_df := calculate_ma day_df (MA_LIST cfg) in
  let target_row := rows_on (TARGET_DATE cfg) day_df in
  (incomplete <-
     any_gen (fun p => r <- iloc0 target_row ;;
                       v <- ma_col p r ;;
                       Ok (is_nan v)) (MA_LIST cfg) ;;
   if incomplete : bool then Ok None else
   (* 2.5 *)
   r <- iloc0 target_row ;;
   let target_close := close r in
   let target_vol := vol r in
   p <- iloc0 (rows_on prev_date day_df) ;;
   let prev_vol := vol p in
   let profile := filter (fun b => String.eqb (ts_code b) code) basic_df in
   b <- iloc0 profile ;;
   let circulating_market_cap := circulating_market_cap b in
   let stock_name := name b in
   share <- share_col b ;;
   let turnover_rate := turnover_rate target_vol share in
   (* 2.6, condition 1 *)
   let volume_growth := volume_growth target_vol prev_vol in
   if volume_growth <? VOLUME_GROWTH_RATIO cfg then Ok None else
   (* condition 2 *)
   if turnover_rate <? TURNOVER_RATE_THRESHOLD cfg then Ok None else
   (* condition 3 *)
   match parse_tdx_chip_data (chip_files fs code) (TARGET_DATE cfg) with
   | None => Ok None
   | Some chip_concentration =>
   if (chip_concentration =? 0) || (chip_concentration <? CHIP_CONCENTRATION cfg)
   then Ok None else
   (* condition 4 *)
   t <- check_box_break day_df (TARGET_DATE cfg) (BOX_DAYS cfg) ;;
   ' (is_box_break, box_upper, break_ratio) <- unpack3 t ;;
   if negb is_box_break then Ok None else
   (* condition 5 *)
   ma_ok <- check_ma_break day_df (TARGET_DATE cfg) (MA_LIST cfg)
              (BREAK_MA_TYPE cfg) ;;
   if negb ma_ok then Ok None else
   ma5 <- ma_entry cfg 5 r ;;
   ma10 <- ma_entry cfg 10 r ;;
   ma20 <- ma_entry cfg 20 r ;;
   Ok (Some (mkScreeningResult code stock_name
               (round2 circulating_market_cap) (round2 target_close)
               ma5 ma10 ma20
               (round2 ((volume_growth - 1) * 100))
               (round2 turnover_rate) (round2 chip_concentration)
               (round2 box_upper) (round2 break_ratio)))
   end)%py
  end
  end.

(** [for i, ts_code in enumerate(ts_codes): ...]: an exception ends the
    loop and leaves [stock_selection_tdx_auto]. *)
Fixpoint scan (cfg : Config) (fs : FileSystem) (basic_df : list BasicRow)
  (ts_codes : list string) (final_selected : list ScreeningResult)
  : result (list ScreeningResult) :=
  match ts_codes with
  | [] => Ok final_selected
  | code :: rest =>
      match process_stock cfg fs basic_df code with
      | Ok None => scan cfg fs basic_df rest final_selected
      | Ok (Some r) => scan cfg fs basic_df rest (final_selected ++ [r])
      | Raise e => Raise e
      end
  end.

(** Step 1 applied to a loaded frame: the market-cap filter and the codes
    to visit. *)
Definition cap_filter (cfg : Config) (basic_df : list BasicRow) : list BasicRow :=
  filter (fun b => circulating_market_cap b <=? MARKET_CAP_THRESHOLD cfg) basic_df.

(** Steps 1 and 2 on a loaded frame. *)
Definition select_from (cfg : Config) (fs : FileSystem)
  (basic_df : list BasicRow) : result (list ScreeningResult) :=
  let basic_df := cap_filter cfg basic_df in
  scan cfg fs basic_df (map ts_code basic_df) [].

(** How a run of the script ends. *)
Inductive run : Type :=
| SetupFailed (e : exn)
    (** step 1 raised: the message is printed and the function returns *)
| NoCandidates
    (** no code passes the market-cap filter *)
| Completed (final_selected : list ScreeningResult)
    (** the loop ran over every code *)
| Crashed (e : exn)
    (** an exception left the loop; the handler of [__main__] reports it *).

Definition stock_selection_tdx_auto (cfg : Config) (fs : FileSystem)
  (stock_basic : option (result CsvFrame)) : run :=
  match get_stock_basic_info stock_basic with
  | Raise e => SetupFailed e
  | Ok basic_df =>
      let basic_df := cap_filter cfg basic_df in
      let ts_codes := map ts_code basic_df in
      match ts_codes with
      | [] => NoCandidates
      | _ :: _ =>
          match scan cfg fs basic_df ts_codes [] with
          | Ok final_selected => Completed final_selected
          | Raise e => Crashed e
          end
      end
  end.

(* ================================================================== *)
(** * The record layouts, written by an encoder

    The source only reads the two formats. The encoders below write a
    record from its fields at the offsets of the layouts (daily record:
    date at 0, open, high, low, close at 4, 8, 12, 16, volume at 20, amount
    at 24, 4 reserved bytes; concentration record: date at 0, the binary32
    value at 24, the other 40 bytes reserved); they are what the decoders
    are checked against. *)

#[local] Open Scope Z_scope.

Definition byte_of_Z (z : Z) : byte :=
  match Byte.of_N (Z.to_N (z mod 256)) with
  | Some b => b
  | None => x00
  end.

(** [struct.pack("<I", n)]. *)
Definition pack_I (n : Z) : list byte :=
  [byte_of_Z n; byte_of_Z (n / 256); byte_of_Z (n / 65536);
   byte_of_Z (n / 16777216)].

(** The integer fields of a daily record: prices and amount in hundredths. *)
Record DayFields : Type := mkDayFields {
  f_date : Z;
  f_open : Z;
  f_high : Z;
  f_low : Z;
  f_close : Z;
  f_vol : Z;
  f_amount : Z
}.

Definition encode_day_record (x : DayFields) (reserved : list byte) : list byte :=
  pack_I (f_date x) ++ pack_I (f_open x) ++ pack_I (f_high x)
  ++ pack_I (f_low x) ++ pack_I (f_close x) ++ pack_I (f_vol x)
  ++ pack_I (f_amount x) ++ firstn 4 (reserved ++ repeat x00 4).

(** A concentration record: the date, the bit pattern [bits] of the binary32
    value, and the reserved bytes 4-23 and 28-47. *)
Definition encode_chip_record (date bits : Z) (reserved1 reserved2 : list byte)
  : list byte :=
  pack_I date ++ firstn 20 (reserved1 ++ repeat x00 20)
  ++ pack_I bits ++ firstn 20 (reserved2 ++ repeat x00 20).

(** The value the decoder assigns to the fields of a daily record. *)
Definition day_record_of_fields (x : DayFields) : DayRecord :=
  mkDayRecord (f_date x) (float_of_int (f_open x) / 100)%float
    (float_of_int (f_high x) / 100)%float (float_of_int (f_low x) / 100)%float
    (float_of_int (f_close x) / 100)%float (f_vol x)
    (float_of_int (f_amount x) / 100)%float.

Definition uint32 (n : Z) : Prop := 0 <= n < 2 ^ 32.

Definition day_fields_ok (x : DayFields) : Prop :=
  uint32 (f_date x) /\ uint32 (f_open x) /\ uint32 (f_high x)
  /\ uint32 (f_low x) /\ uint32 (f_close x) /\ uint32 (f_vol x)
  /\ uint32 (f_amount x).

(* ================================================================== *)
(** * The loop body read as a chain of filter stages

    The eight stages the body and step 1 apply, each as the function of one
    instrument the source lines compute, so that the chain can be run in
    another order. A stage answers [Ok true] (the instrument stays),
    [Ok false] (it is excluded) or raises. *)

#[local] Open Scope float_scope.

Inductive stage : Type :=
| StaticCap           (** line 171 *)
| SeriesAvailability  (** lines 189-201 *)
| MACompleteness      (** lines 206-208 *)
| VolumeGrowth        (** lines 212-213, 224-226 *)
| TurnoverRate        (** lines 212, 219-220, 229-230 *)
| Concentration       (** lines 233-235 *)
| BoxBreakout         (** lines 238-240 *)
| MABreakout          (** lines 243-244 *).

(** The order of the source. *)
Definition stage_order : list stage :=
  [StaticCap; SeriesAvailability; MACompleteness; VolumeGrowth; TurnoverRate;
   Concentration; BoxBreakout; MABreakout].

(** Lines 189-192 and 204 without the guard of step 2.1:
    [calculate_ma(parse_tdx_day_file(day_file[0]), MA_LIST)]. *)
Definition load_day_df (cfg : Config) (fs : FileSystem) (code : string)
  : result (list DayRow) :=
  match day_files fs code with
  | None => Raise IndexError
  | Some day_file => Ok (calculate_ma (parse_tdx_day_file day_file) (MA_LIST cfg))
  end.

Definition run_stage (cfg : Config) (fs : FileSystem)
  (basic_df : list BasicRow) (code : string) (s : stage) : result bool :=
  (match s with
   | StaticCap =>
       b <- iloc0 (filter (fun b => String.eqb (ts_code b) code) basic_df) ;;
       Ok (circulating_market_cap b <=? MARKET_CAP_THRESHOLD cfg)
   | SeriesAvailability =>
       match day_files fs code with
       | None => Ok false
       | Some day_file =>
           let day_df := parse_tdx_day_file day_file in
           if negb (existsb (String.eqb (TARGET_DATE cfg)) (map trade_date day_df))
           then Ok false
           else
             match get_prev_trade_date day_df (TARGET_DATE cfg) with
             | None => Ok false
             | Some prev_date =>
                 Ok (negb (String.eqb prev_date ""
                           || negb (existsb (String.eqb prev_date)
                                      (map trade_date day_df))))
             end
       end
   | MACompleteness =>
       day_df <- load_day_df cfg fs code ;;
       let target_row := rows_on (TARGET_DATE cfg) day_df in
       incomplete <-
         any_gen (fun p => r <- iloc0 target_row ;;
                           v <- ma_col p r ;;
                           Ok (is_nan v)) (MA_LIST cfg) ;;
       Ok (negb incomplete)
   | VolumeGrowth =>
       day_df <- load_day_df cfg fs code ;;
       r <- iloc0 (rows_on (TARGET_DATE cfg) day_df) ;;
       p <- iloc0 match get_prev_trade_date day_df (TARGET_DATE cfg) with
                  | Some prev_date => rows_on prev_date day_df
                  | None => []
                  end ;;
       Ok (negb (volume_growth (vol r) (vol p) <? VOLUME_GROWTH_RATIO cfg))
   | TurnoverRate =>
       day_df <- load_day_df cfg fs code ;;
       r <- iloc0 (rows_on (TARGET_DATE cfg) day_df) ;;
       b <- iloc0 (filter (fun b => String.eqb (ts_code b) code) basic_df) ;;
       share <- share_col b ;;
       Ok (negb (turnover_rate (vol r) share <? TURNOVER_RATE_THRESHOLD cfg))
   | Concentration =>
       match parse_tdx_chip_data (chip_files fs code) (TARGET_DATE cfg) with
       | None => Ok false
       | Some chip_concentration =>
           Ok (negb ((chip_concentration =? 0)
                     || (chip_concentration <? CHIP_CONCENTRATION cfg)))
       end
   | BoxBreakout =>
       day_df <- load_day_df cfg fs code ;;
       t <- check_box_break day_df (TARGET_DATE cfg) (BOX_DAYS cfg) ;;
       ' (is_box_break, _, _) <- unpack3 t ;;
       Ok is_box_break
   | MABreakout =>
       day_df <- load_day_df cfg fs code ;;
       check_ma_break day_df (TARGET_DATE cfg) (MA_LIST cfg) (BREAK_MA_TYPE cfg)
   end)%py.

(** The stages of [order] applied in turn; the first exclusion or exception
    ends the chain. *)
Fixpoint run_stages (cfg : Config) (fs : FileSystem) (basic_df : list BasicRow)
  (code : string) (order : list stage) : result bool :=
  match order with
  | [] => Ok true
  | s :: order' =>
      match run_stage cfg fs basic_df code s with
      | Ok true => run_stages cfg fs basic_df code order'
      | Ok false => Ok false
      | Raise e => Raise e
      end
  end.

(** The chain over the codes of a table: the codes that stay, in the order
    of the table. *)
Fixpoint scan_stages (cfg : Config) (fs : FileSystem) (basic_df : list BasicRow)
  (order : list stage) (ts_codes : list string) : result (list string) :=
  match ts_codes with
  | [] => Ok []
  | code :: rest =>
      match run_stages cfg fs basic_df code order with
      | Ok keep =>
          match scan_stages cfg fs basic_df order rest with
          | Ok l => Ok (if keep then code :: l else l)
          | Raise e => Raise e
          end
      | Raise e => Raise e
      end
  end.

Definition select_with (order : list stage) (cfg : Config) (fs : FileSystem)
  (basic_df : list BasicRow) : result (list string) :=
  scan_stages cfg fs basic_df order (map ts_code basic_df).

(** What the loop body decided for one code: [Ok true] when it appended. *)
Definition keeps (r : result (option ScreeningResult)) : result bool :=
  match r with
  | Ok (Some _) => Ok true
  | Ok None => Ok false
  | Raise e => Raise e
  end.

(** What a stage answers for one code, an exception counted as an
    exclusion. *)
Definition verdict (cfg : Config) (fs : FileSystem) (basic_df : list BasicRow)
  (code : string) (s : stage) : bool :=
  match run_stage cfg fs basic_df code s with
  | Ok v => v
  | Raise _ => false
  end.

(** The membership of a result collection. *)
Definition membership (r : result (list ScreeningResult)) : result (list string) :=
  match r with
  | Ok l => Ok (map sr_code l)
  | Raise e => Raise e
  end.

(** In [order] the availability stage comes before every stage that reads
    the daily frame: only [StaticCap] and [Concentration] may precede it. *)
Fixpoint guard_first (order : list stage) : bool :=
  match order with
  | [] => true
  | SeriesAvailability :: _ => true
  | (StaticCap | Concentration) :: order' => guard_first order'
  | _ :: _ => false
  end.

(** Every row of the table carries the column [circulating_share]. *)
Definition has_share (basic_df : list BasicRow) : bool :=
  forallb (fun b => match circulating_share b with
                    | Some _ => true
                    | None => false
                    end) basic_df.

(** The daily file of [code], when there is one, has [BOX_DAYS] bars dated
    before the target. *)
Definition window_ok (cfg : Config) (fs : FileSystem) (code : string) : bool :=
  match day_files fs code with
  | None => true
  | Some day_file =>
      (BOX_DAYS cfg <=?
       length (bars_before (TARGET_DATE cfg) (parse_tdx_day_file day_file)))%nat
  end.

(* ================================================================== *)
(** * Reference notions the statements use *)

(** The complete leading records of a stream: chunk [k] is the bytes
    [k * width .. k * width + width - 1], for [k < length f / width]. *)
Definition complete_records (width : nat) (f : list byte) : list (list byte) :=
  map (fun k => slice (k * width) (k * width + width) f)
      (seq 0 (length f / width)).

(** The stream without its trailing partial chunk. *)
Definition valid_prefix (width : nat) (f : list byte) : list byte :=
  firstn (width * (length f / width)) f.

(** Ascending and strictly ascending trade dates, as strings. *)
Definition date_le (a b : DayRow) : Prop :=
  String.leb (trade_date a) (trade_date b) = true.

Definition date_lt (a b : DayRow) : Prop :=
  String.ltb (trade_date a) (trade_date b) = true.

(** [r'] is the bar [r] with a value in the column of every period of
    [periods]. *)
Definition same_bar (periods : list nat) (r r' : DayRow) : Prop :=
  trade_date r' = trade_date r /\ close r' = close r /\ vol r' = vol r
  /\ forall p, In p periods -> exists v, ma_col p r' = Ok v.

(* ================================================================== *)
(** * Further notions the statements use *)

(** The image of a float that is NaN or carries the sign [+]. *)
Definition plus_or_nan (s : spec_float) : Prop :=
  match s with
  | S754_nan => True
  | S754_zero sign | S754_infinity sign | S754_finite sign _ _ => sign = false
  end.

(** What the loop body decided, as a selection flag. *)
Definition selected (r : result (option ScreeningResult)) : bool :=
  match r with
  | Ok (Some _) => true
  | _ => false
  end.

(** Whole files written with the encoders: a concentration file from its
    samples (date, bit pattern of the binary32 value), a daily file from its
    bars, the reserved bytes zero. *)
Definition encode_chip_file (samples : list (Z * Z)) : list byte :=
  concat (map (fun s => encode_chip_record (fst s) (snd s) [] []) samples).

Definition encode_day_file (bars : list DayFields) : list byte :=
  concat (map (fun x => encode_day_record x []) bars).

(** The bit pattern of the first sample written for a date. *)
Definition first_sample (date : Z) (samples : list (Z * Z)) : option Z :=
  option_map snd (find (fun s => Z.eqb (fst s) date) samples).

(** The instrument gets through steps 2.1-2.4 (lines 189-208), so that the
    loop body goes on to read its profile (lines 214-219). *)
Definition reaches_profile (cfg : Config) (fs : FileSystem)
  (basic_df : list BasicRow) (code : string) : bool :=
  match run_stages cfg fs basic_df code [SeriesAvailability; MACompleteness] with
  | Ok b => b
  | Raise _ => false
  end.

(** [cfg'] is [cfg] with the three lower bounds of conditions 1-3 lowered
    or left as they are (the market-cap bound, which the loop body does not
    read, is free). *)
Definition looser (cfg cfg' : Config) : Prop :=
  TARGET_DATE cfg' = TARGET_DATE cfg
  /\ BOX_DAYS cfg' = BOX_DAYS cfg
  /\ MA_LIST cfg' = MA_LIST cfg
  /\ BREAK_MA_TYPE cfg' = BREAK_MA_TYPE cfg
  /\ (VOLUME_GROWTH_RATIO cfg' <=? VOLUME_GROWTH_RATIO cfg)%float = true
  /\ (TURNOVER_RATE_THRESHOLD cfg' <=? TURNOVER_RATE_THRESHOLD cfg)%float = true
  /\ (CHIP_CONCENTRATION cfg' <=? CHIP_CONCENTRATION cfg)%float = true.

(** Exact arithmetic: the rationals, on which no operation rounds; every
    rational is a number and none is infinite. [undefined] stands where
    [calc_mean] answers NaN. *)
Definition rational (undefined : Qc) : Arith Qc :=
  mkArith Qc (Q2Qc 0) undefined Qcplus Qcminus Qcopp Qcdiv
    (fun n => Q2Qc (inject_Z n))
    (fun a b => if Qc_eq_dec a b then true else false)
    (fun a b => if Qclt_le_dec a b then true else false)
    (fun a => if Qclt_le_dec a (Q2Qc 0) then true else false)
    (fun _ => false).

(** The sum of a list of rationals. *)
Definition qsum (l : list Qc) : Qc := fold_right Qcplus (Q2Qc 0) l.

(** A rational below zero, the values whose sign bit is set. *)
Definition negative (q : Qc) : bool :=
  if Qclt_le_dec q (Q2Qc 0) then true else false.

(** The state [st] after the rows before [e] of [qs], when the window holds
    the values [W], in exact arithmetic: the sum is the sum of the window and
    nothing is left to compensate; the negatives of the window are counted;
    the last [num_consecutive_same_value] rows hold [prev_value]. *)
Definition tracks (qs : list Qc) (e : nat) (W : list Qc)
  (st : MeanState Qc) : Prop :=
  sum_x st = qsum W
  /\ compensation_add st = Q2Qc 0
  /\ compensation_remove st = Q2Qc 0
  /\ neg_ct st = Z.of_nat (length (filter negative W))
  /\ 0 <= num_consecutive_same_value st
  /\ forall j,
       (e - Z.to_nat (num_consecutive_same_value st) <= j < e)%nat ->
       nth_error qs j = Some (prev_value st).

(** The code and the market cap of a line whose code is text and whose cap
    is a number. *)
Definition row_code (r : CsvRow) : string :=
  match csv_ts_code r with
  | Some code => code
  | None => ""
  end.

Definition row_cap (r : CsvRow) : float :=
  match csv_circulating_market_cap r with
  | CapNumber x => x
  | CapText _ => nan
  end.

(* ================================================================== *)
(** * Sample files and tables

    Small inputs on which the statements below are evaluated. *)

#[local] Open Scope Z_scope.

(** A daily record with the four prices equal. *)
Definition flat_bar (date price volume : Z) : list byte :=
  encode_day_record
    (mkDayFields date price price price price volume (price * volume)) [].

(** Twenty consecutive dates before the target date of [source_config]. *)
Definition earlier_dates : list Z :=
  map (fun i => 20251001 + Z.of_nat i) (seq 0 20).

(** Twenty bars closing at 10.00 on 1000 lots, then the target bar
    closing at 10.10 on 2000 lots. *)
Definition rising_file : list byte :=
  concat (map (fun d => flat_bar d 1000 1000) earlier_dates)
  ++ flat_bar 20251030 1010 2000.

(** The same with the target bar closing at 10.04. *)
Definition quiet_file : list byte :=
  concat (map (fun d => flat_bar d 1000 1000) earlier_dates)
  ++ flat_bar 20251030 1004 2000.

(** The same as [rising_file] without its first bar: nineteen bars before
    the target. *)
Definition short_file : list byte :=
  concat (map (fun d => flat_bar d 1000 1000) (List.tl earlier_dates))
  ++ flat_bar 20251030 1010 2000.

(** Twenty bars, none on the target date. *)
Definition stale_file : list byte :=
  concat (map (fun d => flat_bar d 1000 1000) earlier_dates).

(** Two bars, the later date first. *)
Definition descending_file : list byte :=
  flat_bar 20251030 1010 2000 ++ flat_bar 20251029 1000 1000.

(** Concentration files: one sample of 80.0 on the target date; one sample
    of 0.0 on the target date; one sample of 80.0 on another date. *)
Definition chip_80 : list byte := encode_chip_record 20251030 0x42a00000 [] [].
Definition chip_zero : list byte := encode_chip_record 20251030 0 [] [].
Definition chip_other_day : list byte := encode_chip_record 20251029 0x42a00000 [] [].

(** The data directories of the samples. *)
Definition sample_fs : FileSystem :=
  mkFileSystem
    (fun code =>
       if String.eqb code "600002" then Some short_file
       else if String.eqb code "600006" then Some stale_file
       else if String.eqb code "600007" then None
       else Some rising_file)
    (fun code =>
       if String.eqb code "600003" then None
       else if String.eqb code "600004" then Some chip_other_day
       else if String.eqb code "600005" then Some chip_zero
       else Some chip_80).

(** A row of a table that carries the share column: 10000 units of
    circulating shares, a market cap of 50. *)
Definition profile (code : string) : BasicRow :=
  mkBasicRow code "sample" 50%float (Some 10000%float).

(** Five bars closing at 10.00. *)
Definition five_bar_file : list byte :=
  concat (map (fun d => flat_bar d 1000 1000) (firstn 5 earlier_dates)).

(** Four bars closing at 4.11, 7.11, 2.03 and 4.22, and the last two of
    them alone. *)
Definition drift_file : list byte :=
  flat_bar 20251001 411 1000 ++ flat_bar 20251002 711 1000
  ++ flat_bar 20251003 203 1000 ++ flat_bar 20251004 422 1000.

Definition recent_file : list byte :=
  flat_bar 20251003 203 1000 ++ flat_bar 20251004 422 1000.

(** The chain with the completeness stage moved before the availability
    stage, and the chain in another order that keeps the availability stage
    before the stages that read the daily frame. *)
Definition completeness_first : list stage :=
  [StaticCap; MACompleteness; SeriesAvailability; VolumeGrowth; TurnoverRate;
   Concentration; BoxBreakout; MABreakout].

Definition reordered : list stage :=
  [Concentration; SeriesAvailability; MABreakout; BoxBreakout; StaticCap;
   TurnoverRate; VolumeGrowth; MACompleteness].

(** A table of five instruments whose daily files, where there is one, have
    twenty bars before the target date. *)
Definition sample_table : list BasicRow :=
  [profile "600001"; profile "600003"; profile "600005"; profile "600006";
   profile "600007"].

(** The configuration of the source with the concentration threshold
    lowered below zero. *)
Definition lenient_config : Config :=
  mkConfig "20251030" 20 1.5 10 100 (-1) [5; 10; 20]%nat "all".

(** A basic-information file with one instrument, whose code carries a
    market suffix and is read as text. *)
Definition sample_csv : CsvFrame :=
  TextCodes [mkCsvRow (Some "600001.SH"%string) "sample" 10000 (CapNumber 500000)].

(* ================================================================== *)
(** * Further sample files *)

(** A concentration file whose sample on the target date is a NaN. *)
Definition chip_nan : list byte := encode_chip_record 20251030 0x7fc00000 [] [].

(** [rising_file] with no volume on the bar before the target. *)
Definition idle_eve_file : list byte :=
  concat (map (fun d => flat_bar d 1000 1000) (firstn 19 earlier_dates))
  ++ flat_bar 20251020 1000 0 ++ flat_bar 20251030 1010 2000.

(** Ten bars and the target bar: a history too short for the 20-day
    average. *)
Definition young_file : list byte :=
  concat (map (fun d => flat_bar d 1000 1000) (firstn 10 earlier_dates))
  ++ flat_bar 20251030 1010 2000.

(** The data directories of the further samples. *)
Definition edge_fs : FileSystem :=
  mkFileSystem
    (fun code =>
       if String.eqb code "600011" then Some idle_eve_file
       else if String.eqb code "600014" then Some young_file
       else Some rising_file)
    (fun code =>
       if String.eqb code "600012" then Some chip_nan
       else Some chip_80).

(* ================================================================== *)
(** * The read loop *)

#[local] Open Scope Z_scope.

Lemma slice_chunk {A : Type} (k width : nat) (l : list A) :
  slice (k * width) (k * width + width) l = firstn width (skipn (k * width) l).
Proof.
  unfold slice. f_equal. lia.
Qed.

Lemma complete_records_short (width : nat) (f : list byte) :
  (length f < width)%nat -> complete_records width f = [].
Proof.
  intros H. unfold complete_records.
  rewrite Nat.div_small by exact H. reflexivity.
Qed.

Lemma complete_records_step (width : nat) (f : list byte) :
  (0 < width <= length f)%nat ->
  complete_records width f
  = firstn width f :: complete_records width (skipn width f).
Proof.
  intros [Hw Hl]. unfold complete_records.
  rewrite length_skipn.
  replace (length f / width)%nat with (S ((length f - width) / width)).
  2:{ replace (length f) with ((length f - width) + 1 * width)%nat at 2 by lia.
      rewrite Nat.div_add by lia. lia. }
  rewrite <- cons_seq, <- seq_shift. cbn [map]. rewrite map_map.
  f_equal.
  - rewrite slice_chunk. reflexivity.
  - apply map_ext. intros k. rewrite !slice_chunk, skipn_skipn.
    do 2 f_equal. lia.
Qed.

(** With more fuel than bytes the loop ends by its [break], having appended
    the decoding of every complete chunk, in file order. *)
Lemma read_loop_fuel {A : Type} (width : nat) (decode : list byte -> A) :
  forall (fuel : nat) (f : list byte) (data : list A),
    (length f < fuel)%nat ->
    read_loop width decode fuel f data
    = Some (data ++ map decode (complete_records width f)).
Proof.
  induction fuel as [|fuel IH]; intros f data Hf; [lia|].
  cbn [read_loop].
  destruct (firstn width f) as [|b record] eqn:Hrec.
  - (* the read returns nothing: end of file, or a zero width *)
    assert (Hsmall : complete_records width f = []).
    { destruct width as [|w].
      - unfold complete_records. reflexivity.
      - destruct f; [|discriminate]. apply complete_records_short. simpl. lia. }
    rewrite Hsmall, app_nil_r. reflexivity.
  - rewrite <- Hrec.
    assert (Hw : (0 < width)%nat) by (destruct width; [discriminate|lia]).
    assert (Hne : f <> []) by (intros ->; rewrite firstn_nil in Hrec; discriminate).
    assert (Hlen : (length (skipn width f) < fuel)%nat).
    { rewrite length_skipn. destruct f as [|b0 f0]; [congruence|].
      cbn [length] in Hf |- *. lia. }
    rewrite length_firstn.
    destruct (Nat.eqb_spec (Nat.min width (length f)) width) as [Hfull|Hpart];
      cbn [negb].
    + (* a complete chunk *)
      rewrite IH by exact Hlen.
      rewrite (complete_records_step width f) by lia.
      cbn [map]. rewrite <- app_assoc. reflexivity.
    + (* the truncated tail: skipped, and the next read is empty *)
      rewrite IH by exact Hlen.
      rewrite (complete_records_short width f) by lia.
      rewrite skipn_all2 by lia.
      rewrite complete_records_short by (simpl; lia).
      reflexivity.
Qed.

Lemma read_records_complete {A : Type} (width : nat) (decode : list byte -> A)
  (f : list byte) :
  read_records width decode f = map decode (complete_records width f).
Proof.
  unfold read_records. rewrite read_loop_fuel by lia. reflexivity.
Qed.

Lemma complete_records_length (width : nat) (f : list byte) :
  length (complete_records width f) = (length f / width)%nat.
Proof.
  unfold complete_records. rewrite length_map, length_seq. reflexivity.
Qed.

Lemma complete_records_prefix (width : nat) (f : list byte) :
  complete_records width (valid_prefix width f) = complete_records width f.
Proof.
  unfold complete_records, valid_prefix.
  destruct width as [|w]; [reflexivity|].
  set (n := (length f / S w)%nat).
  assert (Hn : (S w * n <= length f)%nat).
  { unfold n. apply Nat.Div0.mul_div_le. }
  rewrite length_firstn, Nat.min_l by exact Hn.
  rewrite (Nat.mul_comm (S w) n), Nat.div_mul by lia.
  apply map_ext_in. intros k Hk. apply in_seq in Hk.
  rewrite !slice_chunk.
  rewrite skipn_firstn_comm, firstn_firstn.
  f_equal. nia.
Qed.

(* ================================================================== *)
(** * Packing and unpacking *)

Lemma byte_of_Z_value (z : Z) : Z.of_N (Byte.to_N (byte_of_Z z)) = z mod 256.
Proof.
  unfold byte_of_Z.
  assert (Hr : 0 <= z mod 256 < 256) by (apply Z.mod_pos_bound; lia).
  destruct (Byte.of_N (Z.to_N (z mod 256))) as [b|] eqn:Hb.
  - apply Byte.to_of_N in Hb. rewrite Hb. lia.
  - apply Byte.of_N_None_iff in Hb. lia.
Qed.

Lemma le_uint_pack_I (n : Z) : uint32 n -> le_uint (pack_I n) = n.
Proof.
  unfold uint32, pack_I. intros Hn. cbn [le_uint].
  rewrite !byte_of_Z_value.
  change 65536 with (256 * 256). change 16777216 with (256 * 256 * 256).
  rewrite <- !Z.div_div by lia.
  pose proof (Z.div_mod n 256 ltac:(lia)) as H0.
  pose proof (Z.div_mod (n / 256) 256 ltac:(lia)) as H1.
  pose proof (Z.div_mod (n / 256 / 256) 256 ltac:(lia)) as H2.
  assert (H3 : 0 <= n / 256 / 256 / 256 < 256).
  { split.
    - repeat apply Z.div_pos; lia.
    - repeat (apply Z.div_lt_upper_bound; [lia|]). lia. }
  rewrite (Z.mod_small (n / 256 / 256 / 256)) by exact H3.
  lia.
Qed.

Lemma pack_I_length (n : Z) : length (pack_I n) = 4%nat.
Proof. reflexivity. Qed.

Lemma encode_day_record_length (x : DayFields) (reserved : list byte) :
  length (encode_day_record x reserved) = 32%nat.
Proof.
  unfold encode_day_record. rewrite !length_app, !pack_I_length.
  rewrite length_firstn, length_app, repeat_length. lia.
Qed.

Lemma encode_chip_record_length (date bits : Z) (r1 r2 : list byte) :
  length (encode_chip_record date bits r1 r2) = 48%nat.
Proof.
  unfold encode_chip_record. rewrite !length_app, !pack_I_length.
  rewrite !length_firstn, !length_app, !repeat_length. lia.
Qed.

Lemma decode_encode_day_record (x : DayFields) (reserved : list byte) :
  day_fields_ok x ->
  decode_day_record (encode_day_record x reserved) = day_record_of_fields x.
Proof.
  intros (Hd & Ho & Hh & Hl & Hc & Hv & Ha).
  unfold decode_day_record, encode_day_record, day_record_of_fields, unpack_I.
  unfold pack_I.
  cbn [app slice Nat.sub skipn firstn].
  repeat match goal with
         | |- context [le_uint [byte_of_Z ?n; _; _; _]] =>
             change (le_uint [byte_of_Z n; byte_of_Z (n / 256);
                              byte_of_Z (n / 65536); byte_of_Z (n / 16777216)])
               with (le_uint (pack_I n));
             rewrite (le_uint_pack_I n) by assumption
         end.
  reflexivity.
Qed.

Lemma decode_encode_chip_record (date bits : Z) (r1 r2 : list byte) :
  uint32 date -> uint32 bits ->
  decode_chip_record (encode_chip_record date bits r1 r2)
  = (date, float_of_bits32 bits).
Proof.
  intros Hd Hb.
  unfold decode_chip_record, encode_chip_record, unpack_f, unpack_I.
  set (pad1 := firstn 20 (r1 ++ repeat x00 20)).
  assert (Hp : length pad1 = 20%nat).
  { unfold pad1. rewrite length_firstn, length_app, repeat_length. lia. }
  set (rest := pad1 ++ pack_I bits ++ firstn 20 (r2 ++ repeat x00 20)).
  assert (H0 : slice 0 4 (pack_I date ++ rest) = pack_I date) by reflexivity.
  assert (H24 : slice 24 28 (pack_I date ++ rest) = pack_I bits).
  { unfold slice, rest. rewrite app_assoc, skipn_app.
    rewrite skipn_all2 by (rewrite length_app, pack_I_length, Hp; lia).
    rewrite length_app, pack_I_length, Hp. reflexivity. }
  rewrite H0, H24, !le_uint_pack_I by assumption. reflexivity.
Qed.

(* ================================================================== *)
(** * [sort_values] *)

Lemma insert_row_perm (r : DayRow) (l : list DayRow) :
  Permutation (r :: l) (insert_row r l).
Proof.
  induction l as [|x l IH]; cbn [insert_row].
  - apply Permutation_refl.
  - destruct (String.leb (trade_date r) (trade_date x)).
    + apply Permutation_refl.
    + eapply perm_trans; [apply perm_swap|]. apply perm_skip, IH.
Qed.

Lemma sort_values_perm (l : list DayRow) : Permutation l (sort_values l).
Proof.
  induction l as [|r l IH]; cbn [sort_values].
  - apply perm_nil.
  - eapply perm_trans; [apply perm_skip, IH|]. apply insert_row_perm.
Qed.

Lemma insert_row_hd (r x : DayRow) (l : list DayRow) :
  HdRel date_le x l -> date_le x r -> HdRel date_le x (insert_row r l).
Proof.
  intros Hl Hr. destruct l as [|y l]; cbn [insert_row].
  - constructor. exact Hr.
  - destruct (String.leb (trade_date r) (trade_date y)).
    + constructor. exact Hr.
    + constructor. inversion Hl; assumption.
Qed.

Lemma insert_row_sorted (r : DayRow) (l : list DayRow) :
  Sorted date_le l -> Sorted date_le (insert_row r l).
Proof.
  induction l as [|x l IH]; intros Hs; cbn [insert_row].
  - repeat constructor.
  - destruct (String.leb (trade_date r) (trade_date x)) eqn:Hle.
    + constructor; [exact Hs|]. constructor. exact Hle.
    + inversion Hs as [|? ? Hs' Hhd]; subst.
      constructor; [apply IH, Hs'|].
      apply insert_row_hd; [exact Hhd|].
      destruct (String.leb_total (trade_date r) (trade_date x)) as [H|H];
        [congruence|exact H].
Qed.

Lemma sort_values_sorted (l : list DayRow) : Sorted date_le (sort_values l).
Proof.
  induction l as [|r l IH]; cbn [sort_values].
  - constructor.
  - apply insert_row_sorted, IH.
Qed.

(** A frame that is already ascending comes back as it is. *)
Lemma sort_values_sorted_id (l : list DayRow) :
  Sorted date_le l -> sort_values l = l.
Proof.
  induction l as [|r l IH]; intros Hs; [reflexivity|].
  inversion Hs as [|? ? Hs' Hhd]; subst.
  cbn [sort_values]. rewrite (IH Hs').
  destruct l as [|x l]; [reflexivity|].
  cbn [insert_row]. inversion Hhd as [|? ? Hle]; subst.
  unfold date_le in Hle. rewrite Hle. reflexivity.
Qed.

Lemma string_leb_trans (a b c : string) :
  String.leb a b = true -> String.leb b c = true -> String.leb a c = true.
Proof.
  unfold String.leb.
  destruct (String.compare a b) eqn:Hab; try discriminate;
    destruct (String.compare b c) eqn:Hbc; try discriminate; intros _ _.
  - apply String_as_OT.cmp_eq in Hab. subst b. rewrite Hbc. reflexivity.
  - apply String_as_OT.cmp_eq in Hab. subst b. rewrite Hbc. reflexivity.
  - apply String_as_OT.cmp_eq in Hbc. subst c. rewrite Hab. reflexivity.
  - apply String_as_OT.cmp_lt in Hab, Hbc.
    pose proof (String_as_OT.lt_trans _ _ _ Hab Hbc) as Hac.
    apply String_as_OT.cmp_lt in Hac. unfold String_as_OT.cmp in Hac.
    rewrite Hac. reflexivity.
Qed.

Lemma date_le_trans : Transitive date_le.
Proof. intros a b c. unfold date_le. apply string_leb_trans. Qed.

(** The frame returned is ascending throughout: every row is dated no
    later than every row after it. *)
Lemma sort_values_strongly_sorted (l : list DayRow) :
  StronglySorted date_le (sort_values l).
Proof.
  apply Sorted_StronglySorted; [exact date_le_trans|apply sort_values_sorted].
Qed.

Lemma StronglySorted_filter {A : Type} (R : A -> A -> Prop) (f : A -> bool)
  (l : list A) :
  StronglySorted R l -> StronglySorted R (filter f l).
Proof.
  induction 1 as [|a l Hl IH Ha]; cbn [filter]; [constructor|].
  destruct (f a); [|exact IH]. constructor; [exact IH|].
  rewrite Forall_forall in *. intros x Hx. apply filter_In in Hx. apply Ha, Hx.
Qed.

Lemma StronglySorted_app_order {A : Type} (R : A -> A -> Prop) (l1 l2 : list A) :
  StronglySorted R (l1 ++ l2) ->
  forall a b, In a l1 -> In b l2 -> R a b.
Proof.
  induction l1 as [|x l1 IH]; intros Hs a b Ha Hb; [destruct Ha|].
  cbn [app] in Hs. inversion Hs as [|? ? Hs' Hx]; subst.
  destruct Ha as [->|Ha].
  - rewrite Forall_forall in Hx. apply Hx, in_or_app. right. exact Hb.
  - apply IH; assumption.
Qed.

Lemma date_lt_le (a b : DayRow) : date_lt a b -> date_le a b.
Proof.
  unfold date_lt, date_le, String.ltb, String.leb.
  destruct (String.compare (trade_date a) (trade_date b)); congruence.
Qed.

Lemma Sorted_date_lt_le (l : list DayRow) : Sorted date_lt l -> Sorted date_le l.
Proof.
  induction 1 as [|a l _ IH Hhd]; constructor; [exact IH|].
  destruct Hhd; constructor. apply date_lt_le. assumption.
Qed.

Lemma sort_values_length (l : list DayRow) : length (sort_values l) = length l.
Proof. symmetry. apply Permutation_length, sort_values_perm. Qed.

(* ================================================================== *)
(** * Streams made of whole records *)


Lemma complete_records_app_tail (width : nat) (chunks : list (list byte))
  (partial : list byte) :
  (0 < width)%nat ->
  Forall (fun c => length c = width) chunks ->
  (length partial < width)%nat ->
  complete_records width (concat chunks ++ partial) = chunks.
Proof.
  intros Hw Hall Hp. induction Hall as [|c chunks Hc Hall IH].
  - apply complete_records_short. exact Hp.
  - cbn [concat]. rewrite <- app_assoc. rewrite complete_records_step.
    + rewrite firstn_app, Hc, Nat.sub_diag, firstn_all2 by lia.
      cbn [firstn]. rewrite app_nil_r.
      rewrite skipn_app, Hc, Nat.sub_diag, skipn_all2 by lia.
      cbn [skipn app]. rewrite IH. reflexivity.
    + rewrite length_app. lia.
Qed.

(* ================================================================== *)
(** * Facts on binary64 comparison and NaN

    The comparison of two floats is the comparison of their [spec_float]
    images, which orders non-NaN values by sign, exponent and mantissa. *)

Lemma SFcompare_refl (s : spec_float) :
  s <> S754_nan -> SFcompare s s = Some Eq.
Proof.
  destruct s as [b|b| |b m e]; intros Hs; cbn [SFcompare]; try congruence.
  - destruct b; reflexivity.
  - rewrite Z.compare_refl, Pos.compare_cont_refl. destruct b; reflexivity.
Qed.

Lemma SFleb_nan_r (s : spec_float) : SFleb s S754_nan = false.
Proof. destruct s; reflexivity. Qed.

Lemma SFleb_nan_l (s : spec_float) : SFleb S754_nan s = false.
Proof. reflexivity. Qed.

Ltac sf_order :=
  repeat match goal with
         | b : bool |- _ => destruct b
         end;
  cbn in *; try congruence; try reflexivity;
  repeat match goal with
         | H : context [(?a ?= ?b)%Z] |- _ =>
             destruct (Z.compare_spec a b); subst; cbn in H; try congruence
         | |- context [(?a ?= ?b)%Z] =>
             destruct (Z.compare_spec a b); subst; cbn; try congruence; try lia
         end;
  repeat match goal with
         | H : context [Pos.compare_cont Eq ?a ?b] |- _ =>
             change (Pos.compare_cont Eq a b) with (Pos.compare a b) in H;
             destruct (Pos.compare_spec a b); subst; cbn in H; try congruence
         | |- context [Pos.compare_cont Eq ?a ?b] =>
             change (Pos.compare_cont Eq a b) with (Pos.compare a b);
             destruct (Pos.compare_spec a b); subst; cbn; try congruence; try lia
         end;
  try lia.

Lemma SFleb_trans (x y z : spec_float) :
  SFleb x y = true -> SFleb y z = true -> SFleb x z = true.
Proof.
  unfold SFleb.
  destruct x as [a|a| |a mx ex], y as [b|b| |b my ey], z as [c|c| |c mz ez];
    cbn [SFcompare]; intros Hxy Hyz; sf_order.
Qed.

Lemma SFltb_leb (x y : spec_float) : SFltb x y = true -> SFleb x y = true.
Proof.
  unfold SFltb, SFleb. destruct (SFcompare x y) as [[| |]|]; congruence.
Qed.

Lemma SFltb_false_leb (x y : spec_float) :
  x <> S754_nan -> y <> S754_nan -> SFltb x y = false -> SFleb y x = true.
Proof.
  unfold SFltb, SFleb.
  destruct x as [a|a| |a mx ex], y as [b|b| |b my ey];
    cbn [SFcompare]; intros Hx Hy H; try congruence; sf_order.
Qed.

Lemma Prim2SF_nan (x : float) : is_nan x = true <-> Prim2SF x = S754_nan.
Proof.
  unfold is_nan. rewrite FloatAxioms.eqb_spec. unfold SFeqb. split.
  - intros H. destruct (Prim2SF x) as [b|b| |b m e] eqn:E; try reflexivity;
      rewrite SFcompare_refl in H by discriminate; discriminate.
  - intros ->. reflexivity.
Qed.

Lemma is_nan_eq (x : float) : is_nan x = true -> x = nan.
Proof.
  intros H. apply Prim2SF_nan in H. apply Prim2SF_inj. rewrite H. reflexivity.
Qed.

Lemma not_nan_SF (x : float) : is_nan x = false -> Prim2SF x <> S754_nan.
Proof.
  intros H E. apply Prim2SF_nan in E. congruence.
Qed.

Lemma fle_trans (x y z : float) :
  (x <=? y)%float = true -> (y <=? z)%float = true -> (x <=? z)%float = true.
Proof. rewrite !FloatAxioms.leb_spec. apply SFleb_trans. Qed.

Lemma flt_le (x y : float) : (x <? y)%float = true -> (x <=? y)%float = true.
Proof. rewrite FloatAxioms.ltb_spec, FloatAxioms.leb_spec. apply SFltb_leb. Qed.

Lemma flt_false_le (x y : float) :
  is_nan x = false -> is_nan y = false ->
  (x <? y)%float = false -> (y <=? x)%float = true.
Proof.
  intros Hx Hy. rewrite FloatAxioms.ltb_spec, FloatAxioms.leb_spec.
  apply SFltb_false_leb; apply not_nan_SF; assumption.
Qed.

Lemma flt_irrefl (x : float) : (x <? x)%float = false.
Proof.
  rewrite FloatAxioms.ltb_spec. unfold SFltb.
  destruct (Prim2SF x) as [s|s| |s m e] eqn:E; try reflexivity;
    rewrite SFcompare_refl by discriminate; reflexivity.
Qed.

Lemma fle_refl (x : float) : is_nan x = false -> (x <=? x)%float = true.
Proof.
  intros Hx. rewrite FloatAxioms.leb_spec. unfold SFleb.
  rewrite SFcompare_refl by (apply not_nan_SF, Hx). reflexivity.
Qed.

Lemma fle_nan_r (x : float) : (x <=? nan)%float = false.
Proof.
  rewrite FloatAxioms.leb_spec. change (Prim2SF nan) with S754_nan.
  apply SFleb_nan_r.
Qed.

Lemma fle_not_nan_r (x y : float) : (x <=? y)%float = true -> is_nan y = false.
Proof.
  intros H. destruct (is_nan y) eqn:E; [|reflexivity].
  apply is_nan_eq in E. subst y. rewrite fle_nan_r in H. discriminate.
Qed.

(* ================================================================== *)
(** * [series_max] *)

Lemma fold_max_spec (xs : list float) :
  forall acc : float,
    let m := fold_left max_step xs acc in
    (m = acc \/ In m xs)
    /\ (forall c, In c xs -> is_nan c = false -> (c <=? m)%float = true)
    /\ (is_nan acc = false -> (acc <=? m)%float = true).
Proof.
  induction xs as [|x xs IH]; intros acc; cbn [fold_left].
  - cbv zeta. repeat split.
    + left. reflexivity.
    + intros c [].
    + apply fle_refl.
  - specialize (IH (max_step acc x)). cbv zeta in *.
    destruct IH as (Hin & Hub & Hacc).
    set (m := fold_left max_step xs (max_step acc x)) in *.
    unfold max_step in Hin, Hacc.
    destruct (is_nan x) eqn:Hx.
    + (* a NaN is skipped *)
      repeat split.
      * destruct Hin as [Hin|Hin]; [left; exact Hin|right; right; exact Hin].
      * intros c [<-|Hc] Hn; [congruence|]. apply Hub; assumption.
      * exact Hacc.
    + destruct (is_nan acc) eqn:Ha.
      * (* the first observation *)
        repeat split.
        -- destruct Hin as [Hin|Hin]; right; [left; symmetry; exact Hin|right; exact Hin].
        -- intros c [<-|Hc] Hn; [apply Hacc, Hx|]. apply Hub; assumption.
        -- discriminate.
      * destruct (acc <? x)%float eqn:Hlt.
        -- (* a larger observation replaces the maximum *)
           repeat split.
           ++ destruct Hin as [Hin|Hin]; right; [left; symmetry; exact Hin|right; exact Hin].
           ++ intros c [<-|Hc] Hn; [apply Hacc, Hx|]. apply Hub; assumption.
           ++ intros _. eapply fle_trans; [apply flt_le, Hlt|apply Hacc, Hx].
        -- (* the maximum stays *)
           repeat split.
           ++ destruct Hin as [Hin|Hin]; [left; exact Hin|right; right; exact Hin].
           ++ intros c [<-|Hc] Hn.
              ** eapply fle_trans; [apply (flt_false_le acc x Ha Hx Hlt)|apply Hacc, Ha].
              ** apply Hub; assumption.
           ++ intros _. apply Hacc, Ha.
Qed.

(** [series_max] bounds every observation from above. *)
Lemma series_max_upper (xs : list float) (c : float) :
  In c xs -> is_nan c = false -> (c <=? series_max xs)%float = true.
Proof.
  unfold series_max. intros Hc Hn.
  destruct (fold_max_spec xs nan) as (_ & Hub & _). apply Hub; assumption.
Qed.

(** [series_max] of a series that is not empty is one of its values. *)
Lemma series_max_in (xs : list float) : xs <> [] -> In (series_max xs) xs.
Proof.
  unfold series_max. intros Hne.
  destruct (fold_max_spec xs nan) as ([Hm|Hm] & Hub & _); [|exact Hm].
  destruct xs as [|x xs]; [congruence|].
  cbv zeta in *. rewrite Hm in *.
  destruct (is_nan x) eqn:Hx.
  - apply is_nan_eq in Hx. left. exact Hx.
  - specialize (Hub x (or_introl eq_refl) Hx).
    rewrite fle_nan_r in Hub. discriminate.
Qed.

(* ================================================================== *)
(** * The decoders: order, truncated tails, round trip *)


Lemma day_data_complete (f : list byte) :
  day_data f = map decode_day_record (complete_records 32 f).
Proof. apply read_records_complete. Qed.

Lemma chip_data_complete (f : list byte) :
  chip_data f = map decode_chip_record (complete_records 48 f).
Proof. apply read_records_complete. Qed.

(** C6. For every byte stream, whatever its length, each decoder returns the
    decoding of the [length / width] complete leading records (width 32 for
    daily bars, 48 for concentration samples) in file order; the loop ends by
    its [break] and not by running out of iterations; and the trailing
    partial chunk changes nothing: the stream and the stream cut at the last
    record boundary decode alike. *)
Theorem truncated_tail_dropped (f : list byte) :
  read_loop 32 decode_day_record (S (length f)) f []
  = Some (map decode_day_record (complete_records 32 f))
  /\ read_loop 48 decode_chip_record (S (length f)) f []
     = Some (map decode_chip_record (complete_records 48 f))
  /\ length (day_data f) = (length f / 32)%nat
  /\ length (parse_tdx_day_file f) = (length f / 32)%nat
  /\ length (chip_data f) = (length f / 48)%nat
  /\ day_data f = day_data (valid_prefix 32 f)
  /\ chip_data f = chip_data (valid_prefix 48 f)
  /\ parse_tdx_day_file f = parse_tdx_day_file (valid_prefix 32 f)
  /\ (forall target_date,
        parse_tdx_chip_data (Some f) target_date
        = parse_tdx_chip_data (Some (valid_prefix 48 f)) target_date).
Proof.
  assert (Hd : day_data f = day_data (valid_prefix 32 f)).
  { rewrite !day_data_complete, complete_records_prefix. reflexivity. }
  assert (Hc : chip_data f = chip_data (valid_prefix 48 f)).
  { rewrite !chip_data_complete, complete_records_prefix. reflexivity. }
  repeat split.
  - rewrite read_loop_fuel by lia. reflexivity.
  - rewrite read_loop_fuel by lia. reflexivity.
  - rewrite day_data_complete, length_map. apply complete_records_length.
  - unfold parse_tdx_day_file, day_frame.
    rewrite sort_values_length, length_map, day_data_complete, length_map.
    apply complete_records_length.
  - rewrite chip_data_complete, length_map. apply complete_records_length.
  - exact Hd.
  - exact Hc.
  - unfold parse_tdx_day_file. rewrite <- Hd. reflexivity.
  - intros target_date. unfold parse_tdx_chip_data. rewrite <- Hc. reflexivity.
Qed.

(** A stream of whole records followed by a shorter chunk decodes to the
    records. *)
Lemma day_data_truncated (chunks : list (list byte)) (partial : list byte) :
  Forall (fun c => length c = 32%nat) chunks ->
  (length partial < 32)%nat ->
  day_data (concat chunks ++ partial) = map decode_day_record chunks.
Proof.
  intros Hall Hp. rewrite day_data_complete.
  rewrite complete_records_app_tail by (assumption || lia). reflexivity.
Qed.

(** C2, as stated, fails: on a file holding the bar of 20251030 before the
    bar of 20251029 the decoder does not return the records in file order. *)
Lemma decoder_resorts :
  ~ (forall f : list byte,
       parse_tdx_day_file f
       = day_frame (map decode_day_record (complete_records 32 f))).
Proof.
  intros H. specialize (H descending_file).
  apply (f_equal (map trade_date)) in H.
  vm_compute in H. discriminate H.
Qed.

(** C2, amended. For every byte stream the read loop of the daily decoder
    builds the records in file order, and the decoder returns them, none
    dropped and none merged (a permutation, so that duplicates stay),
    re-sorted in ascending order of the trade-date strings; the order
    returned is the order of the file when the file is strictly ascending,
    and only when it is ascending. *)
Theorem decoder_sorts_without_dedup (f : list byte) :
  let in_file_order := day_frame (map decode_day_record (complete_records 32 f)) in
  day_frame (day_data f) = in_file_order
  /\ Permutation in_file_order (parse_tdx_day_file f)
  /\ StronglySorted date_le (parse_tdx_day_file f)
  /\ length (parse_tdx_day_file f) = (length f / 32)%nat
  /\ (Sorted date_lt in_file_order -> parse_tdx_day_file f = in_file_order)
  /\ (parse_tdx_day_file f = in_file_order -> Sorted date_le in_file_order).
Proof.
  cbv zeta. unfold parse_tdx_day_file. rewrite day_data_complete.
  split; [reflexivity|]. split; [apply sort_values_perm|].
  split; [apply sort_values_strongly_sorted|]. split; [|split].
  - rewrite sort_values_length. unfold day_frame.
    rewrite !length_map. apply complete_records_length.
  - intros Hs. apply sort_values_sorted_id, Sorted_date_lt_le, Hs.
  - intros <-. apply sort_values_sorted.
Qed.


(** The binary32 decoding on a few bit patterns: 70.0, 0.1 (as binary32
    rounds it), the least subnormal, the largest finite value, minus zero,
    minus infinity and a NaN. *)
Lemma float_of_bits32_samples :
  float_of_bits32 0x428c0000 = 70%float
  /\ float_of_bits32 0x3dcccccd = 0x1.99999ap-4%float
  /\ float_of_bits32 0x00000001 = 0x1p-149%float
  /\ float_of_bits32 0x7f7fffff = 0x1.fffffep+127%float
  /\ float_of_bits32 0x80000000 = (-0)%float
  /\ float_of_bits32 0xff800000 = neg_infinity
  /\ float_of_bits32 0x7fc00000 = nan.
Proof. repeat split; vm_compute; reflexivity. Qed.


(* ================================================================== *)
(** * The box breakout *)

Lemma tail_length {A : Type} (n : nat) (l : list A) :
  length (tail n l) = Nat.min n (length l).
Proof. unfold tail. rewrite length_skipn. lia. Qed.

Lemma tail_suffix {A : Type} (n : nat) (l : list A) :
  l = firstn (length l - n) l ++ tail n l.
Proof. unfold tail. symmetry. apply firstn_skipn. Qed.

Lemma map_constant {A B : Type} (f : A -> B) (v : B) (l : list A) :
  Forall (fun a => f a = v) l -> map f l = repeat v (length l).
Proof.
  induction 1 as [|a l Ha _ IH]; [reflexivity|].
  cbn [map length repeat]. rewrite Ha, IH. reflexivity.
Qed.

(** The first [return] of [check_box_break]: fewer than [box_days] bars
    before the target give the pair [(False, 0.0)]. *)
Lemma check_box_break_short (df : list DayRow) (target_date : string)
  (box_days : nat) :
  (length (bars_before target_date df) < box_days)%nat ->
  check_box_break df target_date box_days = Ok (Tuple2 false 0).
Proof.
  intros H. unfold check_box_break. rewrite tail_length.
  destruct (Nat.ltb_spec (Nat.min box_days (length (bars_before target_date df)))
              box_days); [reflexivity|lia].
Qed.

(** C4. For every series with at least [windowDays] bars dated strictly
    before [targetDate] and a bar on [targetDate]: the window is the last
    [windowDays] of the earlier bars (the most recent ones of a series in
    ascending date order); [boxUpper] is the maximum close over
    it (one of its closes, and at least every close of it); the target
    breaks exactly when [targetClose > boxUpper * 1.005]; the ratio is
    [(targetClose / boxUpper - 1) * 100] then and 0 otherwise. With a
    window of 20 closes of 10.00, a target close of 10.10 gives
    [boxUpper = 10.00], a breakout and the ratio 1.00 (the binary64 value
    next to 1 above it, which the result rounded to two decimals shows as
    1.00); a target close of 10.04 gives no breakout and the ratio 0. *)
Theorem box_breakout_spec (df : list DayRow) (targetDate : string)
  (windowDays : nat) (target : DayRow) (others : list DayRow) :
  (windowDays <= length (bars_before targetDate df))%nat ->
  rows_on targetDate df = target :: others ->
  let window := tail windowDays (bars_before targetDate df) in
  let boxUpper := series_max (map close window) in
  let targetClose := close target in
  let breaks := (boxUpper * 1.005 <? targetClose)%float in
  let breakoutRatioPct :=
    if breaks then ((targetClose / boxUpper - 1) * 100)%float else 0%float in
  check_box_break df targetDate windowDays
  = Ok (Tuple3 breaks boxUpper breakoutRatioPct)
  /\ (length window = windowDays
      /\ exists older,
           bars_before targetDate df = older ++ window
           /\ (StronglySorted date_le df ->
               forall a w, In a older -> In w window -> date_le a w))
  /\ ((0 < windowDays)%nat -> In boxUpper (map close window))
  /\ (forall c, In c (map close window) -> is_nan c = false ->
                (c <=? boxUpper)%float = true)
  /\ (windowDays = 20%nat ->
      Forall (fun bar => close bar = 10%float) window ->
      (targetClose = 10.1%float ->
       boxUpper = 10%float /\ breaks = true
       /\ breakoutRatioPct = 0x1.0000000000004p+0%float
       /\ round2 breakoutRatioPct = 1%float)
      /\ (targetClose = 10.04%float ->
          boxUpper = 10%float /\ breaks = false
          /\ breakoutRatioPct = 0%float)).
Proof.
  intros Hlen Htarget window boxUpper targetClose breaks breakoutRatioPct.
  assert (Hw : length window = windowDays).
  { unfold window. rewrite tail_length. lia. }
  split; [|split; [|split; [|split]]].
  - unfold check_box_break. fold window. rewrite Hw, Nat.ltb_irrefl.
    rewrite Htarget. reflexivity.
  - split; [exact Hw|].
    exists (firstn (length (bars_before targetDate df) - windowDays)
              (bars_before targetDate df)).
    split; [unfold window; apply tail_suffix|].
    intros Hsorted. apply StronglySorted_app_order.
    unfold window. rewrite <- tail_suffix.
    apply StronglySorted_filter, Hsorted.
  - intros Hpos. apply series_max_in.
    intros E. apply (f_equal (@length float)) in E.
    rewrite length_map, Hw in E. cbn in E. lia.
  - intros c Hc Hn. apply series_max_upper; assumption.
  - intros H20 Hflat.
    assert (Hmax : boxUpper = 10%float).
    { unfold boxUpper. rewrite (map_constant close 10%float window Hflat).
      rewrite Hw, H20. reflexivity. }
    split; intros Hclose; unfold breakoutRatioPct, breaks;
      rewrite Hmax, Hclose; repeat split; reflexivity.
Qed.

Lemma box_breakout_spec_witness :
  check_box_break (parse_tdx_day_file rising_file) "20251030" 20
  = Ok (Tuple3 true 10 0x1.0000000000004p+0)
  /\ round2 0x1.0000000000004p+0 = 1%float
  /\ check_box_break (parse_tdx_day_file quiet_file) "20251030" 20
     = Ok (Tuple3 false 10 0).
Proof.
  assert (H1 : (20 <= length (bars_before "20251030"
                                (parse_tdx_day_file rising_file)))%nat).
  { vm_compute. apply le_n. }
  assert (H2 : rows_on "20251030" (parse_tdx_day_file rising_file)
               = [mkDayRow "20251030" 10.1 10.1 10.1 10.1 2000 20200 []]).
  { vm_compute. reflexivity. }
  assert (H3 : (20 <= length (bars_before "20251030"
                                (parse_tdx_day_file quiet_file)))%nat).
  { vm_compute. apply le_n. }
  assert (H4 : rows_on "20251030" (parse_tdx_day_file quiet_file)
               = [mkDayRow "20251030" 10.04 10.04 10.04 10.04 2000 20080 []]).
  { vm_compute. reflexivity. }
  destruct (box_breakout_spec _ _ _ _ _ H1 H2) as (Hrise & _).
  destruct (box_breakout_spec _ _ _ _ _ H3 H4) as (Hquiet & _).
  split; [|split].
  - rewrite Hrise. vm_compute. reflexivity.
  - vm_compute. reflexivity.
  - rewrite Hquiet. vm_compute. reflexivity.
Defined.

(* ================================================================== *)
(** * Moving averages *)

Lemma forallb_filter_id {A : Type} (f : A -> bool) (l : list A) :
  forallb f l = true -> filter f l = l.
Proof.
  induction l as [|a l IH]; cbn [forallb filter]; [reflexivity|].
  intros H. apply andb_prop in H. destruct H as [Ha Hl].
  rewrite Ha, (IH Hl). reflexivity.
Qed.

Lemma filter_length_le {A : Type} (f : A -> bool) (l : list A) :
  (length (filter f l) <= length l)%nat.
Proof.
  induction l as [|a l IH]; cbn [filter length]; [lia|].
  destruct (f a); cbn [length]; lia.
Qed.

Lemma forallb_filter_lt {A : Type} (f : A -> bool) (l : list A) :
  forallb f l = false -> (length (filter f l) < length l)%nat.
Proof.
  induction l as [|a l IH]; cbn [forallb filter length]; [discriminate|].
  destruct (f a); cbn [andb length]; intros H.
  - specialize (IH H). lia.
  - pose proof (filter_length_le f l). lia.
Qed.

Lemma slice_length {A : Type} (a b : nat) (l : list A) :
  (a <= b <= length l)%nat -> length (slice a b l) = (b - a)%nat.
Proof.
  intros H. unfold slice. rewrite length_firstn, length_skipn. lia.
Qed.

Lemma slice_map {A B : Type} (f : A -> B) (a b : nat) (l : list A) :
  slice a b (map f l) = map f (slice a b l).
Proof.
  unfold slice. rewrite skipn_map, firstn_map. reflexivity.
Qed.

Lemma slice_length_le {A : Type} (a b : nat) (l : list A) :
  (length (slice a b l) <= b - a)%nat.
Proof. unfold slice. rewrite length_firstn. lia. Qed.

Lemma slice_nil {A : Type} (a b : nat) (l : list A) :
  (b <= a)%nat -> slice a b l = [].
Proof.
  intros H. unfold slice. replace (b - a)%nat with 0%nat by lia. reflexivity.
Qed.

Lemma slice_cons {A : Type} (a b : nat) (l : list A) (x : A) :
  (a < b)%nat -> nth_error l a = Some x ->
  slice a b l = x :: slice (S a) b l.
Proof.
  intros Hab Hx. unfold slice.
  replace (b - a)%nat with (S (b - S a)) by lia.
  generalize (b - S a)%nat as n. clear Hab. intros n.
  revert l Hx. induction a as [|a IH]; intros [|y l] Hx;
    cbn [nth_error] in Hx; try discriminate.
  - injection Hx as ->. reflexivity.
  - change (skipn (S a) (y :: l)) with (skipn a l).
    change (skipn (S (S a)) (y :: l)) with (skipn (S a) l).
    apply (IH l Hx).
Qed.

Lemma slice_single {A : Type} (a : nat) (l : list A) (x : A) :
  nth_error l a = Some x -> slice a (S a) l = [x].
Proof.
  intros Hx. rewrite (slice_cons a (S a) l x) by (try lia; exact Hx).
  rewrite slice_nil by lia. reflexivity.
Qed.

Lemma slice_snoc {A : Type} (a b : nat) (l : list A) (x : A) :
  (a <= b)%nat -> nth_error l b = Some x ->
  slice a (S b) l = slice a b l ++ [x].
Proof.
  intros Hab Hx. unfold slice.
  replace (S b - a)%nat with (S (b - a)) by lia.
  assert (Hn : nth_error (skipn a l) (b - a) = Some x).
  { rewrite nth_error_skipn. replace (a + (b - a))%nat with b by lia.
    exact Hx. }
  revert Hn. generalize (b - a)%nat as n, (skipn a l) as m. clear.
  induction n as [|n IH]; intros [|y m] Hn; cbn [nth_error] in Hn;
    try discriminate.
  - injection Hn as ->. reflexivity.
  - cbn [firstn app]. f_equal. apply IH, Hn.
Qed.

(* ------------------------------------------------------------------ *)
(** ** The state of the rolling mean, in any arithmetic *)

Section RollMeanFacts.

Context {F : Type} (A : Arith F).

Lemma add_mean_counted (v : F) (st : MeanState F) :
  counted A v = true ->
  add_mean A v st
  = mkMeanState (nobs st + 1)
      (num_add A (sum_x st) (num_sub A v (compensation_add st)))
      (if num_signbit A v then neg_ct st + 1 else neg_ct st)
      (num_sub A
         (num_sub A (num_add A (sum_x st)
                       (num_sub A v (compensation_add st))) (sum_x st))
         (num_sub A v (compensation_add st)))
      (compensation_remove st)
      (if num_eqb A v (prev_value st)
       then num_consecutive_same_value st + 1 else 1)
      v.
Proof. unfold counted, add_mean. intros ->. reflexivity. Qed.

Lemma add_mean_skipped (v : F) (st : MeanState F) :
  counted A v = false -> add_mean A v st = st.
Proof. unfold counted, add_mean. intros ->. reflexivity. Qed.

Lemma remove_mean_skipped (v : F) (st : MeanState F) :
  counted A v = false -> remove_mean A v st = st.
Proof. unfold counted, remove_mean. intros ->. reflexivity. Qed.

Lemma remove_mean_counted (v : F) (st : MeanState F) :
  counted A v = true ->
  remove_mean A v st
  = mkMeanState (nobs st - 1)
      (num_add A (sum_x st)
         (num_sub A (num_opp A v) (compensation_remove st)))
      (if num_signbit A v then neg_ct st - 1 else neg_ct st)
      (compensation_add st)
      (num_sub A
         (num_sub A (num_add A (sum_x st)
                       (num_sub A (num_opp A v) (compensation_remove st)))
            (sum_x st))
         (num_sub A (num_opp A v) (compensation_remove st)))
      (num_consecutive_same_value st)
      (prev_value st).
Proof. unfold counted, remove_mean. intros ->. reflexivity. Qed.

Lemma add_mean_nobs (v : F) (st : MeanState F) :
  nobs (add_mean A v st) = nobs st + (if counted A v then 1 else 0).
Proof.
  unfold counted, add_mean. destruct (num_eqb A v v); cbn [nobs]; lia.
Qed.

Lemma remove_mean_nobs (v : F) (st : MeanState F) :
  nobs (remove_mean A v st) = nobs st - (if counted A v then 1 else 0).
Proof.
  unfold counted, remove_mean. destruct (num_eqb A v v); cbn [nobs]; lia.
Qed.

Lemma remove_mean_run (v : F) (st : MeanState F) :
  num_consecutive_same_value (remove_mean A v st)
  = num_consecutive_same_value st
  /\ prev_value (remove_mean A v st) = prev_value st.
Proof.
  unfold remove_mean. destruct (num_eqb A v v); split; reflexivity.
Qed.

Lemma fold_add_nobs (l : list F) (st : MeanState F) :
  nobs st <= nobs (fold_left (fun st val => add_mean A val st) l st)
  <= nobs st + Z.of_nat (length l).
Proof.
  revert st. induction l as [|v l IH]; intros st; cbn [fold_left length];
    [lia|].
  specialize (IH (add_mean A v st)). rewrite add_mean_nobs in IH.
  destruct (counted A v); lia.
Qed.

Lemma fold_remove_nobs (l : list F) (st : MeanState F) :
  nobs (fold_left (fun st val => remove_mean A val st) l st) <= nobs st.
Proof.
  revert st. induction l as [|v l IH]; intros st; cbn [fold_left]; [lia|].
  specialize (IH (remove_mean A v st)). rewrite remove_mean_nobs in IH.
  destruct (counted A v); lia.
Qed.

Lemma roll_state_S (values : list F) (window i : nat) :
  roll_state A values window (S i)
  = if (window_end window i <=? window_start window (S i))%nat
    then setup_mean A values (window_start window (S i))
           (window_end window (S i))
    else
      fold_left (fun st val => add_mean A val st)
        (slice (window_end window i) (window_end window (S i)) values)
        (fold_left (fun st val => remove_mean A val st)
           (slice (window_start window i) (window_start window (S i)) values)
           (roll_state A values window i)).
Proof. reflexivity. Qed.

Lemma setup_mean_nobs (values : list F) (s e : nat) :
  0 <= nobs (setup_mean A values s e) <= Z.of_nat (e - s).
Proof.
  unfold setup_mean.
  match goal with
  | |- context [fold_left ?f ?l ?st] => pose proof (fold_add_nobs l st) as H
  end.
  cbn [nobs fresh_state] in H. pose proof (slice_length_le s e values). lia.
Qed.

(** There are never more observations than rows seen. *)
Lemma roll_state_nobs_le (values : list F) (window i : nat) :
  nobs (roll_state A values window i) <= Z.of_nat (window_end window i).
Proof.
  induction i as [|i IH].
  - pose proof (setup_mean_nobs values (window_start window 0)
                  (window_end window 0)).
    change (roll_state A values window 0)
      with (setup_mean A values (window_start window 0) (window_end window 0)).
    lia.
  - rewrite roll_state_S.
    destruct (window_end window i <=? window_start window (S i))%nat.
    + pose proof (setup_mean_nobs values (window_start window (S i))
                    (window_end window (S i))). lia.
    + match goal with
      | |- context [fold_left ?f ?l (fold_left ?g ?m ?st)] =>
          pose proof (fold_add_nobs l (fold_left g m st)) as Ha;
          pose proof (fold_remove_nobs m st) as Hr;
          pose proof (slice_length_le (window_end window i)
                        (window_end window (S i)) values) as Hl
      end.
      assert (window_end window i <= window_end window (S i))%nat
        by (unfold window_end; destruct (window =? 0)%nat; lia).
      lia.
Qed.

(** Before the window is complete the mean is undefined. *)
Lemma roll_at_short (P i : nat) (values : list F) :
  (S i < P)%nat -> roll_at A P P values i = num_nan A.
Proof.
  intros H. unfold roll_at, calc_mean.
  pose proof (roll_state_nobs_le (prep_values A values) P i) as Hle.
  unfold window_end in Hle.
  destruct (Nat.eqb_spec P 0); [lia|].
  destruct (Z.leb_spec (Z.max (Z.of_nat P) 1)
              (nobs (roll_state A (prep_values A values) P i))); [lia|].
  reflexivity.
Qed.

(** *** Row by row, for a window of one row and for longer ones *)

Lemma roll_state_first (values : list F) (window : nat) (v : F) :
  (1 <= window)%nat -> nth_error values 0 = Some v ->
  roll_state A values window 0 = add_mean A v (fresh_state A v).
Proof.
  intros Hw Hv. cbn [roll_state]. unfold window_start, window_end.
  destruct (Nat.eqb_spec window 0); [lia|].
  replace (1 - window)%nat with 0%nat by lia.
  unfold setup_mean. rewrite (slice_single 0 values v Hv).
  rewrite (nth_error_nth values 0 _ Hv). reflexivity.
Qed.

Lemma roll_state_one (values : list F) (i : nat) (v : F) :
  nth_error values i = Some v ->
  roll_state A values 1 i = add_mean A v (fresh_state A v).
Proof.
  intros Hv. destruct i as [|i]; [apply roll_state_first; [lia|exact Hv]|].
  rewrite roll_state_S. unfold window_start, window_end. cbn [Nat.eqb].
  replace (S (S i) - 1)%nat with (S i) by lia. rewrite Nat.leb_refl.
  unfold setup_mean. rewrite (slice_single (S i) values v Hv).
  rewrite (nth_error_nth values (S i) _ Hv). reflexivity.
Qed.

Lemma roll_state_grow (values : list F) (window i : nat) (v : F) :
  (2 <= window)%nat -> (S i < window)%nat ->
  nth_error values (S i) = Some v ->
  roll_state A values window (S i)
  = add_mean A v (roll_state A values window i).
Proof.
  intros Hw Hi Hv. rewrite roll_state_S. unfold window_start, window_end.
  destruct (Nat.eqb_spec window 0); [lia|].
  destruct (Nat.leb_spec (S i) (S (S i) - window)); [lia|].
  rewrite (slice_nil (S i - window)) by lia.
  rewrite (slice_single (S i) values v Hv). reflexivity.
Qed.

Lemma roll_state_slide (values : list F) (window i : nat) (u v : F) :
  (2 <= window)%nat -> (window <= S i)%nat ->
  nth_error values (S i - window) = Some u ->
  nth_error values (S i) = Some v ->
  roll_state A values window (S i)
  = add_mean A v (remove_mean A u (roll_state A values window i)).
Proof.
  intros Hw Hi Hu Hv. rewrite roll_state_S. unfold window_start, window_end.
  destruct (Nat.eqb_spec window 0); [lia|].
  destruct (Nat.leb_spec (S i) (S (S i) - window)); [lia|].
  replace (S (S i) - window)%nat with (S (S i - window)) by lia.
  rewrite (slice_single (S i - window) values u Hu).
  rewrite (slice_single (S i) values v Hv). reflexivity.
Qed.

(** The number of observations is the number of counted values of the
    window. *)
Lemma roll_state_nobs (values : list F) (window i : nat) :
  (1 <= window)%nat -> (i < length values)%nat ->
  nobs (roll_state A values window i)
  = Z.of_nat (length (filter (counted A) (slice (S i - window) (S i) values))).
Proof.
  intros Hw. induction i as [|i IH]; intros Hi.
  - destruct (nth_error values 0) as [v|] eqn:Hv;
      [|apply nth_error_None in Hv; lia].
    rewrite (roll_state_first values window v Hw Hv), add_mean_nobs.
    replace (1 - window)%nat with 0%nat by lia.
    rewrite (slice_single 0 values v Hv). cbn [filter nobs fresh_state].
    destruct (counted A v); reflexivity.
  - destruct (nth_error values (S i)) as [v|] eqn:Hv;
      [|apply nth_error_None in Hv; lia].
    destruct (Nat.eq_dec window 1) as [->|Hw1].
    { rewrite (roll_state_one values (S i) v Hv), add_mean_nobs.
      replace (S (S i) - 1)%nat with (S i) by lia.
      rewrite (slice_single (S i) values v Hv). cbn [filter nobs fresh_state].
      destruct (counted A v); reflexivity. }
    specialize (IH ltac:(lia)).
    destruct (Nat.lt_ge_cases (S i) window) as [Hlt|Hge].
    + rewrite (roll_state_grow values window i v) by (try lia; exact Hv).
      rewrite add_mean_nobs, IH.
      replace (S i - window)%nat with 0%nat by lia.
      replace (S (S i) - window)%nat with 0%nat by lia.
      rewrite (slice_snoc 0 (S i) values v) by (try lia; exact Hv).
      rewrite filter_app, length_app. cbn [filter].
      destruct (counted A v); cbn [length]; lia.
    + destruct (nth_error values (S i - window)) as [u|] eqn:Hu;
        [|apply nth_error_None in Hu; lia].
      rewrite (roll_state_slide values window i u v)
        by (try lia; assumption).
      rewrite add_mean_nobs, remove_mean_nobs, IH.
      rewrite (slice_cons (S i - window) (S i) values u)
        by (try lia; exact Hu).
      replace (S (S i) - window)%nat with (S (S i - window)) by lia.
      rewrite (slice_snoc (S (S i - window)) (S i) values v)
        by (try lia; exact Hv).
      rewrite filter_app, length_app. cbn [filter].
      destruct (counted A u), (counted A v); cbn [length]; lia.
Qed.

Lemma add_mean_run_nonneg (v : F) (st : MeanState F) :
  0 <= num_consecutive_same_value st ->
  0 <= num_consecutive_same_value (add_mean A v st).
Proof.
  unfold add_mean. destruct (num_eqb A v v); cbn; [|auto].
  destruct (num_eqb A v (prev_value st)); lia.
Qed.

Lemma roll_state_run_nonneg (values : list F) (window i : nat) :
  (1 <= window)%nat -> (i < length values)%nat ->
  0 <= num_consecutive_same_value (roll_state A values window i).
Proof.
  intros Hw. induction i as [|i IH]; intros Hi.
  - destruct (nth_error values 0) as [v|] eqn:Hv;
      [|apply nth_error_None in Hv; lia].
    rewrite (roll_state_first values window v Hw Hv).
    apply add_mean_run_nonneg. cbn. lia.
  - destruct (nth_error values (S i)) as [v|] eqn:Hv;
      [|apply nth_error_None in Hv; lia].
    destruct (Nat.eq_dec window 1) as [->|Hw1].
    { rewrite (roll_state_one values (S i) v Hv).
      apply add_mean_run_nonneg. cbn. lia. }
    specialize (IH ltac:(lia)).
    destruct (Nat.lt_ge_cases (S i) window) as [Hlt|Hge].
    + rewrite (roll_state_grow values window i v) by (try lia; exact Hv).
      apply add_mean_run_nonneg, IH.
    + destruct (nth_error values (S i - window)) as [u|] eqn:Hu;
        [|apply nth_error_None in Hu; lia].
      rewrite (roll_state_slide values window i u v)
        by (try lia; assumption).
      apply add_mean_run_nonneg.
      rewrite (proj1 (remove_mean_run u _)). exact IH.
Qed.

(** A run of [k] rows holding the same counted value [c], ending at row
    [i] and inside the window: the state has counted it. *)
Lemma roll_state_run (values : list F) (window : nat) (c : F) :
  (1 <= window)%nat -> counted A c = true ->
  forall i k,
    (i < length values)%nat -> (1 <= k <= window)%nat -> (k <= S i)%nat ->
    (forall j, (S i - k <= j <= i)%nat -> nth_error values j = Some c) ->
    (k <= Z.to_nat (num_consecutive_same_value
                      (roll_state A values window i)))%nat
    /\ prev_value (roll_state A values window i) = c.
Proof.
  intros Hw Hc. induction i as [|i IH]; intros k Hi Hk Hki Hrun.
  - rewrite (roll_state_first values window c Hw) by (apply Hrun; lia).
    rewrite (add_mean_counted c _ Hc).
    cbn [num_consecutive_same_value prev_value fresh_state].
    unfold counted in Hc. rewrite Hc. split; [lia|reflexivity].
  - assert (Hv : nth_error values (S i) = Some c) by (apply Hrun; lia).
    destruct (Nat.eq_dec window 1) as [->|Hw1].
    { rewrite (roll_state_one values (S i) c Hv).
      rewrite (add_mean_counted c _ Hc).
      cbn [num_consecutive_same_value prev_value fresh_state].
      unfold counted in Hc. rewrite Hc. split; [lia|reflexivity]. }
    assert (Hstep : forall st,
               0 <= num_consecutive_same_value st ->
               ((2 <= k)%nat ->
                (k - 1 <= Z.to_nat (num_consecutive_same_value st))%nat
                /\ prev_value st = c) ->
               (k <= Z.to_nat (num_consecutive_same_value (add_mean A c st)))%nat
               /\ prev_value (add_mean A c st) = c).
    { intros st Hnn Hprev. rewrite (add_mean_counted c _ Hc).
      cbn [num_consecutive_same_value prev_value]. split; [|reflexivity].
      destruct (Nat.le_gt_cases 2 k) as [H2|H1].
      - destruct (Hprev ltac:(lia)) as (Hk1 & ->).
        unfold counted in Hc. rewrite Hc. lia.
      - destruct (num_eqb A c (prev_value st)); lia. }
    pose proof (roll_state_run_nonneg values window i Hw ltac:(lia)) as Hnn.
    assert (Hprev : (2 <= k)%nat ->
              (k - 1 <= Z.to_nat (num_consecutive_same_value
                                    (roll_state A values window i)))%nat
              /\ prev_value (roll_state A values window i) = c).
    { intros H2. apply (IH (k - 1)%nat); try lia.
      intros j Hj. apply Hrun. lia. }
    destruct (Nat.lt_ge_cases (S i) window) as [Hlt|Hge].
    + rewrite (roll_state_grow values window i c) by (try lia; exact Hv).
      apply Hstep; assumption.
    + destruct (nth_error values (S i - window)) as [u|] eqn:Hu;
        [|apply nth_error_None in Hu; lia].
      rewrite (roll_state_slide values window i u c)
        by (try lia; assumption).
      destruct (remove_mean_run u (roll_state A values window i))
        as (Hn & Hp).
      apply Hstep; rewrite ?Hn, ?Hp; assumption.
Qed.

(** On a complete window holding one counted value, the mean is that
    value. *)
Lemma roll_state_constant (values : list F) (window i : nat) (c : F) :
  (1 <= window <= S i)%nat -> (i < length values)%nat ->
  counted A c = true ->
  (forall j, (S i - window <= j <= i)%nat -> nth_error values j = Some c) ->
  calc_mean A (Z.max (Z.of_nat window) 1) (roll_state A values window i) = c.
Proof.
  intros Hw Hi Hc Hrun.
  destruct (roll_state_run values window c ltac:(lia) Hc i window Hi
              ltac:(lia) ltac:(lia) Hrun) as (Hk & Hp).
  pose proof (roll_state_nobs values window i ltac:(lia) Hi) as Hn.
  assert (Hall : filter (counted A) (slice (S i - window) (S i) values)
                 = slice (S i - window) (S i) values).
  { apply forallb_filter_id, forallb_forall. intros x Hx.
    apply In_nth_error in Hx. destruct Hx as (n & Hx).
    assert (Hlen : (n < length (slice (S i - window) (S i) values))%nat)
      by (apply nth_error_Some; congruence).
    rewrite slice_length in Hlen by lia.
    unfold slice in Hx. rewrite nth_error_firstn in Hx.
    destruct (Nat.ltb_spec n (S i - (S i - window))); [|lia].
    rewrite nth_error_skipn, Hrun in Hx by lia. congruence. }
  rewrite Hall, slice_length in Hn by lia.
  unfold calc_mean. rewrite Hn.
  destruct (Z.leb_spec (Z.max (Z.of_nat window) 1)
              (Z.of_nat (S i - (S i - window)))); [|lia].
  destruct (Z.ltb_spec 0 (Z.of_nat (S i - (S i - window)))); [|lia].
  cbn [andb].
  destruct (Z.leb_spec (Z.of_nat (S i - (S i - window)))
              (num_consecutive_same_value (roll_state A values window i)));
    [exact Hp|lia].
Qed.

End RollMeanFacts.

(* ------------------------------------------------------------------ *)
(** ** The rolling mean in binary64 *)

Lemma counted_binary64 (c : float) :
  is_nan c = false -> counted binary64 c = true.
Proof.
  intros H. unfold counted. cbn [num_eqb binary64].
  rewrite FloatAxioms.eqb_spec. unfold SFeqb.
  rewrite SFcompare_refl by (apply not_nan_SF, H). reflexivity.
Qed.

(** Row [i] of a rolling mean whose [min_periods] is the window: undefined
    before the window is complete; the value itself when the window holds
    one repeated number. *)
Lemma rolling_at_spec (period i : nat) (xs : list float) :
  (i < length xs)%nat ->
  ((S i < period)%nat -> rolling_at period period xs i = nan)
  /\ (forall c,
        (1 <= period <= S i)%nat ->
        (forall j, (S i - period <= j <= i)%nat -> nth_error xs j = Some c) ->
        is_nan c = false -> is_infinity c = false ->
        rolling_at period period xs i = c).
Proof.
  intros Hi. split.
  - intros Hp. apply (roll_at_short binary64 period i xs Hp).
  - intros c Hp Hrun Hnan Hinf. unfold rolling_at, roll_at.
    apply roll_state_constant.
    + exact Hp.
    + unfold prep_values. rewrite length_map. exact Hi.
    + apply counted_binary64, Hnan.
    + intros j Hj. unfold prep_values. rewrite nth_error_map, (Hrun j Hj).
      cbn [option_map num_isinf binary64]. rewrite Hinf. reflexivity.
Qed.


(* ------------------------------------------------------------------ *)
(** ** The rolling mean in exact arithmetic *)

Lemma slice_In {A : Type} (a b : nat) (l : list A) (x : A) :
  In x (slice a b l) ->
  exists j, (a <= j < b)%nat /\ nth_error l j = Some x.
Proof.
  intros Hx. apply In_nth_error in Hx. destruct Hx as (n & Hx).
  unfold slice in Hx. rewrite nth_error_firstn in Hx.
  destruct (Nat.ltb_spec n (b - a)); [|discriminate].
  rewrite nth_error_skipn in Hx. exists (a + n)%nat. split; [lia|exact Hx].
Qed.

Lemma filter_none {A : Type} (f : A -> bool) (l : list A) :
  length (filter f l) = 0%nat -> forall x, In x l -> f x = false.
Proof.
  induction l as [|y l IH]; intros H x Hx; [destruct Hx|].
  cbn [filter] in H. destruct (f y) eqn:E; [discriminate|].
  destruct Hx as [<-|Hx]; [exact E|exact (IH H x Hx)].
Qed.

Lemma filter_all {A : Type} (f : A -> bool) (l : list A) :
  length (filter f l) = length l -> forall x, In x l -> f x = true.
Proof.
  intros H. destruct (forallb f l) eqn:E.
  - intros x Hx. rewrite forallb_forall in E. exact (E x Hx).
  - apply forallb_filter_lt in E. lia.
Qed.

Lemma count_succ (n : nat) :
  Q2Qc (inject_Z (Z.of_nat (S n))) = (Q2Qc (inject_Z (Z.of_nat n)) + 1)%Qc.
Proof.
  apply Qc_is_canon. rewrite Nat2Z.inj_succ. unfold Z.succ.
  rewrite inject_Z_plus. cbn [this Qcplus Q2Qc].
  rewrite !Qred_correct. reflexivity.
Qed.

Lemma count_pos (n : nat) :
  (1 <= n)%nat -> (Q2Qc 0 < Q2Qc (inject_Z (Z.of_nat n)))%Qc.
Proof.
  intros H. unfold Qclt. cbn [this Q2Qc]. rewrite !Qred_correct.
  change (inject_Z 0 < inject_Z (Z.of_nat n))%Q.
  rewrite <- Zlt_Qlt. lia.
Qed.

Lemma qsum_app (l : list Qc) (v : Qc) : qsum (l ++ [v]) = (qsum l + v)%Qc.
Proof.
  induction l as [|x l IH]; cbn [app qsum fold_right].
  - ring.
  - fold (qsum (l ++ [v])). fold (qsum l). rewrite IH. ring.
Qed.

Lemma qsum_constant (l : list Qc) (c : Qc) :
  (forall x, In x l -> x = c) ->
  qsum l = (c * Q2Qc (inject_Z (Z.of_nat (length l))))%Qc.
Proof.
  induction l as [|x l IH]; intros H.
  - unfold qsum. cbn [fold_right length Z.of_nat].
    change (inject_Z 0) with 0%Q. ring.
  - cbn [qsum fold_right length]. fold (qsum l).
    rewrite IH by (intros y Hy; apply H; right; exact Hy).
    rewrite (H x (or_introl eq_refl)), count_succ. ring.
Qed.

Lemma qsum_nonnegative (l : list Qc) :
  (forall x, In x l -> negative x = false) -> (Q2Qc 0 <= qsum l)%Qc.
Proof.
  induction l as [|x l IH]; intros H.
  - unfold qsum. cbn [fold_right]. apply Qcle_refl.
  - cbn [qsum fold_right]. fold (qsum l).
    replace (Q2Qc 0) with (Q2Qc 0 + Q2Qc 0)%Qc by ring.
    apply Qcplus_le_compat.
    + specialize (H x (or_introl eq_refl)). unfold negative in H.
      destruct (Qclt_le_dec x (Q2Qc 0)); [discriminate|assumption].
    + apply IH. intros y Hy. apply H. right. exact Hy.
Qed.

Lemma Qcplus_lt_le_compat (x y z t : Qc) :
  (x < y)%Qc -> (z <= t)%Qc -> (x + z < y + t)%Qc.
Proof.
  unfold Qclt, Qcle, Qcplus. cbn [this Q2Qc]. rewrite !Qred_correct.
  apply Qplus_lt_le_compat.
Qed.

Lemma qsum_nonpositive (l : list Qc) :
  (forall x, In x l -> negative x = true) -> (qsum l <= Q2Qc 0)%Qc.
Proof.
  induction l as [|x l IH]; intros H.
  - unfold qsum. cbn [fold_right]. apply Qcle_refl.
  - cbn [qsum fold_right]. fold (qsum l).
    replace (Q2Qc 0) with (Q2Qc 0 + Q2Qc 0)%Qc by ring.
    apply Qcplus_le_compat.
    + specialize (H x (or_introl eq_refl)). unfold negative in H.
      destruct (Qclt_le_dec x (Q2Qc 0)); [|discriminate].
      apply Qclt_le_weak. assumption.
    + apply IH. intros y Hy. apply H. right. exact Hy.
Qed.

Lemma qsum_negative (l : list Qc) :
  l <> [] -> (forall x, In x l -> negative x = true) ->
  (qsum l < Q2Qc 0)%Qc.
Proof.
  destruct l as [|x l]; intros Hne H; [congruence|].
  cbn [qsum fold_right]. fold (qsum l).
  replace (Q2Qc 0) with (Q2Qc 0 + Q2Qc 0)%Qc by ring.
  apply Qcplus_lt_le_compat.
  - specialize (H x (or_introl eq_refl)). unfold negative in H.
    destruct (Qclt_le_dec x (Q2Qc 0)); [assumption|discriminate].
  - apply qsum_nonpositive. intros y Hy. apply H. right. exact Hy.
Qed.

Section Exact.

Context (undefined : Qc).

Lemma rational_counted (q : Qc) : counted (rational undefined) q = true.
Proof.
  unfold counted. cbn [num_eqb rational].
  destruct (Qc_eq_dec q q); congruence.
Qed.

Lemma prep_values_rational (qs : list Qc) :
  prep_values (rational undefined) qs = qs.
Proof. unfold prep_values. cbn [num_isinf rational]. apply map_id. Qed.

Lemma tracks_fresh (qs : list Qc) (e : nat) (p : Qc) :
  tracks qs e [] (fresh_state (rational undefined) p).
Proof.
  unfold tracks, fresh_state. cbn. repeat split; try lia.
Qed.

Lemma tracks_add (qs : list Qc) (e : nat) (W : list Qc)
  (st : MeanState Qc) (v : Qc) :
  tracks qs e W st -> nth_error qs e = Some v ->
  tracks qs (S e) (W ++ [v]) (add_mean (rational undefined) v st).
Proof.
  intros (Hs & Hca & Hcr & Hn & Hnn & Hrun) Hv.
  rewrite add_mean_counted by apply rational_counted.
  unfold tracks.
  cbn [sum_x compensation_add compensation_remove neg_ct
       num_consecutive_same_value prev_value
       num_add num_sub num_signbit num_eqb rational].
  rewrite Hs, Hca, qsum_app, filter_app, length_app. cbn [filter].
  fold (negative v).
  split; [ring|]. split; [ring|]. split; [exact Hcr|].
  split; [destruct (negative v); cbn [length]; lia|].
  destruct (Qc_eq_dec v (prev_value st)) as [E|NE].
  - split; [lia|]. intros j Hj.
    destruct (Nat.eq_dec j e) as [->|Hje]; [exact Hv|].
    rewrite E. apply Hrun. lia.
  - split; [lia|]. intros j Hj.
    replace j with e by lia. exact Hv.
Qed.

Lemma tracks_remove (qs : list Qc) (e : nat) (x : Qc) (W : list Qc)
  (st : MeanState Qc) :
  tracks qs e (x :: W) st ->
  tracks qs e W (remove_mean (rational undefined) x st).
Proof.
  intros (Hs & Hca & Hcr & Hn & Hnn & Hrun).
  rewrite remove_mean_counted by apply rational_counted.
  unfold tracks.
  cbn [sum_x compensation_add compensation_remove neg_ct
       num_consecutive_same_value prev_value
       num_add num_sub num_opp num_signbit num_eqb rational].
  cbn [qsum fold_right] in Hs. fold (qsum W) in Hs.
  cbn [filter] in Hn. fold (negative x).
  rewrite Hs, Hcr.
  split; [ring|]. split; [exact Hca|]. split; [ring|].
  split; [destruct (negative x); cbn [length] in Hn; lia|].
  split; [exact Hnn|exact Hrun].
Qed.

(** In exact arithmetic the state holds the sum of the window. *)
Lemma roll_state_tracks (qs : list Qc) (window i : nat) :
  (1 <= window)%nat -> (i < length qs)%nat ->
  tracks qs (S i) (slice (S i - window) (S i) qs)
    (roll_state (rational undefined) qs window i).
Proof.
  intros Hw. induction i as [|i IH]; intros Hi.
  - destruct (nth_error qs 0) as [v|] eqn:Hv;
      [|apply nth_error_None in Hv; lia].
    rewrite (roll_state_first _ qs window v Hw Hv).
    replace (1 - window)%nat with 0%nat by lia.
    rewrite (slice_single 0 qs v Hv).
    apply (tracks_add qs 0 [] _ v); [apply tracks_fresh|exact Hv].
  - destruct (nth_error qs (S i)) as [v|] eqn:Hv;
      [|apply nth_error_None in Hv; lia].
    destruct (Nat.eq_dec window 1) as [->|Hw1].
    { rewrite (roll_state_one _ qs (S i) v Hv).
      replace (S (S i) - 1)%nat with (S i) by lia.
      rewrite (slice_single (S i) qs v Hv).
      apply (tracks_add qs (S i) [] _ v); [apply tracks_fresh|exact Hv]. }
    specialize (IH ltac:(lia)).
    destruct (Nat.lt_ge_cases (S i) window) as [Hlt|Hge].
    + rewrite (roll_state_grow _ qs window i v) by (try lia; exact Hv).
      replace (S i - window)%nat with 0%nat in IH by lia.
      replace (S (S i) - window)%nat with 0%nat by lia.
      rewrite (slice_snoc 0 (S i) qs v) by (try lia; exact Hv).
      apply tracks_add; assumption.
    + destruct (nth_error qs (S i - window)) as [u|] eqn:Hu;
        [|apply nth_error_None in Hu; lia].
      rewrite (roll_state_slide _ qs window i u v) by (try lia; assumption).
      rewrite (slice_cons (S i - window) (S i) qs u) in IH
        by (try lia; exact Hu).
      replace (S (S i) - window)%nat with (S (S i - window)) by lia.
      rewrite (slice_snoc (S (S i - window)) (S i) qs v)
        by (try lia; exact Hv).
      apply tracks_add; [|exact Hv]. apply tracks_remove with (x := u).
      exact IH.
Qed.

(** In exact arithmetic the rolling mean of a complete window is the sum
    of the window divided by its length. *)
Lemma roll_at_rational (qs : list Qc) (window i : nat) :
  (1 <= window <= S i)%nat -> (i < length qs)%nat ->
  roll_at (rational undefined) window window qs i
  = (qsum (slice (S i - window) (S i) qs)
     / Q2Qc (inject_Z (Z.of_nat window)))%Qc.
Proof.
  intros Hw Hi. unfold roll_at. rewrite prep_values_rational.
  destruct (roll_state_tracks qs window i ltac:(lia) Hi)
    as (Hs & _ & _ & Hn & Hnn & Hrun).
  pose proof (roll_state_nobs (rational undefined) qs window i
                ltac:(lia) Hi) as Hobs.
  set (W := slice (S i - window) (S i) qs) in *.
  set (st := roll_state (rational undefined) qs window i) in *.
  assert (Hlen : length W = window)
    by (unfold W; rewrite slice_length by lia; lia).
  rewrite forallb_filter_id, Hlen in Hobs
    by (apply forallb_forall; intros x _; apply rational_counted).
  pose proof (count_pos window ltac:(lia)) as Hpos.
  assert (Hnz : Q2Qc (inject_Z (Z.of_nat window)) <> Q2Qc 0).
  { intros E. rewrite E in Hpos. apply (Qclt_not_le _ _ Hpos).
    apply Qcle_refl. }
  unfold calc_mean. rewrite Hobs, Hs.
  cbn [num_div num_of_count num_ltb num_zero rational].
  destruct (Z.leb_spec (Z.max (Z.of_nat window) 1) (Z.of_nat window)); [|lia].
  destruct (Z.ltb_spec 0 (Z.of_nat window)); [|lia]. cbn [andb].
  set (c := Q2Qc (inject_Z (Z.of_nat window))) in *.
  assert (Hmul : forall r : Qc, (r = qsum W / c -> r * c = qsum W)%Qc).
  { intros r ->. field. exact Hnz. }
  destruct (Z.leb_spec (Z.of_nat window) (num_consecutive_same_value st))
    as [Hsame|_].
  { (* one repeated value *)
    rewrite (qsum_constant W (prev_value st)).
    - rewrite Hlen. fold c. field. exact Hnz.
    - intros x Hx. apply slice_In in Hx. destruct Hx as (j & Hj & Hx).
      rewrite Hrun in Hx by lia. congruence. }
  assert (F1 : neg_ct st = 0 -> (qsum W / c < Q2Qc 0)%Qc -> False).
  { intros Hzero Hlt.
    assert (Hge : (Q2Qc 0 <= qsum W)%Qc).
    { apply qsum_nonnegative, filter_none. lia. }
    apply (Qcle_not_lt _ _ Hge).
    pose proof (Qcmult_lt_compat_r _ _ c Hpos Hlt) as H1.
    rewrite (Hmul _ eq_refl) in H1.
    replace (Q2Qc 0 * c)%Qc with (Q2Qc 0) in H1 by ring. exact H1. }
  assert (F2 : neg_ct st = Z.of_nat window ->
               (Q2Qc 0 < qsum W / c)%Qc -> False).
  { intros Hall Hlt.
    assert (Hneg : (qsum W < Q2Qc 0)%Qc).
    { apply qsum_negative.
      - intros E. rewrite E in Hlen. cbn in Hlen. lia.
      - apply filter_all. lia. }
    apply (Qclt_not_le _ _ Hneg), Qclt_le_weak.
    pose proof (Qcmult_lt_compat_r _ _ c Hpos Hlt) as H1.
    rewrite (Hmul _ eq_refl) in H1.
    replace (Q2Qc 0 * c)%Qc with (Q2Qc 0) in H1 by ring. exact H1. }
  destruct (Z.eqb_spec (neg_ct st) 0) as [Hz|Hz];
    destruct (Qclt_le_dec (qsum W / c) (Q2Qc 0)) as [Hl|Hl]; cbn [andb];
    try (exfalso; exact (F1 Hz Hl));
    destruct (Z.eqb_spec (neg_ct st) (Z.of_nat window)) as [Ha|Ha];
    destruct (Qclt_le_dec (Q2Qc 0) (qsum W / c)) as [Hg|Hg]; cbn [andb];
    try reflexivity; exfalso; exact (F2 Ha Hg).
Qed.

End Exact.

(* ------------------------------------------------------------------ *)
(** ** The columns [calculate_ma] adds *)

Lemma rolling_mean_length (window min_periods : nat) (xs : list float) :
  length (rolling_mean window min_periods xs) = length xs.
Proof. unfold rolling_mean. rewrite length_map, length_seq. reflexivity. Qed.

Lemma rolling_mean_nth (window min_periods : nat) (xs : list float) (i : nat) :
  (i < length xs)%nat ->
  nth_error (rolling_mean window min_periods xs) i
  = Some (rolling_at window min_periods xs i).
Proof.
  intros Hi. unfold rolling_mean.
  rewrite nth_error_map, nth_error_seq.
  destruct (Nat.ltb_spec i (length xs)); [reflexivity|lia].
Qed.

Lemma set_ma_nth (period : nat) (col : list float) (df : list DayRow)
  (i : nat) (r : DayRow) (v : float) :
  nth_error df i = Some r -> nth_error col i = Some v ->
  nth_error (set_ma period col df) i = Some (put_ma period v r).
Proof.
  revert col i. induction df as [|x df IH]; intros col i Hr Hv.
  - destruct i; discriminate.
  - destruct col as [|c col]; [destruct i; discriminate|].
    destruct i as [|i]; cbn in Hr, Hv |- *.
    + congruence.
    + apply IH; assumption.
Qed.

Lemma set_ma_columns (period : nat) (col : list float) (df : list DayRow) :
  length col = length df ->
  map close (set_ma period col df) = map close df
  /\ map trade_date (set_ma period col df) = map trade_date df
  /\ map vol (set_ma period col df) = map vol df.
Proof.
  revert col. induction df as [|x df IH]; intros col Hl.
  - repeat split.
  - destruct col as [|c col]; [discriminate|].
    injection Hl as Hl. destruct (IH col Hl) as (Hc & Hd & Hv).
    unfold set_ma in *. cbn [combine map put_ma fst snd close trade_date vol].
    rewrite Hc, Hd, Hv. repeat split.
Qed.

Lemma calculate_ma_snoc (df : list DayRow) (periods : list nat) (p : nat) :
  calculate_ma df (periods ++ [p])
  = set_ma p (rolling_mean p p (map close (calculate_ma df periods)))
      (calculate_ma df periods).
Proof. unfold calculate_ma. rewrite fold_left_app. reflexivity. Qed.

(** [calculate_ma] leaves the columns of the file as they are. *)
Lemma calculate_ma_columns (df : list DayRow) (periods : list nat) :
  map close (calculate_ma df periods) = map close df
  /\ map trade_date (calculate_ma df periods) = map trade_date df
  /\ map vol (calculate_ma df periods) = map vol df.
Proof.
  induction periods as [|p periods IH] using rev_ind.
  - repeat split.
  - destruct IH as (Hc & Hd & Hv). rewrite calculate_ma_snoc.
    destruct (set_ma_columns p
                (rolling_mean p p (map close (calculate_ma df periods)))
                (calculate_ma df periods)) as (Hc' & Hd' & Hv').
    { rewrite rolling_mean_length, length_map. reflexivity. }
    rewrite Hc', Hd', Hv'. repeat split; assumption.
Qed.

Lemma ma_col_put_same (p : nat) (v : float) (r : DayRow) :
  ma_col p (put_ma p v r) = Ok v.
Proof. unfold ma_col. cbn. rewrite Nat.eqb_refl. reflexivity. Qed.

Lemma ma_col_put_other (p q : nat) (v : float) (r : DayRow) :
  p <> q -> ma_col q (put_ma p v r) = ma_col q r.
Proof.
  intros H. unfold ma_col. cbn.
  destruct (Nat.eqb_spec p q); [congruence|reflexivity].
Qed.

(** Row [i] after [calculate_ma]: the bar of row [i] with, for every period
    asked for, the rolling mean of the closes at row [i] in the column of
    that period. *)
Lemma calculate_ma_nth (df : list DayRow) (periods : list nat) (i : nat)
  (bar : DayRow) :
  nth_error df i = Some bar ->
  exists row,
    nth_error (calculate_ma df periods) i = Some row
    /\ trade_date row = trade_date bar
    /\ close row = close bar
    /\ vol row = vol bar
    /\ forall p, In p periods ->
                 ma_col p row = Ok (rolling_at p p (map close df) i).
Proof.
  intros Hbar.
  assert (Hi : (i < length df)%nat) by (apply nth_error_Some; congruence).
  induction periods as [|p periods IH] using rev_ind.
  - exists bar. repeat split; [exact Hbar|]. intros p [].
  - destruct IH as (row & Hrow & Hd & Hc & Hv & Hma).
    destruct (calculate_ma_columns df periods) as (Hcl & _ & _).
    exists (put_ma p (rolling_at p p (map close df) i) row).
    split; [|split; [|split; [|split]]]; try assumption.
    + rewrite calculate_ma_snoc. apply set_ma_nth; [exact Hrow|].
      rewrite Hcl. apply rolling_mean_nth. rewrite length_map. exact Hi.
    + intros q Hq. destruct (Nat.eq_dec p q) as [<-|Hpq].
      * apply ma_col_put_same.
      * rewrite ma_col_put_other by exact Hpq. apply Hma.
        apply in_app_or in Hq. destruct Hq as [Hq|[Hq|[]]]; [exact Hq|congruence].
Qed.

(** C5. For every daily series and every period [P] asked of
    [calculate_ma], the moving average at row [i] is undefined (NaN, which
    [pd.isna] recognises) when [i < P - 1]. From row [P - 1] on it is the
    value pandas' rolling mean holds at that row: the compensated running
    sum of the series, each close added when the window reaches it and
    subtracted when the window has passed it, divided by [P]. When the [P]
    closes of the window are one and the same number the value is that
    number. The same steps read in exact arithmetic give the arithmetic
    mean of the window: the sum of its [P] values divided by [P]. *)
Theorem moving_average_spec (df : list DayRow) (periods : list nat)
  (P i : nat) (bar : DayRow) :
  In P periods ->
  nth_error df i = Some bar ->
  exists row,
    nth_error (calculate_ma df periods) i = Some row
    /\ trade_date row = trade_date bar
    /\ close row = close bar
    /\ ma_col P row = Ok (rolling_at P P (map close df) i)
    /\ ((i < P - 1)%nat -> ma_col P row = Ok nan)
    /\ ((1 <= P <= i + 1)%nat ->
        (forall j w, (i + 1 - P <= j <= i)%nat -> nth_error df j = Some w ->
                     close w = close bar) ->
        is_nan (close bar) = false -> is_infinity (close bar) = false ->
        ma_col P row = Ok (close bar))
    /\ (forall (undefined : Qc) (qs : list Qc),
          (1 <= P <= i + 1)%nat -> (i < length qs)%nat ->
          roll_at (rational undefined) P P qs i
          = (qsum (slice (i + 1 - P) (i + 1) qs)
             / Q2Qc (inject_Z (Z.of_nat P)))%Qc).
Proof.
  intros HP Hbar.
  assert (Hi : (i < length df)%nat) by (apply nth_error_Some; congruence).
  assert (Hi' : (i < length (map close df))%nat)
    by (rewrite length_map; exact Hi).
  destruct (calculate_ma_nth df periods i bar Hbar)
    as (row & Hrow & Hd & Hc & _ & Hma).
  destruct (rolling_at_spec P i (map close df) Hi') as (Hearly & Hconst).
  exists row. repeat split; try assumption.
  - apply Hma, HP.
  - intros Hlt. rewrite (Hma P HP), Hearly by lia. reflexivity.
  - intros HPi Hsame Hnan Hinf. rewrite (Hma P HP). f_equal.
    apply Hconst; try assumption; [lia|].
    intros j Hj. rewrite nth_error_map.
    destruct (nth_error df j) as [w|] eqn:Hw;
      [|apply nth_error_None in Hw; lia].
    cbn [option_map]. f_equal. apply (Hsame j w); [lia|exact Hw].
  - intros undefined qs HPi Hqs.
    replace (i + 1)%nat with (S i) by lia.
    apply roll_at_rational; [lia|exact Hqs].
Qed.

Lemma moving_average_spec_witness :
  (exists row,
     nth_error (calculate_ma (parse_tdx_day_file five_bar_file) [5%nat]) 4
     = Some row
     /\ ma_col 5 row = Ok 10%float)
  /\ (exists row,
        nth_error (calculate_ma (parse_tdx_day_file five_bar_file) [5%nat]) 3
        = Some row
        /\ ma_col 5 row = Ok nan).
Proof.
  split.
  - destruct (moving_average_spec (parse_tdx_day_file five_bar_file) [5%nat] 5 4
                (mkDayRow "20251005" 10 10 10 10 1000 10000 []))
      as (row & Hrow & _ & _ & Hval & _ & _).
    + left. reflexivity.
    + vm_compute. reflexivity.
    + exists row. split; [exact Hrow|].
      rewrite Hval. vm_compute. reflexivity.
  - destruct (moving_average_spec (parse_tdx_day_file five_bar_file) [5%nat] 5 3
                (mkDayRow "20251004" 10 10 10 10 1000 10000 []))
      as (row & Hrow & _ & _ & _ & Hearly & _).
    + left. reflexivity.
    + vm_compute. reflexivity.
    + exists row. split; [exact Hrow|].
      apply Hearly. vm_compute. apply le_n.
Defined.

(** C5 as it was stated does not hold of the code: the value at a row is
    not a function of the closes of its window, the arithmetic mean or any
    other. The average of period 2 at the bar closing at 4.22 after the bar
    closing at 2.03 is 3.125 when the file starts with these two bars, and
    3.1249999999999996 when the bars closing at 4.11 and 7.11 come first. *)
Lemma moving_average_not_window_mean :
  ~ (exists mean : list float -> float,
       forall (df : list DayRow) (periods : list nat) (P i : nat)
              (row : DayRow),
         In P periods -> (P - 1 <= i)%nat ->
         nth_error (calculate_ma df periods) i = Some row ->
         ma_col P row
         = Ok (mean (map close (slice (i + 1 - P) (i + 1) df)))).
Proof.
  intros (mean & H).
  assert (H1 : exists row,
             nth_error (calculate_ma (parse_tdx_day_file drift_file) [2%nat]) 3
             = Some row
             /\ ma_col 2 row = Ok 0x1.8ffffffffffffp+1%float).
  { eexists. split; vm_compute; reflexivity. }
  assert (H2 : exists row,
             nth_error (calculate_ma (parse_tdx_day_file recent_file) [2%nat]) 1
             = Some row
             /\ ma_col 2 row = Ok 3.125%float).
  { eexists. split; vm_compute; reflexivity. }
  destruct H1 as (row1 & Hrow1 & Hv1). destruct H2 as (row2 & Hrow2 & Hv2).
  pose proof (H _ [2%nat] 2%nat 3%nat row1 (or_introl eq_refl)
                ltac:(cbn; lia) Hrow1) as E1.
  pose proof (H _ [2%nat] 2%nat 1%nat row2 (or_introl eq_refl)
                ltac:(cbn; lia) Hrow2) as E2.
  rewrite Hv1 in E1. rewrite Hv2 in E2.
  assert (Hw : map close (slice (3 + 1 - 2) (3 + 1)
                            (parse_tdx_day_file drift_file))
               = map close (slice (1 + 1 - 2) (1 + 1)
                              (parse_tdx_day_file recent_file)))
    by (vm_compute; reflexivity).
  rewrite Hw, <- E2 in E1.
  apply (f_equal (fun r => match r with
                           | Ok x => (x =? 3.125)%float
                           | Raise _ => false
                           end)) in E1.
  vm_compute in E1. discriminate E1.
Qed.

(* ================================================================== *)
(** * The frame after [calculate_ma] *)

Lemma Forall2_filter {A B : Type} (R : A -> B -> Prop) (f : A -> bool)
  (g : B -> bool) (l : list A) (l' : list B) :
  (forall a b, R a b -> f a = g b) ->
  Forall2 R l l' -> Forall2 R (filter f l) (filter g l').
Proof.
  intros Hfg. induction 1 as [|a b l l' Hab _ IH]; cbn [filter].
  - constructor.
  - rewrite <- (Hfg a b Hab). destruct (f a); [constructor; assumption|exact IH].
Qed.

Lemma same_bar_refl (r : DayRow) : same_bar [] r r.
Proof. repeat split. intros p []. Qed.

Lemma set_ma_same_bar (periods : list nat) (p : nat) (df df' : list DayRow) :
  Forall2 (same_bar periods) df df' ->
  forall col, length col = length df' ->
              Forall2 (same_bar (periods ++ [p])) df (set_ma p col df').
Proof.
  induction 1 as [|r r' df df' Hr _ IH]; intros col Hl.
  - constructor.
  - destruct col as [|v col]; [discriminate|]. injection Hl as Hl.
    unfold set_ma. cbn [combine map fst snd]. constructor; [|apply IH, Hl].
    destruct Hr as (Hd & Hc & Hv & Hma). repeat split; try assumption.
    intros q Hq. destruct (Nat.eq_dec p q) as [<-|Hpq].
    + eexists. apply ma_col_put_same.
    + rewrite ma_col_put_other by exact Hpq. apply Hma.
      apply in_app_or in Hq. destruct Hq as [Hq|[Hq|[]]]; [exact Hq|congruence].
Qed.

Lemma calculate_ma_same_bar (df : list DayRow) (periods : list nat) :
  Forall2 (same_bar periods) df (calculate_ma df periods).
Proof.
  induction periods as [|p periods IH] using rev_ind.
  - induction df as [|r df IHdf]; constructor; [apply same_bar_refl|exact IHdf].
  - rewrite calculate_ma_snoc. apply set_ma_same_bar; [exact IH|].
    rewrite rolling_mean_length, length_map. reflexivity.
Qed.

Lemma same_bar_rows_on (periods : list nat) (d : string) (df df' : list DayRow) :
  Forall2 (same_bar periods) df df' ->
  Forall2 (same_bar periods) (rows_on d df) (rows_on d df').
Proof.
  apply Forall2_filter. intros a b (Hd & _). rewrite Hd. reflexivity.
Qed.

Lemma same_bar_bars_before (periods : list nat) (d : string)
  (df df' : list DayRow) :
  Forall2 (same_bar periods) df df' ->
  Forall2 (same_bar periods) (bars_before d df) (bars_before d df').
Proof.
  apply Forall2_filter. intros a b (Hd & _). rewrite Hd. reflexivity.
Qed.

(** The dates decide what [get_prev_trade_date] returns. *)
Lemma get_prev_trade_date_dates (df df' : list DayRow) (d : string) :
  map trade_date df' = map trade_date df ->
  get_prev_trade_date df' d = get_prev_trade_date df d.
Proof. intros H. unfold get_prev_trade_date. rewrite H. reflexivity. Qed.

Lemma rows_on_in (d : string) (df : list DayRow) :
  In d (map trade_date df) -> exists r rs, rows_on d df = r :: rs.
Proof.
  induction df as [|x df IH]; cbn [map In]; [intros []|].
  intros [Hx|Hin]; unfold rows_on; cbn [filter].
  - rewrite Hx, String.eqb_refl. eauto.
  - destruct (String.eqb (trade_date x) d); [eauto|]. apply IH, Hin.
Qed.

Lemma existsb_in (d : string) (l : list string) :
  existsb (String.eqb d) l = true -> In d l.
Proof.
  intros H. apply existsb_exists in H. destruct H as (x & Hx & E).
  apply String.eqb_eq in E. subst x. exact Hx.
Qed.

Lemma get_prev_trade_date_in (df : list DayRow) (d pd : string) :
  get_prev_trade_date df d = Some pd -> In pd (map trade_date df).
Proof.
  unfold get_prev_trade_date.
  destruct (index_of d (map trade_date df)) as [k|]; [|discriminate].
  destruct (0 <? k)%nat; [|discriminate].
  apply nth_error_In.
Qed.

(** Generators over bodies that do not raise. *)
Lemma any_gen_total {A : Type} (f : A -> result bool) (l : list A) :
  (forall x, In x l -> exists b, f x = Ok b) -> exists b, any_gen f l = Ok b.
Proof.
  induction l as [|x l IH]; intros H; cbn [any_gen]; [eauto|].
  destruct (H x (or_introl eq_refl)) as (b & ->).
  destruct b; [eauto|]. apply IH. intros y Hy. apply H. right. exact Hy.
Qed.

Lemma list_gen_total {A B : Type} (f : A -> result B) (l : list A) :
  (forall x, In x l -> exists b, f x = Ok b) -> exists bs, list_gen f l = Ok bs.
Proof.
  induction l as [|x l IH]; intros H; cbn [list_gen]; [eauto|].
  destruct (H x (or_introl eq_refl)) as (b & ->).
  destruct IH as (bs & ->); [|eauto].
  intros y Hy. apply H. right. exact Hy.
Qed.

Lemma list_gen_map {A B : Type} (f : A -> result B) (g : A -> B) (l : list A) :
  (forall x, In x l -> f x = Ok (g x)) -> list_gen f l = Ok (map g l).
Proof.
  induction l as [|x l IH]; intros H; [reflexivity|].
  cbn [list_gen map]. rewrite (H x (or_introl eq_refl)).
  rewrite IH; [reflexivity|]. intros y Hy. apply H. right. exact Hy.
Qed.

Lemma list_gen_Forall2 {A B : Type} (f : A -> result B) (l : list A)
  (l' : list B) :
  list_gen f l = Ok l' -> Forall2 (fun x y => f x = Ok y) l l'.
Proof.
  revert l'. induction l as [|x l IH]; intros l' H; cbn [list_gen] in H.
  - injection H as <-. constructor.
  - destruct (f x) as [y|e] eqn:E; [|discriminate H].
    destruct (list_gen f l) as [ys|e]; [|discriminate H].
    injection H as <-. constructor; [exact E|apply IH; reflexivity].
Qed.

Lemma check_ma_break_total (df : list DayRow) (d : string) (ma_list : list nat)
  (break_type : string) :
  Forall (fun r => forall p, In p ma_list -> exists v, ma_col p r = Ok v) df ->
  exists b, check_ma_break df d ma_list break_type = Ok b.
Proof.
  intros Hall. unfold check_ma_break.
  destruct (rows_on d df) as [|r rs] eqn:Hr; [eauto|].
  assert (Hin : In r df).
  { assert (H : In r (rows_on d df)) by (rewrite Hr; left; reflexivity).
    apply filter_In in H. apply H. }
  rewrite Forall_forall in Hall.
  destruct (list_gen_total (fun m => ma_col m r) ma_list (Hall r Hin)) as (mvs & ->).
  cbn [bind].
  destruct (String.eqb break_type "all"); [eauto|].
  destruct (String.eqb break_type "any"); eauto.
Qed.

Lemma ma_entry_total (cfg : Config) (p : nat) (r : DayRow) :
  (forall q, In q (MA_LIST cfg) -> exists v, ma_col q r = Ok v) ->
  exists o, ma_entry cfg p r = Ok o.
Proof.
  intros H. unfold ma_entry.
  destruct (existsb (Nat.eqb p) (MA_LIST cfg)) eqn:E; [|eauto].
  apply existsb_exists in E. destruct E as (q & Hq & E).
  apply Nat.eqb_eq in E. subst q.
  destruct (H p Hq) as (v & ->). cbn [bind]. eauto.
Qed.

Lemma Forall2_right {A B : Type} (R : A -> B -> Prop) (P : B -> Prop)
  (l : list A) (l' : list B) :
  (forall a b, R a b -> P b) -> Forall2 R l l' -> Forall P l'.
Proof.
  intros H. induction 1; constructor; eauto.
Qed.

Lemma bars_before_length_ma (d : string) (df : list DayRow) (periods : list nat) :
  length (bars_before d (calculate_ma df periods)) = length (bars_before d df).
Proof.
  symmetry. eapply Forall2_length, same_bar_bars_before, calculate_ma_same_bar.
Qed.

(** The second [return] of [check_box_break] is reached when the window is
    full and the target has a bar. *)
Lemma check_box_break_full (df : list DayRow) (d : string) (n : nat)
  (r : DayRow) (rs : list DayRow) :
  (n <= length (bars_before d df))%nat ->
  rows_on d df = r :: rs ->
  exists b u q, check_box_break df d n = Ok (Tuple3 b u q).
Proof.
  intros Hn Hr. unfold check_box_break. rewrite tail_length.
  destruct (Nat.ltb_spec (Nat.min n (length (bars_before d df))) n); [lia|].
  rewrite Hr. cbn [iloc0 bind]. eauto.
Qed.

(* ================================================================== *)
(** * The loop body and the chain of stages *)

(** What the guards of steps 2.1-2.3 establish about the frame the later
    steps read. *)
Lemma guard_context (cfg : Config) (f : list byte) (pd : string) :
  existsb (String.eqb (TARGET_DATE cfg))
    (map trade_date (parse_tdx_day_file f)) = true ->
  get_prev_trade_date (parse_tdx_day_file f) (TARGET_DATE cfg) = Some pd ->
  let df' := calculate_ma (parse_tdx_day_file f) (MA_LIST cfg) in
  exists r rs p ps inc,
    rows_on (TARGET_DATE cfg) df' = r :: rs
    /\ rows_on pd df' = p :: ps
    /\ (forall q, In q (MA_LIST cfg) -> exists v, ma_col q r = Ok v)
    /\ any_gen (fun q => bind (iloc0 (rows_on (TARGET_DATE cfg) df'))
                           (fun r0 => bind (ma_col q r0)
                                        (fun v => Ok (is_nan v))))
         (MA_LIST cfg) = Ok inc
    /\ get_prev_trade_date df' (TARGET_DATE cfg) = Some pd
    /\ Forall (fun r => forall q, In q (MA_LIST cfg) -> exists v, ma_col q r = Ok v) df'.
Proof.
  intros Htarget Hprev df'.
  pose proof (calculate_ma_same_bar (parse_tdx_day_file f) (MA_LIST cfg)) as Hsame.
  fold df' in Hsame.
  assert (Hcols : Forall (fun r => forall q, In q (MA_LIST cfg) ->
                                   exists v, ma_col q r = Ok v) df').
  { eapply Forall2_right; [|exact Hsame]. intros a b (_ & _ & _ & H). exact H. }
  assert (Hrows : forall d, In d (map trade_date (parse_tdx_day_file f)) ->
                  exists r rs, rows_on d df' = r :: rs /\ In r df').
  { intros d Hd. destruct (rows_on_in d _ Hd) as (r0 & rs0 & E0).
    pose proof (same_bar_rows_on _ d _ _ Hsame) as H2. rewrite E0 in H2.
    inversion H2 as [|? r ? rs _ _ E1 E2]; subst.
    exists r, rs. split; [reflexivity|].
    assert (H : In r (rows_on d df')) by (rewrite <- E2; left; reflexivity).
    apply filter_In in H. apply H. }
  destruct (Hrows _ (existsb_in _ _ Htarget)) as (r & rs & Hr & Hrin).
  destruct (Hrows _ (get_prev_trade_date_in _ _ _ Hprev)) as (p & ps & Hp & _).
  rewrite Forall_forall in Hcols.
  destruct (any_gen_total
              (fun q => bind (iloc0 (rows_on (TARGET_DATE cfg) df'))
                          (fun r0 => bind (ma_col q r0) (fun v => Ok (is_nan v))))
              (MA_LIST cfg)) as (inc & Hinc).
  { intros q Hq. rewrite Hr. cbn [iloc0 bind].
    destruct (Hcols r Hrin q Hq) as (v & ->). cbn [bind]. eauto. }
  exists r, rs, p, ps, inc. repeat split; try assumption.
  - apply Hcols, Hrin.
  - rewrite <- Hprev. apply get_prev_trade_date_dates.
    apply (calculate_ma_columns (parse_tdx_day_file f) (MA_LIST cfg)).
  - apply Forall_forall. exact Hcols.
Qed.

(** Only the first row of a code in the table matters to a stage. *)
Lemma run_stage_table (cfg : Config) (fs : FileSystem)
  (tbl tbl' : list BasicRow) (code : string) (s : stage) :
  iloc0 (filter (fun x => String.eqb (ts_code x) code) tbl)
  = iloc0 (filter (fun x => String.eqb (ts_code x) code) tbl') ->
  run_stage cfg fs tbl code s = run_stage cfg fs tbl' code s.
Proof.
  intros H. destruct s; unfold run_stage; rewrite ?H; reflexivity.
Qed.

Lemma run_stages_table (cfg : Config) (fs : FileSystem)
  (tbl tbl' : list BasicRow) (code : string) (order : list stage) :
  iloc0 (filter (fun x => String.eqb (ts_code x) code) tbl)
  = iloc0 (filter (fun x => String.eqb (ts_code x) code) tbl') ->
  run_stages cfg fs tbl code order = run_stages cfg fs tbl' code order.
Proof.
  intros H. induction order as [|s order IH]; cbn [run_stages]; [reflexivity|].
  rewrite (run_stage_table cfg fs tbl tbl' code s H), IH. reflexivity.
Qed.

Lemma run_stages_total (cfg : Config) (fs : FileSystem) (tbl : list BasicRow)
  (code : string) (order : list stage) :
  (forall s, In s order -> exists v, run_stage cfg fs tbl code s = Ok v) ->
  run_stages cfg fs tbl code order
  = Ok (forallb (verdict cfg fs tbl code) order).
Proof.
  induction order as [|s order IH]; intros H; cbn [run_stages forallb];
    [reflexivity|].
  unfold verdict at 1.
  destruct (H s (or_introl eq_refl)) as (v & ->).
  destruct v; cbn [andb]; [|reflexivity].
  apply IH. intros s' Hs'. apply H. right. exact Hs'.
Qed.

Lemma forallb_permutation {A : Type} (f : A -> bool) (l l' : list A) :
  Permutation l l' -> forallb f l = forallb f l'.
Proof.
  induction 1 as [|x l l' _ IH|x y l|l l' l'' _ IH1 _ IH2]; cbn [forallb].
  - reflexivity.
  - rewrite IH. reflexivity.
  - destruct (f x), (f y); reflexivity.
  - rewrite IH1. exact IH2.
Qed.

Lemma guard_first_source : guard_first stage_order = true.
Proof. reflexivity. Qed.


Lemma run_stages_app (cfg : Config) (fs : FileSystem) (tbl : list BasicRow)
  (code : string) (order order' : list stage) :
  run_stages cfg fs tbl code (order ++ order')
  = match run_stages cfg fs tbl code order with
    | Ok true => run_stages cfg fs tbl code order'
    | Ok false => Ok false
    | Raise e => Raise e
    end.
Proof.
  induction order as [|s order IH]; cbn [app run_stages]; [reflexivity|].
  destruct (run_stage cfg fs tbl code s) as [[|]|e]; [exact IH|reflexivity..].
Qed.

(** The box stage on a file with fewer than [BOX_DAYS] bars before the
    target: the pair [check_box_break] returns does not unpack into the
    three targets of line 238. *)
Lemma box_stage_short (cfg : Config) (fs : FileSystem) (tbl : list BasicRow)
  (code : string) :
  window_ok cfg fs code = false ->
  run_stage cfg fs tbl code BoxBreakout = Raise ValueError.
Proof.
  unfold window_ok, run_stage, load_day_df.
  destruct (day_files fs code) as [f|]; [|discriminate].
  intros Hwin. apply Nat.leb_gt in Hwin. cbn [bind].
  rewrite check_box_break_short
    by (rewrite bars_before_length_ma; exact Hwin).
  reflexivity.
Qed.

(* ================================================================== *)
(** * One instrument of the table

    The facts below are about one code whose first row in the table is [b],
    a row that carries the share column. *)

Ltac continues := split; [reflexivity|exact I].

Section Instrument.

Context (cfg : Config) (fs : FileSystem) (basic_df : list BasicRow)
  (code : string) (b : BasicRow) (bs : list BasicRow) (share : float).

Hypothesis Hprofile :
  filter (fun x => String.eqb (ts_code x) code) basic_df = b :: bs.
Hypothesis Hshare : circulating_share b = Some share.

(** The loop body on a code whose row carries the share column decides as
    the stages after the market-cap filter do, taken in the order of the
    source: it appends when they all pass, continues when one excludes, and
    raises what the first raising stage raises. *)
Lemma process_stock_chain :
  run_stages cfg fs basic_df code (List.tl stage_order)
  = keeps (process_stock cfg fs basic_df code)
  /\ match process_stock cfg fs basic_df code with
     | Ok (Some res) => sr_code res = code
     | _ => True
     end.
Proof.
  unfold process_stock. cbn [List.tl stage_order run_stages].
  unfold run_stage at 1.
  destruct (day_files fs code) as [f|] eqn:Hfile; [|continues].
  cbv zeta.
  destruct (negb (existsb (String.eqb (TARGET_DATE cfg))
                    (map trade_date (parse_tdx_day_file f)))) eqn:Htarget;
    [continues|].
  apply negb_false_iff in Htarget.
  destruct (get_prev_trade_date (parse_tdx_day_file f) (TARGET_DATE cfg))
    as [pd|] eqn:Hprev; [|continues].
  destruct (String.eqb pd "" || negb (existsb (String.eqb pd)
              (map trade_date (parse_tdx_day_file f)))) eqn:Hpd;
    cbn [negb]; [continues|].
  destruct (guard_context cfg f pd Htarget Hprev)
    as (r & rs & p & ps & inc & Hr & Hp & Hma & Hinc & Hprev' & Hcols).
  set (df' := calculate_ma (parse_tdx_day_file f) (MA_LIST cfg)) in *.
  (* moving-average completeness *)
  unfold run_stage at 1. unfold load_day_df. rewrite Hfile. fold df'.
  cbn [bind]. rewrite !Hinc. cbn [bind].
  destruct inc; cbn [negb]; [continues|].
  (* step 2.5 *)
  rewrite !Hr, !Hp, !Hprofile. cbn [iloc0 bind]. unfold share_col. rewrite !Hshare.
  cbn [bind].
  (* volume growth *)
  unfold run_stage at 1. unfold load_day_df. rewrite Hfile. fold df'.
  cbn [bind]. rewrite !Hr, !Hprev', !Hp. cbn [iloc0 bind].
  destruct (volume_growth (vol r) (vol p) <? VOLUME_GROWTH_RATIO cfg)%float;
    cbn [negb]; [continues|].
  (* turnover *)
  unfold run_stage at 1. unfold load_day_df. rewrite Hfile. fold df'.
  cbn [bind]. rewrite !Hr, !Hprofile. cbn [iloc0 bind]. unfold share_col.
  rewrite !Hshare. cbn [bind].
  destruct (turnover_rate (vol r) share <? TURNOVER_RATE_THRESHOLD cfg)%float;
    cbn [negb]; [continues|].
  (* concentration *)
  unfold run_stage at 1.
  destruct (parse_tdx_chip_data (chip_files fs code) (TARGET_DATE cfg))
    as [chip|]; [|continues].
  destruct ((chip =? 0)%float || (chip <? CHIP_CONCENTRATION cfg)%float);
    cbn [negb]; [continues|].
  (* box breakout *)
  unfold run_stage at 1. unfold load_day_df. rewrite Hfile. fold df'.
  cbn [bind].
  destruct (check_box_break df' (TARGET_DATE cfg) (BOX_DAYS cfg)) as [t|e];
    cbn [bind]; [|continues].
  destruct t as [brk z|brk upper ratio]; cbn [unpack3 bind];
    [continues|].
  destruct brk; cbn [negb]; [|continues].
  (* moving-average breakout *)
  unfold run_stage at 1. unfold load_day_df. rewrite Hfile. fold df'.
  cbn [bind].
  destruct (check_ma_break_total df' (TARGET_DATE cfg) (MA_LIST cfg)
              (BREAK_MA_TYPE cfg) Hcols) as (ok & ->).
  cbn [bind].
  destruct ok; cbn [negb]; [|continues].
  destruct (ma_entry_total cfg 5 r Hma) as (m5 & ->).
  destruct (ma_entry_total cfg 10 r Hma) as (m10 & ->).
  destruct (ma_entry_total cfg 20 r Hma) as (m20 & ->).
  cbn [bind sr_code keeps]. split; reflexivity.
Qed.

(** The loop body on a code whose row carries the share column either
    continues or has found a concentration sample that is neither zero nor
    below the threshold. *)
Lemma process_stock_needs_chip :
  process_stock cfg fs basic_df code = Ok None
  \/ exists chip,
       parse_tdx_chip_data (chip_files fs code) (TARGET_DATE cfg) = Some chip
       /\ ((chip =? 0) || (chip <? CHIP_CONCENTRATION cfg))%float = false.
Proof.
  unfold process_stock.
  destruct (day_files fs code) as [f|] eqn:Hfile; [|left; reflexivity].
  cbv zeta.
  destruct (negb (existsb (String.eqb (TARGET_DATE cfg))
                    (map trade_date (parse_tdx_day_file f)))) eqn:Htarget;
    [left; reflexivity|].
  apply negb_false_iff in Htarget.
  destruct (get_prev_trade_date (parse_tdx_day_file f) (TARGET_DATE cfg))
    as [pd|] eqn:Hprev; [|left; reflexivity].
  destruct (String.eqb pd "" || negb (existsb (String.eqb pd)
              (map trade_date (parse_tdx_day_file f))));
    [left; reflexivity|].
  destruct (guard_context cfg f pd Htarget Hprev)
    as (r & rs & p & ps & inc & Hr & Hp & Hma & Hinc & _ & _).
  set (df' := calculate_ma (parse_tdx_day_file f) (MA_LIST cfg)) in *.
  rewrite Hinc. cbn [bind].
  destruct inc; [left; reflexivity|].
  rewrite Hr, Hp, Hprofile. cbn [iloc0 bind]. unfold share_col. rewrite Hshare.
  cbn [bind].
  destruct (volume_growth (vol r) (vol p) <? VOLUME_GROWTH_RATIO cfg)%float;
    [left; reflexivity|].
  destruct (turnover_rate (vol r) share <? TURNOVER_RATE_THRESHOLD cfg)%float;
    [left; reflexivity|].
  destruct (parse_tdx_chip_data (chip_files fs code) (TARGET_DATE cfg))
    as [chip|]; [|left; reflexivity].
  destruct ((chip =? 0)%float || (chip <? CHIP_CONCENTRATION cfg)%float) eqn:E;
    [left; reflexivity|].
  right. exists chip. split; [reflexivity|exact E].
Qed.

(** The three stages that never raise on a code of the table. *)
Lemma stage_total_unguarded (s : stage) :
  s = StaticCap \/ s = Concentration \/ s = SeriesAvailability ->
  exists v, run_stage cfg fs basic_df code s = Ok v.
Proof.
  intros [ -> | [ -> | -> ] ]; unfold run_stage.
  - rewrite Hprofile. cbn [iloc0 bind]. eauto.
  - destruct (parse_tdx_chip_data _ _); eauto.
  - destruct (day_files fs code); [|eauto].
    destruct (negb _); [eauto|].
    destruct (get_prev_trade_date _ _); eauto.
Qed.

(** Once the availability stage has passed, no stage raises on a code whose
    row carries the share column and whose file has a full window. *)
Lemma stage_total_guarded (s : stage) :
  window_ok cfg fs code = true ->
  run_stage cfg fs basic_df code SeriesAvailability = Ok true ->
  exists v, run_stage cfg fs basic_df code s = Ok v.
Proof.
  intros Hwin Hguard.
  unfold run_stage in Hguard. unfold window_ok in Hwin.
  destruct (day_files fs code) as [f|] eqn:Hfile; [|discriminate].
  destruct (negb (existsb (String.eqb (TARGET_DATE cfg))
                    (map trade_date (parse_tdx_day_file f)))) eqn:Htarget;
    [discriminate|].
  apply negb_false_iff in Htarget.
  destruct (get_prev_trade_date (parse_tdx_day_file f) (TARGET_DATE cfg))
    as [pd|] eqn:Hprev; [|discriminate].
  destruct (guard_context cfg f pd Htarget Hprev)
    as (r & rs & p & ps & inc & Hr & Hp & Hma & Hinc & Hprev' & Hcols).
  set (df' := calculate_ma (parse_tdx_day_file f) (MA_LIST cfg)) in *.
  destruct s; unfold run_stage, load_day_df; rewrite ?Hfile; fold df';
    cbn [bind].
  - rewrite Hprofile. cbn [iloc0 bind]. eauto.
  - rewrite Htarget, Hprev. cbn [negb]. eauto.
  - rewrite Hinc. cbn [bind]. eauto.
  - rewrite Hr, Hprev', Hp. cbn [iloc0 bind]. eauto.
  - rewrite Hr, Hprofile. cbn [iloc0 bind]. unfold share_col. rewrite Hshare.
    cbn [bind]. eauto.
  - destruct (parse_tdx_chip_data _ _); eauto.
  - destruct (check_box_break_full df' (TARGET_DATE cfg) (BOX_DAYS cfg) r rs)
      as (brk & u & q & ->).
    + unfold df'. rewrite bars_before_length_ma. apply Nat.leb_le, Hwin.
    + exact Hr.
    + cbn [bind unpack3]. eauto.
  - apply check_ma_break_total. exact Hcols.
Qed.

(** An instrument the availability stage excludes is excluded by every
    chain that runs that stage before the stages it guards. *)
Lemma run_stages_guard_excludes (order : list stage) :
  run_stage cfg fs basic_df code SeriesAvailability = Ok false ->
  guard_first order = true -> In SeriesAvailability order ->
  run_stages cfg fs basic_df code order = Ok false.
Proof.
  intros Hguard. induction order as [|s order IH]; intros Hfirst Hin.
  - destruct Hin.
  - cbn [run_stages].
    destruct s; cbn [guard_first] in Hfirst; try discriminate.
    + destruct (stage_total_unguarded StaticCap)
        as (v & ->); [auto|].
      destruct v; [|reflexivity]. apply IH; [exact Hfirst|].
      destruct Hin as [Hin|Hin]; [discriminate|exact Hin].
    + rewrite Hguard. reflexivity.
    + destruct (stage_total_unguarded Concentration)
        as (v & ->); [auto|].
      destruct v; [|reflexivity]. apply IH; [exact Hfirst|].
      destruct Hin as [Hin|Hin]; [discriminate|exact Hin].
Qed.

(** For one code, any chain that keeps the guard first decides as the chain
    of the source. *)
Lemma run_stages_reorder (order : list stage) :
  window_ok cfg fs code = true ->
  Permutation order stage_order -> guard_first order = true ->
  run_stages cfg fs basic_df code order = run_stages cfg fs basic_df code stage_order.
Proof.
  intros Hwin Hperm Hfirst.
  destruct (stage_total_unguarded SeriesAvailability)
    as ([|] & Hguard); [auto| |].
  - rewrite !run_stages_total
      by (intros s _; apply stage_total_guarded; assumption).
    f_equal. apply forallb_permutation, Hperm.
  - rewrite (run_stages_guard_excludes order)
      by (try assumption;
          apply (Permutation_in _ (Permutation_sym Hperm)); cbn; auto).
    rewrite (run_stages_guard_excludes stage_order)
      by (try assumption; try reflexivity; cbn; auto).
    reflexivity.
Qed.

(** Every instrument that passes the stages before the box stage and has
    fewer than [BOX_DAYS] bars before the target makes the loop body raise
    [ValueError], which ends the scan: the remaining codes are not
    visited. *)
Lemma short_window_raises :
  window_ok cfg fs code = false ->
  run_stages cfg fs basic_df code
    [SeriesAvailability; MACompleteness; VolumeGrowth; TurnoverRate;
     Concentration] = Ok true ->
  process_stock cfg fs basic_df code = Raise ValueError
  /\ forall rest acc,
       scan cfg fs basic_df (code :: rest) acc = Raise ValueError.
Proof.
  intros Hwin Hpass.
  destruct process_stock_chain as (Hchain & _).
  change (List.tl stage_order)
    with ([SeriesAvailability; MACompleteness; VolumeGrowth; TurnoverRate;
           Concentration] ++ [BoxBreakout; MABreakout]) in Hchain.
  rewrite run_stages_app, Hpass in Hchain. cbn [run_stages] in Hchain.
  rewrite box_stage_short in Hchain by exact Hwin.
  assert (Hraise : process_stock cfg fs basic_df code = Raise ValueError).
  { destruct (process_stock cfg fs basic_df code) as [[res|]|e];
      cbn [keeps] in Hchain; congruence. }
  split; [exact Hraise|].
  intros rest acc. cbn [scan]. rewrite Hraise. reflexivity.
Qed.

End Instrument.

(* ================================================================== *)
(** * The chain over a table *)

Lemma scan_stages_ext (cfg : Config) (fs : FileSystem) (tbl : list BasicRow)
  (order order' : list stage) (codes : list string) :
  (forall code, In code codes ->
                run_stages cfg fs tbl code order
                = run_stages cfg fs tbl code order') ->
  scan_stages cfg fs tbl order codes = scan_stages cfg fs tbl order' codes.
Proof.
  induction codes as [|code codes IH]; intros H; cbn [scan_stages];
    [reflexivity|].
  rewrite (H code (or_introl eq_refl)), IH; [reflexivity|].
  intros c Hc. apply H. right. exact Hc.
Qed.

Lemma has_share_in (tbl : list BasicRow) (b : BasicRow) :
  has_share tbl = true -> In b tbl -> exists share, circulating_share b = Some share.
Proof.
  unfold has_share. rewrite forallb_forall. intros H Hb.
  specialize (H b Hb). destruct (circulating_share b); [eauto|discriminate].
Qed.

Lemma profile_of_code (tbl : list BasicRow) (code : string) :
  In code (map ts_code tbl) ->
  exists b bs, filter (fun x => String.eqb (ts_code x) code) tbl = b :: bs
               /\ In b tbl.
Proof.
  intros Hin. apply in_map_iff in Hin. destruct Hin as (x & Hx & Hin).
  destruct (filter (fun y => String.eqb (ts_code y) code) tbl) as [|b bs] eqn:E.
  - assert (H : In x (filter (fun y => String.eqb (ts_code y) code) tbl)).
    { apply filter_In. split; [exact Hin|]. rewrite Hx. apply String.eqb_refl. }
    rewrite E in H. destruct H.
  - exists b, bs. split; [reflexivity|].
    assert (H : In b (filter (fun y => String.eqb (ts_code y) code) tbl))
      by (rewrite E; left; reflexivity).
    apply filter_In in H. apply H.
Qed.

(** Over a table, every chain that keeps the guard first selects what the
    chain of the source selects. *)
Lemma select_with_reorder (cfg : Config) (fs : FileSystem)
  (tbl : list BasicRow) (order : list stage) :
  Permutation order stage_order -> guard_first order = true ->
  has_share tbl = true ->
  forallb (window_ok cfg fs) (map ts_code tbl) = true ->
  select_with order cfg fs tbl = select_with stage_order cfg fs tbl.
Proof.
  intros Hperm Hfirst Hshare Hwin. unfold select_with.
  apply scan_stages_ext. intros code Hcode.
  destruct (profile_of_code tbl code Hcode) as (b & bs & Hb & Hin).
  destruct (has_share_in tbl b Hshare Hin) as (share & Hs).
  rewrite forallb_forall in Hwin.
  eapply run_stages_reorder; eauto.
Qed.

(* ================================================================== *)
(** * The loop of the source and the chain in the order of the source *)

Lemma scan_acc (cfg : Config) (fs : FileSystem) (tbl : list BasicRow)
  (codes : list string) :
  forall acc,
    scan cfg fs tbl codes acc
    = match scan cfg fs tbl codes [] with
      | Ok l => Ok (acc ++ l)
      | Raise e => Raise e
      end.
Proof.
  induction codes as [|code codes IH]; intros acc; cbn [scan].
  - rewrite app_nil_r. reflexivity.
  - destruct (process_stock cfg fs tbl code) as [[res|]|e]; [| |reflexivity].
    + rewrite (IH (acc ++ [res])), (IH ([] ++ [res])).
      destruct (scan cfg fs tbl codes []); [|reflexivity].
      rewrite <- app_assoc. reflexivity.
    + apply IH.
Qed.

Lemma filter_filter_comm {A : Type} (f g : A -> bool) (l : list A) :
  filter f (filter g l) = filter g (filter f l).
Proof.
  induction l as [|a l IH]; [reflexivity|]. cbn [filter].
  destruct (f a) eqn:Hf, (g a) eqn:Hg; cbn [filter];
    rewrite ?Hf, ?Hg, IH; reflexivity.
Qed.

(** In a table without repeated codes a code selects its one row. *)
Lemma nodup_filter (tbl : list BasicRow) (x : BasicRow) :
  NoDup (map ts_code tbl) -> In x tbl ->
  filter (fun y => String.eqb (ts_code y) (ts_code x)) tbl = [x].
Proof.
  induction tbl as [|y tbl IH]; intros Hnd Hin; [destruct Hin|].
  cbn [map] in Hnd. inversion Hnd as [|? ? Hy Hnd']; subst.
  assert (Hnone : forall z, ~ In (ts_code z) (map ts_code tbl) ->
                  filter (fun y => String.eqb (ts_code y) (ts_code z)) tbl = []).
  { intros z Hz. clear - Hz. induction tbl as [|w tbl IHt]; [reflexivity|].
    cbn [filter]. destruct (String.eqb_spec (ts_code w) (ts_code z)) as [E|_].
    - exfalso. apply Hz. left. exact E.
    - apply IHt. intros H. apply Hz. right. exact H. }
  cbn [filter]. destruct Hin as [->|Hin].
  - rewrite String.eqb_refl. rewrite (Hnone x Hy). reflexivity.
  - destruct (String.eqb_spec (ts_code y) (ts_code x)) as [E|_].
    + exfalso. apply Hy. rewrite E. apply in_map, Hin.
    + apply IH; assumption.
Qed.

Lemma cap_filter_cons (cfg : Config) (x : BasicRow) (rows : list BasicRow) :
  cap_filter cfg (x :: rows)
  = if (circulating_market_cap x <=? MARKET_CAP_THRESHOLD cfg)%float
    then x :: cap_filter cfg rows else cap_filter cfg rows.
Proof. reflexivity. Qed.

Lemma scan_stages_source (cfg : Config) (fs : FileSystem)
  (tbl : list BasicRow) (code : string) (codes : list string) :
  scan_stages cfg fs tbl stage_order (code :: codes)
  = match
      match run_stage cfg fs tbl code StaticCap with
      | Ok true => run_stages cfg fs tbl code (List.tl stage_order)
      | Ok false => Ok false
      | Raise e => Raise e
      end
    with
    | Ok keep =>
        match scan_stages cfg fs tbl stage_order codes with
        | Ok l => Ok (if keep then code :: l else l)
        | Raise e => Raise e
        end
    | Raise e => Raise e
    end.
Proof. reflexivity. Qed.

Lemma result_eta {A : Type} (r : result A) :
  match r with Ok l => Ok l | Raise e => Raise e end = r.
Proof. destruct r; reflexivity. Qed.

(** On a table without repeated codes whose rows carry the share column,
    the chain in the order of the source selects the codes the loop of the
    source selects, and raises what it raises. *)
Lemma select_from_chain (cfg : Config) (fs : FileSystem) (tbl : list BasicRow) :
  NoDup (map ts_code tbl) -> has_share tbl = true ->
  select_with stage_order cfg fs tbl = membership (select_from cfg fs tbl).
Proof.
  intros Hnd Hshare. unfold select_with, select_from.
  set (ftbl := cap_filter cfg tbl).
  assert (Hgen : forall rows, incl rows tbl ->
            scan_stages cfg fs tbl stage_order (map ts_code rows)
            = membership (scan cfg fs ftbl
                            (map ts_code (cap_filter cfg rows)) [])).
  { induction rows as [|x rows IH]; intros Hincl; [reflexivity|].
    assert (Hx : In x tbl) by (apply Hincl; left; reflexivity).
    assert (Hrows : incl rows tbl) by (intros y Hy; apply Hincl; right; exact Hy).
    specialize (IH Hrows).
    pose proof (nodup_filter tbl x Hnd Hx) as Hrow.
    destruct (has_share_in tbl x Hshare Hx) as (share & Hs).
    cbn [map]. rewrite scan_stages_source.
    unfold run_stage at 1. rewrite Hrow. cbn [iloc0 bind].
    rewrite cap_filter_cons.
    destruct (circulating_market_cap x <=? MARKET_CAP_THRESHOLD cfg)%float eqn:Hcap.
    - (* the code passes the market-cap filter *)
      assert (Hrow' : filter (fun y => String.eqb (ts_code y) (ts_code x)) ftbl
                      = [x]).
      { unfold ftbl, cap_filter. rewrite filter_filter_comm, Hrow.
        cbn [filter]. rewrite Hcap. reflexivity. }
      rewrite (run_stages_table cfg fs tbl ftbl)
        by (rewrite Hrow, Hrow'; reflexivity).
      destruct (process_stock_chain cfg fs ftbl (ts_code x) x [] share Hrow' Hs)
        as (Hchain & Hcode).
      rewrite Hchain. cbn [map scan].
      destruct (process_stock cfg fs ftbl (ts_code x)) as [[res|]|e];
        cbn [keeps]; [| |reflexivity].
      + rewrite scan_acc, IH.
        destruct (scan cfg fs ftbl (map ts_code (cap_filter cfg rows)) []);
          cbn [membership app map]; [|reflexivity].
        rewrite Hcode. reflexivity.
      + rewrite IH.
        destruct (scan cfg fs ftbl (map ts_code (cap_filter cfg rows)) []);
          reflexivity.
    - (* the market-cap filter removes the code *)
      rewrite IH.
      destruct (scan cfg fs ftbl (map ts_code (cap_filter cfg rows)) []);
        reflexivity. }
  apply Hgen. apply incl_refl.
Qed.

(** C3, as stated, fails: with the completeness stage run before the
    availability stage, an instrument whose file has no bar on the target
    date makes the chain raise [IndexError], where the loop of the source
    excludes it and completes with an empty collection. *)
Lemma stage_order_matters :
  ~ (forall (order : list stage) (cfg : Config) (fs : FileSystem)
            (basic_df : list BasicRow),
        Permutation order stage_order ->
        select_with order cfg fs basic_df
        = membership (select_from cfg fs basic_df)).
Proof.
  intros H.
  specialize (H completeness_first source_config sample_fs [profile "600006"]).
  assert (Hperm : Permutation completeness_first stage_order).
  { unfold completeness_first, stage_order. apply perm_skip, perm_swap. }
  specialize (H Hperm). vm_compute in H. discriminate H.
Qed.

(** C3, amended. For every universe without repeated codes whose rows carry
    the share column and whose daily files have a full box window, and for
    every configuration: the eight stages applied in any permutation of the
    order of the source that still runs the availability stage before the
    stages that read the daily frame (only the market-cap and concentration
    stages may precede it) select the membership the loop of the source
    selects. *)
Theorem guarded_order_irrelevant (order : list stage) (cfg : Config)
  (fs : FileSystem) (basic_df : list BasicRow) :
  Permutation order stage_order ->
  guard_first order = true ->
  NoDup (map ts_code basic_df) ->
  has_share basic_df = true ->
  forallb (window_ok cfg fs) (map ts_code basic_df) = true ->
  select_with order cfg fs basic_df = membership (select_from cfg fs basic_df).
Proof.
  intros Hperm Hfirst Hnd Hshare Hwin.
  rewrite (select_with_reorder cfg fs basic_df order) by assumption.
  apply select_from_chain; assumption.
Qed.

Lemma guarded_order_irrelevant_witness :
  select_with reordered source_config sample_fs sample_table
  = Ok ["600001"%string]
  /\ membership (select_from source_config sample_fs sample_table)
     = Ok ["600001"%string].
Proof.
  assert (H : select_with reordered source_config sample_fs sample_table
              = membership (select_from source_config sample_fs sample_table)).
  { apply guarded_order_irrelevant.
    - apply NoDup_Permutation.
      + repeat (constructor; [cbn; intuition discriminate|]). constructor.
      + repeat (constructor; [cbn; intuition discriminate|]). constructor.
      + intros s. destruct s; cbn; intuition discriminate.
    - reflexivity.
    - repeat (constructor; [cbn; intuition discriminate|]). constructor.
    - reflexivity.
    - vm_compute. reflexivity. }
  split.
  - rewrite H. vm_compute. reflexivity.
  - vm_compute. reflexivity.
Defined.

(* ================================================================== *)
(** * The concentration stage *)

(** A [continue] of the loop body leaves the scan where it was. *)
Lemma scan_continue (cfg : Config) (fs : FileSystem) (tbl : list BasicRow)
  (code : string) (rest : list string) (acc : list ScreeningResult) :
  process_stock cfg fs tbl code = Ok None ->
  scan cfg fs tbl (code :: rest) acc = scan cfg fs tbl rest acc.
Proof. intros H. cbn [scan]. rewrite H. reflexivity. Qed.

(** No sample on the target date: the lookup finds nothing. *)
Lemma chip_lookup_absent (f : list byte) (target_date : string) :
  Forall (fun row => chip_trade_date row <> target_date)
    (chip_frame (chip_data f)) ->
  parse_tdx_chip_data (Some f) target_date = None.
Proof.
  intros H. unfold parse_tdx_chip_data.
  induction H as [|row rows Hrow _ IH]; [reflexivity|].
  cbn [filter]. destruct (String.eqb_spec (chip_trade_date row) target_date);
    [contradiction|exact IH].
Qed.

(** The first sample on the target date is the one the lookup returns. *)
Lemma chip_lookup_first (f : list byte) (target_date : string)
  (earlier later : list ChipRow) (v : float) :
  chip_frame (chip_data f) = earlier ++ mkChipRow target_date v :: later ->
  Forall (fun row => chip_trade_date row <> target_date) earlier ->
  parse_tdx_chip_data (Some f) target_date = Some v.
Proof.
  intros E H. unfold parse_tdx_chip_data. rewrite E. clear E.
  induction H as [|row rows Hrow _ IH].
  - cbn [app filter chip_trade_date]. rewrite String.eqb_refl. reflexivity.
  - cbn [app filter]. destruct (String.eqb_spec (chip_trade_date row) target_date);
      [contradiction|exact IH].
Qed.

(** C9. For every instrument of a table that carries the share column: when
    the concentration file is missing, and likewise when the file holds no
    sample for the target date, the lookup returns nothing, the
    concentration stage excludes the instrument without raising, the loop
    body continues, and the scan goes on with the remaining codes. *)
Theorem missing_concentration_excluded (cfg : Config) (fs : FileSystem)
  (basic_df : list BasicRow) (code : string) (b : BasicRow)
  (bs : list BasicRow) (share : float) :
  filter (fun x => String.eqb (ts_code x) code) basic_df = b :: bs ->
  circulating_share b = Some share ->
  chip_files fs code = None
  \/ (exists f, chip_files fs code = Some f
                /\ Forall (fun row => chip_trade_date row <> TARGET_DATE cfg)
                     (chip_frame (chip_data f))) ->
  parse_tdx_chip_data (chip_files fs code) (TARGET_DATE cfg) = None
  /\ run_stage cfg fs basic_df code Concentration = Ok false
  /\ process_stock cfg fs basic_df code = Ok None
  /\ forall rest acc,
       scan cfg fs basic_df (code :: rest) acc = scan cfg fs basic_df rest acc.
Proof.
  intros Hb Hshare Hmissing.
  assert (Hnone : parse_tdx_chip_data (chip_files fs code) (TARGET_DATE cfg)
                  = None).
  { destruct Hmissing as [->|(f & -> & Hf)]; [reflexivity|].
    apply chip_lookup_absent, Hf. }
  assert (Hskip : process_stock cfg fs basic_df code = Ok None).
  { destruct (process_stock_needs_chip cfg fs basic_df code b bs share Hb Hshare)
      as [H|(chip & H & _)]; [exact H|congruence]. }
  repeat split.
  - exact Hnone.
  - unfold run_stage. rewrite Hnone. reflexivity.
  - exact Hskip.
  - intros rest acc. apply scan_continue, Hskip.
Qed.

Lemma missing_concentration_excluded_witness :
  (process_stock source_config sample_fs sample_table "600003" = Ok None
   /\ run_stage source_config sample_fs sample_table "600003" Concentration
      = Ok false)
  /\ (process_stock source_config sample_fs
        (profile "600004" :: sample_table) "600004" = Ok None
      /\ run_stage source_config sample_fs
           (profile "600004" :: sample_table) "600004" Concentration
         = Ok false).
Proof.
  split.
  - destruct (missing_concentration_excluded source_config sample_fs
                sample_table "600003" (profile "600003") [] 10000%float)
      as (_ & Hstage & Hskip & _).
    + reflexivity.
    + reflexivity.
    + left. reflexivity.
    + split; assumption.
  - destruct (missing_concentration_excluded source_config sample_fs
                (profile "600004" :: sample_table) "600004"
                (profile "600004") [] 10000%float)
      as (_ & Hstage & Hskip & _).
    + reflexivity.
    + reflexivity.
    + right. exists chip_other_day. split; [reflexivity|].
      vm_compute. repeat constructor. discriminate.
    + split; assumption.
Defined.

(** C10. For every instrument of a table that carries the share column
    whose concentration series has, as its first sample for the target
    date, the value 0.0: whatever the configured threshold, the lookup
    returns 0.0, the concentration stage excludes the instrument, and the
    loop body continues as it does for an absent sample; the stage rejects a
    zero before it compares the value with the threshold. *)
Theorem zero_concentration_excluded (cfg : Config) (fs : FileSystem)
  (basic_df : list BasicRow) (code : string) (b : BasicRow)
  (bs : list BasicRow) (share : float) (f : list byte)
  (earlier later : list ChipRow) :
  filter (fun x => String.eqb (ts_code x) code) basic_df = b :: bs ->
  circulating_share b = Some share ->
  chip_files fs code = Some f ->
  chip_frame (chip_data f)
  = earlier ++ mkChipRow (TARGET_DATE cfg) 0%float :: later ->
  Forall (fun row => chip_trade_date row <> TARGET_DATE cfg) earlier ->
  parse_tdx_chip_data (chip_files fs code) (TARGET_DATE cfg) = Some 0%float
  /\ run_stage cfg fs basic_df code Concentration = Ok false
  /\ process_stock cfg fs basic_df code = Ok None
  /\ (forall rest acc,
        scan cfg fs basic_df (code :: rest) acc = scan cfg fs basic_df rest acc)
  /\ (forall fs', chip_files fs' code = None ->
                  run_stage cfg fs' basic_df code Concentration
                  = run_stage cfg fs basic_df code Concentration).
Proof.
  intros Hb Hshare Hfile Hframe Hearlier.
  assert (Hzero : parse_tdx_chip_data (chip_files fs code) (TARGET_DATE cfg)
                  = Some 0%float).
  { rewrite Hfile. eapply chip_lookup_first; eassumption. }
  assert (Hstage : run_stage cfg fs basic_df code Concentration = Ok false).
  { unfold run_stage. rewrite Hzero. reflexivity. }
  assert (Hskip : process_stock cfg fs basic_df code = Ok None).
  { destruct (process_stock_needs_chip cfg fs basic_df code b bs share Hb Hshare)
      as [H|(chip & H & Hpass)]; [exact H|].
    rewrite Hzero in H. injection H as <-. discriminate Hpass. }
  repeat split; try assumption.
  - intros rest acc. apply scan_continue, Hskip.
  - intros fs' Hnone. rewrite Hstage. unfold run_stage. rewrite Hnone.
    reflexivity.
Qed.

Lemma zero_concentration_excluded_witness :
  (0 <? CHIP_CONCENTRATION lenient_config)%float = false
  /\ parse_tdx_chip_data (chip_files sample_fs "600005") "20251030"
     = Some 0%float
  /\ process_stock lenient_config sample_fs sample_table "600005" = Ok None
  /\ membership (select_from lenient_config sample_fs sample_table)
     = Ok ["600001"%string].
Proof.
  destruct (zero_concentration_excluded lenient_config sample_fs sample_table
              "600005" (profile "600005") [] 10000%float chip_zero [] [])
    as (Hzero & _ & Hskip & _).
  - reflexivity.
  - reflexivity.
  - reflexivity.
  - vm_compute. reflexivity.
  - constructor.
  - split; [reflexivity|]. split; [exact Hzero|]. split; [exact Hskip|].
    vm_compute. reflexivity.
Defined.

(* ================================================================== *)
(** * Turnover, and the box stage on a short window *)

(** C8. For every instrument the loop selects, the turnover rate it tested
    and reports is [(targetVolume * 100) / circulatingShares], where
    [targetVolume] is the volume field of the target bar as decoded (lots)
    and [circulatingShares] the value of the table as it stands: no other
    conversion is applied; the instrument was kept because that value is not
    below the threshold, and the result carries it rounded to two
    decimals. *)
Theorem turnover_rate_literal (cfg : Config) (fs : FileSystem)
  (basic_df : list BasicRow) (code : string) (res : ScreeningResult) :
  process_stock cfg fs basic_df code = Ok (Some res) ->
  exists (f : list byte) (target : DayRow) (others : list DayRow)
         (b : BasicRow) (bs : list BasicRow) (circulatingShares : float),
    day_files fs code = Some f
    /\ rows_on (TARGET_DATE cfg) (parse_tdx_day_file f) = target :: others
    /\ filter (fun x => String.eqb (ts_code x) code) basic_df = b :: bs
    /\ circulating_share b = Some circulatingShares
    /\ let targetVolume := vol target in
       let turnoverRatePct :=
         (float_of_int (targetVolume * 100) / circulatingShares)%float in
       turnover_rate targetVolume circulatingShares = turnoverRatePct
       /\ (turnoverRatePct <? TURNOVER_RATE_THRESHOLD cfg)%float = false
       /\ sr_turnover_rate res = round2 turnoverRatePct.
Proof.
  intros H. unfold process_stock in H.
  destruct (day_files fs code) as [f|] eqn:Hfile; [|discriminate H].
  cbv zeta in H.
  destruct (negb (existsb (String.eqb (TARGET_DATE cfg))
                    (map trade_date (parse_tdx_day_file f)))) eqn:Htarget;
    [discriminate H|].
  apply negb_false_iff in Htarget.
  destruct (get_prev_trade_date (parse_tdx_day_file f) (TARGET_DATE cfg))
    as [pd|] eqn:Hprev; [|discriminate H].
  destruct (String.eqb pd "" || negb (existsb (String.eqb pd)
              (map trade_date (parse_tdx_day_file f))));
    [discriminate H|].
  destruct (guard_context cfg f pd Htarget Hprev)
    as (r & rs & p & ps & inc & Hr & Hp & Hma & Hinc & _ & _).
  pose proof (same_bar_rows_on _ (TARGET_DATE cfg) _ _
                (calculate_ma_same_bar (parse_tdx_day_file f) (MA_LIST cfg)))
    as Hsame.
  set (df' := calculate_ma (parse_tdx_day_file f) (MA_LIST cfg)) in *.
  rewrite Hinc in H. cbn [bind] in H.
  destruct inc; [discriminate H|].
  rewrite Hr, Hp in H. cbn [iloc0 bind] in H.
  destruct (filter (fun x => String.eqb (ts_code x) code) basic_df)
    as [|b bs] eqn:Hb; cbn [iloc0 bind] in H; [discriminate H|].
  unfold share_col in H.
  destruct (circulating_share b) as [share|] eqn:Hs; cbn [bind] in H;
    [|discriminate H].
  destruct (volume_growth (vol r) (vol p) <? VOLUME_GROWTH_RATIO cfg)%float;
    [discriminate H|].
  destruct (turnover_rate (vol r) share <? TURNOVER_RATE_THRESHOLD cfg)%float
    eqn:Hturn; [discriminate H|].
  destruct (parse_tdx_chip_data (chip_files fs code) (TARGET_DATE cfg))
    as [chip|]; [|discriminate H].
  destruct ((chip =? 0)%float || (chip <? CHIP_CONCENTRATION cfg)%float);
    [discriminate H|].
  destruct (check_box_break df' (TARGET_DATE cfg) (BOX_DAYS cfg)) as [t|e];
    cbn [bind] in H; [|discriminate H].
  destruct t as [brk z|brk upper ratio]; cbn [unpack3 bind] in H;
    [discriminate H|].
  destruct brk; cbn [negb] in H; [|discriminate H].
  destruct (check_ma_break df' (TARGET_DATE cfg) (MA_LIST cfg)
              (BREAK_MA_TYPE cfg)) as [ok|e]; cbn [bind] in H;
    [|discriminate H].
  destruct ok; cbn [negb] in H; [|discriminate H].
  destruct (ma_entry cfg 5 r) as [m5|e]; cbn [bind] in H; [|discriminate H].
  destruct (ma_entry cfg 10 r) as [m10|e]; cbn [bind] in H; [|discriminate H].
  destruct (ma_entry cfg 20 r) as [m20|e]; cbn [bind] in H; [|discriminate H].
  injection H as <-.
  (* the target row of the frame with averages is the target bar decoded *)
  rewrite Hr in Hsame.
  inversion Hsame as [|target ? others ? (_ & _ & Hvol & _) _ Htgt]; subst.
  exists f, target, others, b, bs, share.
  cbv zeta. rewrite <- Hvol. cbn [sr_turnover_rate].
  repeat split;
    first [reflexivity | symmetry; exact Htgt | exact Hturn | assumption].
Qed.

Lemma turnover_rate_literal_witness :
  process_stock source_config sample_fs sample_table "600001"
  = Ok (Some (mkScreeningResult "600001" "sample" 50 10.1 (Some 10.02%float)
                (Some 10.01%float) (Some 10%float) 100 20 80 10 1))
  /\ turnover_rate 2000 10000 = 20%float
  /\ exists (f : list byte) (target : DayRow) (others : list DayRow)
            (b : BasicRow) (bs : list BasicRow) (circulatingShares : float),
       day_files sample_fs "600001" = Some f
       /\ rows_on "20251030" (parse_tdx_day_file f) = target :: others
       /\ filter (fun x => String.eqb (ts_code x) "600001") sample_table = b :: bs
       /\ circulating_share b = Some circulatingShares
       /\ turnover_rate (vol target) circulatingShares
          = (float_of_int (vol target * 100) / circulatingShares)%float
       /\ (float_of_int (vol target * 100) / circulatingShares <? 10)%float = false
       /\ 20%float = round2 (float_of_int (vol target * 100) / circulatingShares).
Proof.
  assert (H : process_stock source_config sample_fs sample_table "600001"
              = Ok (Some (mkScreeningResult "600001" "sample" 50 10.1
                            (Some 10.02%float) (Some 10.01%float)
                            (Some 10%float) 100 20 80 10 1))).
  { vm_compute. reflexivity. }
  split; [exact H|]. split; [vm_compute; reflexivity|].
  exact (turnover_rate_literal _ _ _ _ _ H).
Defined.

(** C1 on the code. An instrument with nineteen bars before the target date
    that passes every stage before the box stage: [check_box_break] returns
    its pair, the loop body raises [ValueError], and the scan over that
    instrument and a qualifying one ends with the exception instead of the
    collection holding the qualifying one. *)
Theorem short_window_aborts_scan :
  check_box_break
    (calculate_ma (parse_tdx_day_file short_file) (MA_LIST source_config))
    (TARGET_DATE source_config) (BOX_DAYS source_config)
  = Ok (Tuple2 false 0)
  /\ process_stock source_config sample_fs
       [profile "600002"; profile "600001"] "600002" = Raise ValueError
  /\ select_from source_config sample_fs [profile "600002"; profile "600001"]
     = Raise ValueError
  /\ membership (select_from source_config sample_fs [profile "600001"])
     = Ok ["600001"%string].
Proof.
  split; [vm_compute; reflexivity|].
  destruct (short_window_raises source_config sample_fs
              [profile "600002"; profile "600001"] "600002"
              (profile "600002") [] 10000%float) as (Hraise & Hscan).
  - reflexivity.
  - reflexivity.
  - vm_compute. reflexivity.
  - vm_compute. reflexivity.
  - split; [exact Hraise|]. split; [|vm_compute; reflexivity].
    unfold select_from.
    change (cap_filter source_config [profile "600002"; profile "600001"])
      with [profile "600002"; profile "600001"].
    apply Hscan.
Qed.

(** The frame [get_stock_basic_info] returns has no share column. *)
Lemma basic_info_no_share (stock_basic : option (result CsvFrame))
  (tbl : list BasicRow) :
  get_stock_basic_info stock_basic = Ok tbl ->
  Forall (fun b => circulating_share b = None) tbl.
Proof.
  destruct stock_basic as [[[|rows]|e]|]; cbn [get_stock_basic_info];
    try discriminate.
  destruct (list_gen _ rows) as [coded|e]; cbn [bind]; [|discriminate].
  intros H. apply list_gen_Forall2 in H.
  induction H as [|cr b df tbl Hb _ IH]; constructor; [|exact IH].
  destruct (csv_circulating_market_cap (snd cr)); [|discriminate Hb].
  injection Hb as <-. reflexivity.
Qed.

(** So the script as a whole ends with [KeyError] at line 219 on the first
    instrument that reaches step 2.5. Step 1 reports a missing
    basic-information file, and a file whose codes are all digits: its code
    column is read as numbers, on which [.str] raises. *)
Lemma share_column_dropped :
  (forall stock_basic tbl,
      get_stock_basic_info stock_basic = Ok tbl -> has_share tbl = true ->
      tbl = [])
  /\ stock_selection_tdx_auto source_config sample_fs (Some (Ok sample_csv))
     = Crashed (KeyError "circulating_share")
  /\ (forall cfg fs,
         stock_selection_tdx_auto cfg fs None = SetupFailed FileNotFoundError)
  /\ (forall cfg fs,
         stock_selection_tdx_auto cfg fs (Some (Ok NumericCodes))
         = SetupFailed AttributeError).
Proof.
  split; [|split; [|split]].
  - intros stock_basic tbl H Hs. apply basic_info_no_share in H.
    destruct H as [|b tbl Hb _]; [reflexivity|].
    cbn [has_share forallb] in Hs. rewrite Hb in Hs. discriminate Hs.
  - vm_compute. reflexivity.
  - reflexivity.
  - reflexivity.
Qed.

(* ================================================================== *)
(** * Divisions by zero and NaN samples in the threshold tests *)

Lemma binary_round_aux_plus (mx ex : Z) (lx : location) :
  plus_or_nan (binary_round_aux prec emax false mx ex lx).
Proof.
  unfold binary_round_aux.
  destruct (shr_fexp prec emax mx ex lx) as [mrs' e'].
  destruct (shr_fexp prec emax _ e' loc_Exact) as [mrs'' e''].
  destruct (shr_m mrs''); cbn; auto.
  destruct (Z.leb _ _); cbn; auto.
Qed.

Lemma of_uint63_plus (n : int) : plus_or_nan (Prim2SF (of_uint63 n)).
Proof.
  rewrite of_uint63_spec. unfold binary_normalize.
  pose proof (to_Z_bounded n) as Hn.
  destruct (to_Z n) as [|m|m]; [reflexivity| |lia].
  unfold binary_round. destruct (shl_align _ _ _) as [mz ez].
  apply binary_round_aux_plus.
Qed.

Lemma float_of_int_plus (z : Z) : 0 <= z -> plus_or_nan (Prim2SF (float_of_int z)).
Proof.
  intros Hz. unfold float_of_int.
  destruct (Z.ltb_spec z 0); [lia|]. apply of_uint63_plus.
Qed.

(** A float that is not negative divided by zero is plus infinity or NaN,
    and neither is below any float. *)
Lemma fdiv_zero_not_below (x thr : float) :
  plus_or_nan (Prim2SF x) -> (x / 0 <? thr)%float = false.
Proof.
  intros Hx. rewrite FloatAxioms.ltb_spec, FloatAxioms.div_spec.
  change (Prim2SF 0%float) with (S754_zero false).
  destruct (Prim2SF x) as [s|s| |s m e]; cbn in Hx; subst; cbn;
    try reflexivity; destruct (Prim2SF thr) as [t|t| |t m' e'];
    try reflexivity; destruct t; reflexivity.
Qed.

(** A NaN is below no float and is not zero. *)
Lemma nan_not_below (thr : float) : (nan <? thr)%float = false.
Proof. rewrite FloatAxioms.ltb_spec. reflexivity. Qed.

(** A binary32 pattern with exponent field 255 and a fraction that is not
    zero decodes to NaN. *)
Lemma float_of_bits32_nan (w : Z) :
  (w / 2 ^ 23) mod 2 ^ 8 = 255 -> w mod 2 ^ 23 <> 0 ->
  float_of_bits32 w = nan.
Proof.
  intros He Hf. unfold float_of_bits32. rewrite He.
  cbn [Z.eqb Pos.eqb].
  destruct (Z.eqb_spec (w mod 2 ^ 23) 0); [contradiction|].
  destruct (Z.testbit w 31); reflexivity.
Qed.

(* ================================================================== *)
(** * What the decoded fields can be *)

Lemma le_uint_bounds (bs : list byte) :
  0 <= le_uint bs < 256 ^ Z.of_nat (length bs).
Proof.
  induction bs as [|b bs IH]; cbn [le_uint length]; [lia|].
  pose proof (Byte.to_N_bounded b) as Hb.
  rewrite Nat2Z.inj_succ, Z.pow_succ_r by lia. lia.
Qed.

Lemma unpack_I_slice_range (a : nat) (record : list byte) :
  uint32 (unpack_I (slice a (a + 4) record)).
Proof.
  unfold uint32, unpack_I.
  pose proof (le_uint_bounds (slice a (a + 4) record)) as H.
  assert (Hl : (length (slice a (a + 4) record) <= 4)%nat).
  { unfold slice. rewrite length_firstn. lia. }
  assert (256 ^ Z.of_nat (length (slice a (a + 4) record)) <= 256 ^ 4)
    by (apply Z.pow_le_mono_r; lia).
  change (2 ^ 32) with (256 ^ 4). lia.
Qed.

Lemma str_inj (a b : Z) : 0 <= a -> 0 <= b -> str a = str b -> a = b.
Proof.
  intros Ha Hb H. unfold str in H.
  assert (Hu : N.to_uint (Z.to_N a) = N.to_uint (Z.to_N b)).
  { pose proof (NilEmpty.usu (N.to_uint (Z.to_N a))) as H1.
    rewrite H, NilEmpty.usu in H1. congruence. }
  apply DecimalN.Unsigned.to_uint_inj in Hu. lia.
Qed.

Lemma str_nonempty (a : Z) : str a <> ""%string.
Proof.
  unfold str. destruct (Z.to_N a) as [|p]; [discriminate|].
  cbn [N.to_uint]. pose proof (DecimalPos.Unsigned.to_uint_nonnil p) as Hp.
  destruct (Pos.to_uint p); [congruence|discriminate..].
Qed.

(** Every row of a decoded daily frame carries the decimal string of an
    unsigned 32-bit date and an unsigned 32-bit volume. *)
Lemma parse_row_fields (f : list byte) (r : DayRow) :
  In r (parse_tdx_day_file f) ->
  uint32 (vol r)
  /\ (exists d, uint32 d /\ trade_date r = str d)
  /\ ma r = [].
Proof.
  intros Hr. unfold parse_tdx_day_file in Hr.
  apply (Permutation_in _ (Permutation_sym (sort_values_perm _))) in Hr.
  unfold day_frame in Hr. apply in_map_iff in Hr.
  destruct Hr as (rec & <- & Hrec).
  rewrite day_data_complete in Hrec. apply in_map_iff in Hrec.
  destruct Hrec as (chunk & <- & _).
  cbn [vol trade_date ma decode_day_record rec_vol rec_date].
  repeat split.
  - apply (unpack_I_slice_range 20).
  - apply (unpack_I_slice_range 20).
  - exists (unpack_I (slice 0 4 chunk)). split; [|reflexivity].
    apply (unpack_I_slice_range 0).
Qed.

Lemma rows_on_incl (d : string) (df : list DayRow) (r : DayRow) :
  In r (rows_on d df) -> In r df /\ trade_date r = d.
Proof.
  intros H. apply filter_In in H. destruct H as (Hin & E).
  apply String.eqb_eq in E. auto.
Qed.

(* ================================================================== *)
(** * The stages on an instrument that has a target bar and a bar before it *)

Lemma Forall2_skipn {A B : Type} (R : A -> B -> Prop) (n : nat)
  (l : list A) (l' : list B) :
  Forall2 R l l' -> Forall2 R (skipn n l) (skipn n l').
Proof.
  intros H. revert n. induction H as [|a b l l' Hab Hl IH]; intros [|n];
    cbn [skipn]; try (constructor; assumption); auto.
Qed.

Lemma same_bar_closes (periods : list nat) (l l' : list DayRow) :
  Forall2 (same_bar periods) l l' -> map close l' = map close l.
Proof.
  induction 1 as [|a b l l' (_ & Hc & _) _ IH]; cbn [map]; [reflexivity|].
  rewrite Hc, IH. reflexivity.
Qed.

(** The window [check_box_break] reads has the same closes in the frame
    with averages as in the decoded frame. *)
Lemma box_window_closes (df : list DayRow) (periods : list nat) (d : string)
  (n : nat) :
  map close (tail n (bars_before d (calculate_ma df periods)))
  = map close (tail n (bars_before d df)).
Proof.
  pose proof (same_bar_bars_before periods d df _
                (calculate_ma_same_bar df periods)) as H.
  unfold tail. rewrite <- (Forall2_length H).
  eapply same_bar_closes, Forall2_skipn, H.
Qed.

Section Guarded.

Context (cfg : Config) (fs : FileSystem) (basic_df : list BasicRow)
  (code : string) (f : list byte) (pd : string)
  (target : DayRow) (others : list DayRow)
  (prev : DayRow) (prevs : list DayRow).

Hypothesis Hfile : day_files fs code = Some f.
Hypothesis Htarget :
  rows_on (TARGET_DATE cfg) (parse_tdx_day_file f) = target :: others.
Hypothesis Hprev :
  get_prev_trade_date (parse_tdx_day_file f) (TARGET_DATE cfg) = Some pd.
Hypothesis Hprevrow : rows_on pd (parse_tdx_day_file f) = prev :: prevs.

(** The rows the stages read in the frame with averages. *)
Lemma guarded_rows :
  exists r rs p ps,
    rows_on (TARGET_DATE cfg)
      (calculate_ma (parse_tdx_day_file f) (MA_LIST cfg)) = r :: rs
    /\ same_bar (MA_LIST cfg) target r
    /\ rows_on pd (calculate_ma (parse_tdx_day_file f) (MA_LIST cfg)) = p :: ps
    /\ same_bar (MA_LIST cfg) prev p
    /\ get_prev_trade_date
         (calculate_ma (parse_tdx_day_file f) (MA_LIST cfg)) (TARGET_DATE cfg)
       = Some pd.
Proof.
  pose proof (calculate_ma_same_bar (parse_tdx_day_file f) (MA_LIST cfg)) as Hs.
  pose proof (same_bar_rows_on _ (TARGET_DATE cfg) _ _ Hs) as H1.
  pose proof (same_bar_rows_on _ pd _ _ Hs) as H2.
  rewrite Htarget in H1. rewrite Hprevrow in H2.
  inversion H1 as [|? r ? rs Hr _ E1 E2]; subst.
  inversion H2 as [|? p ? ps Hp _ E3 E4]; subst.
  exists r, rs, p, ps. repeat split; try assumption; try apply Hr; try apply Hp.
  rewrite <- Hprev. apply get_prev_trade_date_dates.
  apply (calculate_ma_columns (parse_tdx_day_file f) (MA_LIST cfg)).
Qed.

Lemma stage_volume_growth :
  run_stage cfg fs basic_df code VolumeGrowth
  = Ok (negb (volume_growth (vol target) (vol prev)
              <? VOLUME_GROWTH_RATIO cfg)%float).
Proof.
  destruct guarded_rows
    as (r & rs & p & ps & Hr & (_ & _ & Hv & _) & Hp & (_ & _ & Hv' & _) & Hg).
  unfold run_stage, load_day_df. rewrite Hfile. cbn [bind].
  rewrite Hr, Hg, Hp. cbn [iloc0 bind]. rewrite Hv, Hv'. reflexivity.
Qed.

End Guarded.

(* ================================================================== *)
(** * The previous trading date *)

Lemma index_of_first (x : string) (l : list string) (i : nat) :
  index_of x l = Some i ->
  exists pre post, l = pre ++ x :: post /\ ~ In x pre /\ length pre = i.
Proof.
  revert i. induction l as [|y l IH]; intros i H; cbn [index_of] in H;
    [discriminate|].
  destruct (String.eqb y x) eqn:E.
  - apply String.eqb_eq in E. subst y. injection H as <-.
    exists [], l. repeat split. intros [].
  - apply String.eqb_neq in E.
    destruct (index_of x l) as [j|]; [|discriminate].
    injection H as <-. destruct (IH j eq_refl) as (pre & post & -> & Hn & Hl).
    exists (y :: pre), post. repeat split.
    + intros [Hy|Hin]; [exact (E Hy)|exact (Hn Hin)].
    + cbn [length]. rewrite Hl. reflexivity.
Qed.

Lemma index_of_app (x : string) (pre post : list string) :
  ~ In x pre -> index_of x (pre ++ x :: post) = Some (length pre).
Proof.
  induction pre as [|y pre IH]; intros Hn; cbn [app index_of length].
  - rewrite String.eqb_refl. reflexivity.
  - destruct (String.eqb y x) eqn:E.
    + apply String.eqb_eq in E. exfalso. apply Hn. left. exact E.
    + rewrite IH; [reflexivity|]. intros Hin. apply Hn. right. exact Hin.
Qed.

Lemma index_of_none (x : string) (l : list string) :
  index_of x l = None <-> ~ In x l.
Proof.
  induction l as [|y l IH]; cbn [index_of].
  - split; [intros _ []|reflexivity].
  - destruct (String.eqb y x) eqn:E.
    + apply String.eqb_eq in E. split; [discriminate|].
      intros Hn. exfalso. apply Hn. left. exact E.
    + apply String.eqb_neq in E. destruct (index_of x l) as [j|];
        cbn [option_map].
      * split; [discriminate|]. intros Hn.
        assert (Hl : ~ In x l) by (intros Hin; apply Hn; right; exact Hin).
        apply IH in Hl. discriminate.
      * split; [|reflexivity]. intros _ [Hy|Hin]; [exact (E Hy)|].
        exact (proj1 IH eq_refl Hin).
Qed.

Lemma string_leb_refl (a : string) : String.leb a a = true.
Proof.
  unfold String.leb. pose proof (String.compare_antisym a a) as H.
  destruct (String.compare a a); [reflexivity|reflexivity|discriminate].
Qed.

Lemma string_leb_neq_ltb (a b : string) :
  String.leb a b = true -> a <> b -> String.ltb a b = true.
Proof.
  unfold String.leb, String.ltb.
  destruct (String.compare a b) eqn:E; try congruence.
  apply String.compare_eq_iff in E. congruence.
Qed.

(** X1. [get_prev_trade_date] returns a date exactly when the target date
    occurs in the frame and its first occurrence is not the first row; the
    date returned is the one of the row just above that first occurrence,
    whatever the order of the frame. It returns [None] exactly when the
    target date is absent or heads the frame. *)
Theorem prev_trade_date_spec (df : list DayRow) (target_date pd : string) :
  (get_prev_trade_date df target_date = Some pd
   <-> exists pre post,
         map trade_date df = pre ++ pd :: target_date :: post
         /\ ~ In target_date pre /\ pd <> target_date)
  /\ (get_prev_trade_date df target_date = None
      <-> ~ In target_date (map trade_date df)
          \/ hd_error (map trade_date df) = Some target_date).
Proof.
  unfold get_prev_trade_date. split; split.
  - destruct (index_of target_date (map trade_date df)) as [i|] eqn:Hi;
      [|discriminate].
    destruct (index_of_first _ _ _ Hi) as (pre & post & Hd & Hn & Hl).
    destruct (Nat.ltb_spec 0 i) as [Hpos|]; [|discriminate].
    intros Hnth. rewrite Hd in Hnth |- *.
    destruct (exists_last (l := pre)) as (pre' & d & ->).
    { intros ->. cbn [length] in Hl. lia. }
    rewrite length_app in Hl. cbn [length] in Hl.
    rewrite <- app_assoc in Hnth. cbn [app] in Hnth.
    replace (i - 1)%nat with (length pre' + 0)%nat in Hnth by lia.
    rewrite nth_error_app2 in Hnth by lia.
    replace (length pre' + 0 - length pre')%nat with 0%nat in Hnth by lia.
    cbn [nth_error] in Hnth. injection Hnth as ->.
    exists pre', post. rewrite <- app_assoc. cbn [app]. repeat split.
    + intros Hin. apply Hn, in_or_app. left. exact Hin.
    + intros ->. apply Hn, in_or_app. right. left. reflexivity.
  - intros (pre & post & Hd & Hn & Hne). rewrite Hd.
    change (pre ++ pd :: target_date :: post)
      with (pre ++ [pd] ++ target_date :: post).
    rewrite app_assoc, index_of_app.
    + rewrite length_app. cbn [length].
      destruct (Nat.ltb_spec 0 (length pre + 1)); [|lia].
      rewrite <- app_assoc. cbn [app].
      replace (length pre + 1 - 1)%nat with (length pre + 0)%nat by lia.
      rewrite nth_error_app2 by lia.
      replace (length pre + 0 - length pre)%nat with 0%nat by lia.
      reflexivity.
    + intros Hin. apply in_app_or in Hin. destruct Hin as [Hin|[Hin|[]]].
      * exact (Hn Hin).
      * exact (Hne Hin).
  - destruct (index_of target_date (map trade_date df)) as [i|] eqn:Hi.
    + destruct (index_of_first _ _ _ Hi) as (pre & post & Hd & Hn & Hl).
      destruct (Nat.ltb_spec 0 i) as [Hpos|Hz].
      * intros Hnth. apply nth_error_None in Hnth.
        rewrite Hd, length_app in Hnth. cbn [length] in Hnth. lia.
      * intros _. right. rewrite Hd. destruct pre; [reflexivity|].
        cbn [length] in Hl. lia.
    + intros _. left. apply index_of_none, Hi.
  - intros [Hn|Hhd].
    + apply index_of_none in Hn. rewrite Hn. reflexivity.
    + destruct (map trade_date df) as [|d l]; [discriminate|].
      cbn [hd_error] in Hhd. injection Hhd as ->.
      cbn [index_of]. rewrite String.eqb_refl. reflexivity.
Qed.

(** X2. On a decoded daily file, which is in ascending date order, the
    date [get_prev_trade_date] returns is strictly before the target date
    and is the latest such date of the file: every row is dated no later
    than the date returned, or no earlier than the target date. *)
Theorem prev_trade_date_latest (f : list byte) (target_date pd : string) :
  get_prev_trade_date (parse_tdx_day_file f) target_date = Some pd ->
  String.ltb pd target_date = true
  /\ forall r, In r (parse_tdx_day_file f) ->
       String.leb (trade_date r) pd = true
       \/ String.leb target_date (trade_date r) = true.
Proof.
  intros Hprev.
  assert (Hdec : exists pre post,
             map trade_date (parse_tdx_day_file f)
             = pre ++ pd :: target_date :: post
             /\ ~ In target_date pre /\ pd <> target_date).
  { unfold get_prev_trade_date in Hprev.
    destruct (index_of target_date (map trade_date (parse_tdx_day_file f)))
      as [i|] eqn:Hi; [|discriminate].
    destruct (index_of_first _ _ _ Hi) as (pre & post & Hd & Hn & Hl).
    destruct (Nat.ltb_spec 0 i) as [Hpos|]; [|discriminate].
    rewrite Hd in Hprev |- *.
    destruct (exists_last (l := pre)) as (pre' & d & ->).
    { intros ->. cbn [length] in Hl. lia. }
    rewrite length_app in Hl. cbn [length] in Hl.
    rewrite <- app_assoc in Hprev. cbn [app] in Hprev.
    replace (i - 1)%nat with (length pre' + 0)%nat in Hprev by lia.
    rewrite nth_error_app2 in Hprev by lia.
    replace (length pre' + 0 - length pre')%nat with 0%nat in Hprev by lia.
    cbn [nth_error] in Hprev. injection Hprev as ->.
    exists pre', post. rewrite <- app_assoc. cbn [app]. repeat split.
    - intros Hin. apply Hn, in_or_app. left. exact Hin.
    - intros ->. apply Hn, in_or_app. right. left. reflexivity. }
  destruct Hdec as (pre & post & Hd & _ & Hne).
  apply map_eq_app in Hd. destruct Hd as (dpre & rest & Hdf & _ & Hrest).
  apply map_eq_cons in Hrest. destruct Hrest as (p & rest' & -> & Hp & Hrest).
  apply map_eq_cons in Hrest. destruct Hrest as (t & dpost & -> & Ht & _).
  pose proof (sort_values_strongly_sorted (day_frame (day_data f))) as Hs.
  fold (parse_tdx_day_file f) in Hs. rewrite Hdf in Hs |- *.
  assert (Hs1 : forall a b, In a (dpre ++ [p]) -> In b (t :: dpost) ->
                            date_le a b).
  { apply StronglySorted_app_order. rewrite <- app_assoc. exact Hs. }
  assert (Hs2 : forall a b, In a (dpre ++ [p; t]) -> In b dpost -> date_le a b).
  { apply StronglySorted_app_order. rewrite <- app_assoc. exact Hs. }
  assert (Hs3 : forall a b, In a dpre -> In b (p :: t :: dpost) -> date_le a b).
  { apply StronglySorted_app_order. exact Hs. }
  split.
  - apply string_leb_neq_ltb; [|exact Hne]. rewrite <- Hp, <- Ht.
    apply Hs1; [apply in_or_app; right|]; left; reflexivity.
  - intros r Hin. apply in_app_or in Hin.
    destruct Hin as [Hin|[<-|[<-|Hin]]].
    + left. rewrite <- Hp. apply (Hs3 r p Hin). left. reflexivity.
    + left. rewrite Hp. apply string_leb_refl.
    + right. rewrite Ht. apply string_leb_refl.
    + right. rewrite <- Ht. apply (Hs2 t r); [|exact Hin].
      apply in_or_app. right. right. left. reflexivity.
Qed.

Lemma prev_trade_date_latest_witness :
  String.ltb "20251020" "20251030" = true
  /\ forall r, In r (parse_tdx_day_file rising_file) ->
       String.leb (trade_date r) "20251020" = true
       \/ String.leb "20251030" (trade_date r) = true.
Proof.
  apply (prev_trade_date_latest rising_file "20251030" "20251020").
  vm_compute. reflexivity.
Defined.

(* ================================================================== *)
(** * The guards of steps 2.2 and 2.3 *)

(** X16. On a decoded daily file the guards of steps 2.2 and 2.3 come down
    to one test, whether [get_prev_trade_date] returns a date: when it does,
    the target date is in the frame, and the date returned is not empty and
    is in the frame, so that the second half of the test of line 200 never
    excludes an instrument. *)
Theorem availability_is_previous_date (cfg : Config) (fs : FileSystem)
  (basic_df : list BasicRow) (code : string) (f : list byte) :
  day_files fs code = Some f ->
  (forall pd,
      get_prev_trade_date (parse_tdx_day_file f) (TARGET_DATE cfg) = Some pd ->
      existsb (String.eqb (TARGET_DATE cfg))
        (map trade_date (parse_tdx_day_file f)) = true
      /\ String.eqb pd "" = false
      /\ existsb (String.eqb pd) (map trade_date (parse_tdx_day_file f))
         = true)
  /\ run_stage cfg fs basic_df code SeriesAvailability
     = Ok match get_prev_trade_date (parse_tdx_day_file f) (TARGET_DATE cfg)
          with
          | Some _ => true
          | None => false
          end.
Proof.
  intros Hfile.
  assert (Hfacts : forall pd,
             get_prev_trade_date (parse_tdx_day_file f) (TARGET_DATE cfg)
             = Some pd ->
             existsb (String.eqb (TARGET_DATE cfg))
               (map trade_date (parse_tdx_day_file f)) = true
             /\ String.eqb pd "" = false
             /\ existsb (String.eqb pd)
                  (map trade_date (parse_tdx_day_file f)) = true).
  { intros pd Hprev.
    pose proof (get_prev_trade_date_in _ _ _ Hprev) as Hpd.
    split; [|split].
    - unfold get_prev_trade_date in Hprev.
      destruct (index_of (TARGET_DATE cfg)
                  (map trade_date (parse_tdx_day_file f))) as [i|] eqn:Hi;
        [|discriminate].
      destruct (index_of_first _ _ _ Hi) as (pre & post & Hd & _).
      apply existsb_exists. exists (TARGET_DATE cfg).
      split; [|apply String.eqb_refl].
      rewrite Hd. apply in_or_app. right. left. reflexivity.
    - apply in_map_iff in Hpd. destruct Hpd as (r & Hr & Hin).
      destruct (parse_row_fields f r Hin) as (_ & (d & _ & Hd) & _).
      apply String.eqb_neq. rewrite <- Hr, Hd. apply str_nonempty.
    - apply existsb_exists. exists pd. split; [exact Hpd|].
      apply String.eqb_refl. }
  split; [exact Hfacts|].
  unfold run_stage. rewrite Hfile.
  destruct (get_prev_trade_date (parse_tdx_day_file f) (TARGET_DATE cfg))
    as [pd|] eqn:Hprev.
  - destruct (Hfacts pd eq_refl) as (Ht & He & Hp).
    rewrite Ht, He, Hp. reflexivity.
  - destruct (negb (existsb (String.eqb (TARGET_DATE cfg))
                      (map trade_date (parse_tdx_day_file f))));
      reflexivity.
Qed.

Lemma availability_is_previous_date_witness :
  (forall pd,
      get_prev_trade_date (parse_tdx_day_file rising_file) (TARGET_DATE source_config) = Some pd ->
      existsb (String.eqb (TARGET_DATE source_config))
        (map trade_date (parse_tdx_day_file rising_file)) = true
      /\ String.eqb pd "" = false
      /\ existsb (String.eqb pd) (map trade_date (parse_tdx_day_file rising_file))
         = true)
  /\ run_stage source_config sample_fs [] "600001" SeriesAvailability
     = Ok match get_prev_trade_date (parse_tdx_day_file rising_file) (TARGET_DATE source_config)
          with
          | Some _ => true
          | None => false
          end.
Proof.
  apply (availability_is_previous_date source_config sample_fs []
           "600001" rising_file).
  reflexivity.
Defined.

(* ================================================================== *)
(** * Whole files *)

Lemma chip_frame_encoded (samples : list (Z * Z)) (partial : list byte) :
  Forall (fun s => uint32 (fst s) /\ uint32 (snd s)) samples ->
  (length partial < 48)%nat ->
  chip_frame (chip_data (encode_chip_file samples ++ partial))
  = map (fun s => mkChipRow (str (fst s)) (float_of_bits32 (snd s))) samples.
Proof.
  intros Hok Hp. unfold chip_data, encode_chip_file, chip_frame.
  rewrite read_records_complete, complete_records_app_tail; [|lia| |exact Hp].
  - rewrite !map_map. apply map_ext_in. intros s Hs.
    rewrite Forall_forall in Hok. destruct (Hok s Hs) as (Hd & Hb).
    rewrite decode_encode_chip_record by assumption. reflexivity.
  - apply Forall_forall. intros c Hc. apply in_map_iff in Hc.
    destruct Hc as (s & <- & _). apply encode_chip_record_length.
Qed.

Lemma day_data_encoded (bars : list DayFields) (partial : list byte) :
  Forall day_fields_ok bars ->
  (length partial < 32)%nat ->
  day_data (encode_day_file bars ++ partial) = map day_record_of_fields bars.
Proof.
  intros Hok Hp. unfold day_data, encode_day_file.
  rewrite read_records_complete, complete_records_app_tail; [|lia| |exact Hp].
  - rewrite map_map. apply map_ext_in. intros x Hx.
    rewrite Forall_forall in Hok.
    apply decode_encode_day_record, Hok, Hx.
  - apply Forall_forall. intros c Hc. apply in_map_iff in Hc.
    destruct Hc as (x & <- & _). apply encode_day_record_length.
Qed.

Lemma first_row_encoded (samples : list (Z * Z)) (date : Z) :
  Forall (fun s => uint32 (fst s) /\ uint32 (snd s)) samples ->
  uint32 date ->
  match
    filter (fun r => String.eqb (chip_trade_date r) (str date))
      (map (fun s => mkChipRow (str (fst s)) (float_of_bits32 (snd s))) samples)
  with
  | [] => None
  | r :: _ => Some (chip_concentration_70 r)
  end = option_map float_of_bits32 (first_sample date samples).
Proof.
  intros Hok Hd. unfold first_sample.
  induction Hok as [|s samples (Hs & _) _ IH]; [reflexivity|].
  cbn [map filter find chip_trade_date].
  destruct (Z.eqb_spec (fst s) date) as [->|Hne].
  - rewrite String.eqb_refl. reflexivity.
  - destruct (String.eqb_spec (str (fst s)) (str date)) as [E|_].
    + exfalso. apply Hne. apply str_inj; [apply Hs|apply Hd|exact E].
    + exact IH.
Qed.

(** X3. Reading back a concentration file: for a file made of whole
    records followed by an incomplete one, the value looked up for a date is
    the binary32 value of the first record written for that date, and
    nothing when no record carries the date. *)
Theorem chip_file_lookup (samples : list (Z * Z)) (partial : list byte)
  (date : Z) :
  Forall (fun s => uint32 (fst s) /\ uint32 (snd s)) samples ->
  (length partial < 48)%nat ->
  uint32 date ->
  parse_tdx_chip_data (Some (encode_chip_file samples ++ partial)) (str date)
  = option_map float_of_bits32 (first_sample date samples).
Proof.
  intros Hok Hp Hd. unfold parse_tdx_chip_data.
  rewrite (chip_frame_encoded samples partial Hok Hp).
  apply first_row_encoded; assumption.
Qed.

Lemma chip_file_lookup_witness :
  parse_tdx_chip_data
    (Some (encode_chip_file
             [(20251029, 0x42a00000); (20251030, 0x42960000);
              (20251030, 0x42a00000)] ++ [x01; x02]))
    (str 20251030)
  = option_map float_of_bits32
      (first_sample 20251030
         [(20251029, 0x42a00000); (20251030, 0x42960000);
          (20251030, 0x42a00000)]).
Proof.
  apply (chip_file_lookup
           [(20251029, 0x42a00000); (20251030, 0x42960000);
            (20251030, 0x42a00000)] [x01; x02] 20251030).
  - repeat constructor; cbn; try lia; discriminate.
  - cbn. lia.
  - unfold uint32. lia.
Defined.

(** X4. Reading back a daily file: a file made of whole records followed by
    an incomplete one decodes to a frame that holds exactly the bars
    written, prices and amount divided by 100, none dropped, merged or
    added, in ascending order of the date strings; a file written in
    strictly ascending date order comes back in the order written. Nothing
    is said of the relative order of bars that carry the same date. *)
Theorem day_file_round_trip (bars : list DayFields) (partial : list byte) :
  Forall day_fields_ok bars ->
  (length partial < 32)%nat ->
  let written := day_frame (map day_record_of_fields bars) in
  Permutation written (parse_tdx_day_file (encode_day_file bars ++ partial))
  /\ StronglySorted date_le
       (parse_tdx_day_file (encode_day_file bars ++ partial))
  /\ length (parse_tdx_day_file (encode_day_file bars ++ partial))
     = length bars
  /\ (Sorted date_lt written ->
      parse_tdx_day_file (encode_day_file bars ++ partial) = written).
Proof.
  intros Hok Hp written. unfold parse_tdx_day_file.
  rewrite (day_data_encoded bars partial Hok Hp). fold written.
  repeat split.
  - apply sort_values_perm.
  - apply sort_values_strongly_sorted.
  - rewrite sort_values_length. unfold written, day_frame.
    rewrite !length_map. reflexivity.
  - intros Hs. apply sort_values_sorted_id, Sorted_date_lt_le, Hs.
Qed.

Lemma day_file_round_trip_witness :
  let bars := [mkDayFields 20251030 1000 1010 990 1005 2000 2000000;
               mkDayFields 20251029 990 1000 980 995 1500 1500000] in
  let written := day_frame (map day_record_of_fields bars) in
  Permutation written (parse_tdx_day_file (encode_day_file bars ++ [x07]))
  /\ StronglySorted date_le
       (parse_tdx_day_file (encode_day_file bars ++ [x07]))
  /\ length (parse_tdx_day_file (encode_day_file bars ++ [x07])) = length bars
  /\ (Sorted date_lt written ->
      parse_tdx_day_file (encode_day_file bars ++ [x07]) = written).
Proof.
  apply (day_file_round_trip
           [mkDayFields 20251030 1000 1010 990 1005 2000 2000000;
            mkDayFields 20251029 990 1000 980 995 1500 1500000] [x07]).
  - repeat constructor; cbn; lia.
  - cbn. lia.
Defined.

(* ================================================================== *)
(** * Values at the edge of the comparisons *)

(** X5. A previous bar without volume never excludes an instrument: with a
    target bar and a bar before it in the daily file, and a volume of zero
    on the previous bar, the ratio of line 224 is a division by zero, which
    gives infinity or NaN and no exception, and the volume-growth condition
    lets the instrument through whatever VOLUME_GROWTH_RATIO is. *)
Theorem idle_previous_day_passes (cfg : Config) (fs : FileSystem)
  (basic_df : list BasicRow) (code : string) (f : list byte) (pd : string)
  (target : DayRow) (others : list DayRow) (prev : DayRow)
  (prevs : list DayRow) :
  day_files fs code = Some f ->
  rows_on (TARGET_DATE cfg) (parse_tdx_day_file f) = target :: others ->
  get_prev_trade_date (parse_tdx_day_file f) (TARGET_DATE cfg) = Some pd ->
  rows_on pd (parse_tdx_day_file f) = prev :: prevs ->
  vol prev = 0 ->
  (volume_growth (vol target) (vol prev) <? VOLUME_GROWTH_RATIO cfg)%float
  = false
  /\ run_stage cfg fs basic_df code VolumeGrowth = Ok true.
Proof.
  intros Hfile Htarget Hprev Hprevrow Hidle.
  assert (Hcmp : (volume_growth (vol target) (vol prev)
                  <? VOLUME_GROWTH_RATIO cfg)%float = false).
  { rewrite Hidle. unfold volume_growth.
    change (float_of_int 0) with 0%float.
    apply fdiv_zero_not_below, float_of_int_plus.
    assert (Hin : In target (rows_on (TARGET_DATE cfg) (parse_tdx_day_file f)))
      by (rewrite Htarget; left; reflexivity).
    apply rows_on_incl in Hin.
    destruct (parse_row_fields f target (proj1 Hin)) as (Hv & _).
    apply Hv. }
  split; [exact Hcmp|].
  rewrite (stage_volume_growth cfg fs basic_df code f pd target others
             prev prevs Hfile Htarget Hprev Hprevrow).
  rewrite Hcmp. reflexivity.
Qed.

Lemma idle_previous_day_passes_witness :
  run_stage source_config edge_fs [] "600011" VolumeGrowth = Ok true.
Proof.
  eapply (idle_previous_day_passes source_config edge_fs [] "600011"
            idle_eve_file "20251020").
  - reflexivity.
  - vm_compute. reflexivity.
  - vm_compute. reflexivity.
  - vm_compute. reflexivity.
  - reflexivity.
Defined.

(** X6. A concentration sample that is not a number passes the
    concentration condition: when the first record of the concentration file
    for the target date holds a binary32 NaN (exponent field 255, fraction
    not zero), the value looked up is NaN, it is neither equal to 0 nor
    below the threshold, and the condition lets the instrument through
    whatever CHIP_CONCENTRATION is. *)
Theorem nan_concentration_passes (cfg : Config) (fs : FileSystem)
  (basic_df : list BasicRow) (code : string) (samples : list (Z * Z))
  (partial : list byte) (date bits : Z) :
  chip_files fs code = Some (encode_chip_file samples ++ partial) ->
  Forall (fun s => uint32 (fst s) /\ uint32 (snd s)) samples ->
  (length partial < 48)%nat ->
  uint32 date ->
  str date = TARGET_DATE cfg ->
  first_sample date samples = Some bits ->
  (bits / 2 ^ 23) mod 2 ^ 8 = 255 ->
  bits mod 2 ^ 23 <> 0 ->
  parse_tdx_chip_data (chip_files fs code) (TARGET_DATE cfg) = Some nan
  /\ run_stage cfg fs basic_df code Concentration = Ok true.
Proof.
  intros Hfile Hok Hp Hd Hdate Hfirst He Hfrac.
  assert (Hv : parse_tdx_chip_data (chip_files fs code) (TARGET_DATE cfg)
               = Some nan).
  { rewrite Hfile, <- Hdate. unfold parse_tdx_chip_data.
    rewrite (chip_frame_encoded samples partial Hok Hp).
    rewrite (first_row_encoded samples date Hok Hd), Hfirst.
    cbn [option_map]. rewrite (float_of_bits32_nan bits He Hfrac).
    reflexivity. }
  split; [exact Hv|].
  unfold run_stage. rewrite Hv, nan_not_below. reflexivity.
Qed.

Lemma nan_concentration_passes_witness :
  parse_tdx_chip_data (chip_files edge_fs "600012")
    (TARGET_DATE source_config) = Some nan
  /\ run_stage source_config edge_fs [] "600012" Concentration = Ok true.
Proof.
  apply (nan_concentration_passes source_config edge_fs [] "600012"
           [(20251030, 0x7fc00000)] [] 20251030 0x7fc00000).
  - reflexivity.
  - repeat constructor; cbn; try lia; discriminate.
  - cbn. lia.
  - unfold uint32. lia.
  - reflexivity.
  - reflexivity.
  - reflexivity.
  - cbn. lia.
Defined.

(* ================================================================== *)
(** * What a selection guarantees *)

Lemma any_gen_false {A : Type} (f : A -> result bool) (l : list A) :
  any_gen f l = Ok false -> forall x, In x l -> f x = Ok false.
Proof.
  induction l as [|y l IH]; intros H x Hx; [destruct Hx|].
  cbn [any_gen] in H. destruct (f y) as [[|]|e] eqn:E; try discriminate H.
  destruct Hx as [<-|Hx]; [exact E|exact (IH H x Hx)].
Qed.

(** The triple of [check_box_break], read backwards. *)
Lemma check_box_break_tuple3 (df : list DayRow) (d : string) (n : nat)
  (b : bool) (u q : float) :
  check_box_break df d n = Ok (Tuple3 b u q) ->
  (n <= length (bars_before d df))%nat
  /\ exists r rs,
       rows_on d df = r :: rs
       /\ u = series_max (map close (tail n (bars_before d df)))
       /\ b = (u * 1.005 <? close r)%float
       /\ q = if b then ((close r / u - 1) * 100)%float else 0%float.
Proof.
  unfold check_box_break. rewrite tail_length.
  destruct (Nat.ltb_spec (Nat.min n (length (bars_before d df))) n) as [|Hle];
    [discriminate|].
  destruct (rows_on d df) as [|r rs]; cbn [iloc0 bind]; [discriminate|].
  intros H. injection H as <- <- <-. split; [lia|].
  exists r, rs. repeat split.
Qed.

(** X7. What the loop body has checked when it appends a result: the daily
    file exists and has a bar on the target date and a bar on the date
    before it; every configured average of the target bar is a number; the
    volume ratio to the previous bar is not below VOLUME_GROWTH_RATIO; the
    concentration file has a sample for the target date that is not 0 and
    not below CHIP_CONCENTRATION; at least BOX_DAYS bars precede the target
    date and the target close exceeds 1.005 times the highest close of the
    last BOX_DAYS of them; [check_ma_break] answered true. The result
    carries the code, the name, and the values rounded to two decimals. *)
Theorem selection_sound (cfg : Config) (fs : FileSystem)
  (basic_df : list BasicRow) (code : string) (res : ScreeningResult) :
  process_stock cfg fs basic_df code = Ok (Some res) ->
  exists (f : list byte) (pd : string) (target : DayRow)
         (others : list DayRow) (prev : DayRow) (prevs : list DayRow)
         (b : BasicRow) (bs : list BasicRow) (chip : float),
    day_files fs code = Some f
    /\ rows_on (TARGET_DATE cfg) (parse_tdx_day_file f) = target :: others
    /\ get_prev_trade_date (parse_tdx_day_file f) (TARGET_DATE cfg) = Some pd
    /\ rows_on pd (parse_tdx_day_file f) = prev :: prevs
    /\ filter (fun x => String.eqb (ts_code x) code) basic_df = b :: bs
    /\ parse_tdx_chip_data (chip_files fs code) (TARGET_DATE cfg) = Some chip
    /\ (forall q, In q (MA_LIST cfg) ->
        exists row rest v,
          rows_on (TARGET_DATE cfg)
            (calculate_ma (parse_tdx_day_file f) (MA_LIST cfg)) = row :: rest
          /\ ma_col q row = Ok v /\ is_nan v = false)
    /\ (volume_growth (vol target) (vol prev)
        <? VOLUME_GROWTH_RATIO cfg)%float = false
    /\ (chip =? 0)%float = false
    /\ (chip <? CHIP_CONCENTRATION cfg)%float = false
    /\ (BOX_DAYS cfg
        <= length (bars_before (TARGET_DATE cfg) (parse_tdx_day_file f)))%nat
    /\ (let box_upper :=
          series_max
            (map close
               (tail (BOX_DAYS cfg)
                  (bars_before (TARGET_DATE cfg) (parse_tdx_day_file f)))) in
        (box_upper * 1.005 <? close target)%float = true
        /\ sr_box_upper res = round2 box_upper
        /\ sr_break_ratio res
           = round2 ((close target / box_upper - 1) * 100)%float)
    /\ check_ma_break (calculate_ma (parse_tdx_day_file f) (MA_LIST cfg))
         (TARGET_DATE cfg) (MA_LIST cfg) (BREAK_MA_TYPE cfg) = Ok true
    /\ sr_code res = code
    /\ sr_name res = name b
    /\ sr_market_cap res = round2 (circulating_market_cap b)
    /\ sr_close res = round2 (close target)
    /\ sr_volume_growth_pct res
       = round2 ((volume_growth (vol target) (vol prev) - 1) * 100)%float
    /\ sr_chip_concentration res = round2 chip.
Proof.
  intros H.
  match goal with |- ?G => set (claim := G) end.
  unfold process_stock in H.
  destruct (day_files fs code) as [f|] eqn:Hfile; [|discriminate H].
  cbv zeta in H.
  destruct (negb (existsb (String.eqb (TARGET_DATE cfg))
                    (map trade_date (parse_tdx_day_file f)))) eqn:Htarget;
    [discriminate H|].
  apply negb_false_iff in Htarget.
  destruct (get_prev_trade_date (parse_tdx_day_file f) (TARGET_DATE cfg))
    as [pd|] eqn:Hprev; [|discriminate H].
  destruct (String.eqb pd "" || negb (existsb (String.eqb pd)
              (map trade_date (parse_tdx_day_file f))));
    [discriminate H|].
  destruct (guard_context cfg f pd Htarget Hprev)
    as (r & rs & p & ps & inc & Hr & Hp & Hma & Hinc & _ & _).
  pose proof (calculate_ma_same_bar (parse_tdx_day_file f) (MA_LIST cfg))
    as Hsame.
  pose proof (same_bar_rows_on _ (TARGET_DATE cfg) _ _ Hsame) as Hst.
  pose proof (same_bar_rows_on _ pd _ _ Hsame) as Hsp.
  pose proof (bars_before_length_ma (TARGET_DATE cfg) (parse_tdx_day_file f)
                (MA_LIST cfg)) as Hlen.
  pose proof (box_window_closes (parse_tdx_day_file f) (MA_LIST cfg)
                (TARGET_DATE cfg) (BOX_DAYS cfg)) as Hwin.
  clear Hsame.
  set (df' := calculate_ma (parse_tdx_day_file f) (MA_LIST cfg)) in *.
  rewrite Hinc in H. cbn [bind] in H.
  destruct inc; [discriminate H|].
  rewrite Hr, Hp in H. cbn [iloc0 bind] in H.
  destruct (filter (fun x => String.eqb (ts_code x) code) basic_df)
    as [|b bs] eqn:Hb; cbn [iloc0 bind] in H; [discriminate H|].
  unfold share_col in H.
  destruct (circulating_share b) as [share|] eqn:Hs; cbn [bind] in H;
    [|discriminate H].
  destruct (volume_growth (vol r) (vol p) <? VOLUME_GROWTH_RATIO cfg)%float
    eqn:Hvg; [discriminate H|].
  destruct (turnover_rate (vol r) share <? TURNOVER_RATE_THRESHOLD cfg)%float
    eqn:Hturn; [discriminate H|].
  destruct (parse_tdx_chip_data (chip_files fs code) (TARGET_DATE cfg))
    as [chip|] eqn:Hchip; [|discriminate H].
  destruct (chip =? 0)%float eqn:Hz; [discriminate H|].
  destruct (chip <? CHIP_CONCENTRATION cfg)%float eqn:Hc; [discriminate H|].
  cbn [orb] in H.
  destruct (check_box_break df' (TARGET_DATE cfg) (BOX_DAYS cfg)) as [t|e]
    eqn:Hbox; cbn [bind] in H; [|discriminate H].
  destruct t as [brk z|brk upper ratio]; cbn [unpack3 bind] in H;
    [discriminate H|].
  destruct brk; cbn [negb] in H; [|discriminate H].
  destruct (check_ma_break df' (TARGET_DATE cfg) (MA_LIST cfg)
              (BREAK_MA_TYPE cfg)) as [ok|e] eqn:Hmab; cbn [bind] in H;
    [|discriminate H].
  destruct ok; cbn [negb] in H; [|discriminate H].
  destruct (ma_entry cfg 5 r) as [m5|e]; cbn [bind] in H; [|discriminate H].
  destruct (ma_entry cfg 10 r) as [m10|e]; cbn [bind] in H; [|discriminate H].
  destruct (ma_entry cfg 20 r) as [m20|e]; cbn [bind] in H; [|discriminate H].
  injection H as <-.
  apply check_box_break_tuple3 in Hbox.
  destruct Hbox as (Hfull & r0 & rs0 & Hr0 & Hupper & Hbrk & Hratio).
  rewrite Hr in Hr0. injection Hr0 as <- <-.
  rewrite Hlen in Hfull. rewrite Hwin in Hupper. cbn iota in Hratio.
  rewrite Hr in Hst. rewrite Hp in Hsp.
  inversion Hst as [|target ? others ? (_ & Hclose & Hvol & _) _ Htgt];
    subst.
  inversion Hsp as [|prev ? prevs ? (_ & _ & Hvol' & _) _ Hprv]; subst.
  rewrite Hvol, Hvol' in Hvg. rewrite Hclose in Hbrk.
  unfold claim.
  exists f, pd, target, others, prev, prevs, b, bs, chip.
  cbv zeta. cbn [sr_code sr_name sr_market_cap sr_close sr_volume_growth_pct
                 sr_chip_concentration sr_box_upper sr_break_ratio].
  rewrite ?Hvol, ?Hvol', ?Hclose.
  repeat match goal with |- _ /\ _ => split end;
    try reflexivity; try assumption; try (symmetry; assumption).
  intros q Hq. destruct (Hma q Hq) as (v & Hv).
  exists r, rs, v. repeat split; try assumption.
  pose proof (any_gen_false _ _ Hinc q Hq) as Hq'. cbn beta in Hq'.
  rewrite Hr in Hq'. cbn [iloc0 bind] in Hq'. rewrite Hv in Hq'.
  cbn [bind] in Hq'. injection Hq' as Hq'. exact Hq'.
Qed.

Lemma selection_sound_witness :
  let res :=
    mkScreeningResult "600001" "sample" 50 10.1 (Some 10.02%float)
      (Some 10.01%float) (Some 10%float) 100 20 80 10 1 in
  process_stock source_config sample_fs [profile "600001"] "600001"
  = Ok (Some res)
  /\
    exists (f : list byte) (pd : string) (target : DayRow)
           (others : list DayRow) (prev : DayRow) (prevs : list DayRow)
           (b : BasicRow) (bs : list BasicRow) (chip : float),
      day_files sample_fs "600001" = Some f
      /\ rows_on (TARGET_DATE source_config) (parse_tdx_day_file f) = target :: others
      /\ get_prev_trade_date (parse_tdx_day_file f) (TARGET_DATE source_config) = Some pd
      /\ rows_on pd (parse_tdx_day_file f) = prev :: prevs
      /\ filter (fun x => String.eqb (ts_code x) "600001") [profile "600001"] = b :: bs
      /\ parse_tdx_chip_data (chip_files sample_fs "600001") (TARGET_DATE source_config) = Some chip
      /\ (forall q, In q (MA_LIST source_config) ->
          exists row rest v,
            rows_on (TARGET_DATE source_config)
              (calculate_ma (parse_tdx_day_file f) (MA_LIST source_config)) = row :: rest
            /\ ma_col q row = Ok v /\ is_nan v = false)
      /\ (volume_growth (vol target) (vol prev)
          <? VOLUME_GROWTH_RATIO source_config)%float = false
      /\ (chip =? 0)%float = false
      /\ (chip <? CHIP_CONCENTRATION source_config)%float = false
      /\ (BOX_DAYS source_config
          <= length (bars_before (TARGET_DATE source_config) (parse_tdx_day_file f)))%nat
      /\ (let box_upper :=
            series_max
              (map close
                 (tail (BOX_DAYS source_config)
                    (bars_before (TARGET_DATE source_config) (parse_tdx_day_file f)))) in
          (box_upper * 1.005 <? close target)%float = true
          /\ sr_box_upper res = round2 box_upper
          /\ sr_break_ratio res
             = round2 ((close target / box_upper - 1) * 100)%float)
      /\ check_ma_break (calculate_ma (parse_tdx_day_file f) (MA_LIST source_config))
           (TARGET_DATE source_config) (MA_LIST source_config) (BREAK_MA_TYPE source_config) = Ok true
      /\ sr_code res = "600001"%string
      /\ sr_name res = name b
      /\ sr_market_cap res = round2 (circulating_market_cap b)
      /\ sr_close res = round2 (close target)
      /\ sr_volume_growth_pct res
         = round2 ((volume_growth (vol target) (vol prev) - 1) * 100)%float
      /\ sr_chip_concentration res = round2 chip.
Proof.
  intros res.
  assert (H : process_stock source_config sample_fs [profile "600001"]
                "600001" = Ok (Some res)) by (vm_compute; reflexivity).
  split; [exact H|].
  exact (selection_sound _ _ _ _ _ H).
Defined.

(* ================================================================== *)
(** * The script on the frame [get_stock_basic_info] returns *)

(** On a table without the column [circulating_share], the loop body
    either skips the instrument before it reads its profile or raises
    [KeyError]. *)
Lemma process_stock_no_share (cfg : Config) (fs : FileSystem)
  (tbl : list BasicRow) (code : string) :
  Forall (fun b => circulating_share b = None) tbl ->
  In code (map ts_code tbl) ->
  process_stock cfg fs tbl code
  = if reaches_profile cfg fs tbl code
    then Raise (KeyError "circulating_share") else Ok None.
Proof.
  intros Hnone Hcode. unfold reaches_profile, process_stock.
  cbn [run_stages]. unfold run_stage at 1.
  destruct (day_files fs code) as [f|] eqn:Hfile; [|reflexivity].
  cbv zeta.
  destruct (negb (existsb (String.eqb (TARGET_DATE cfg))
                    (map trade_date (parse_tdx_day_file f)))) eqn:Htarget;
    [reflexivity|].
  apply negb_false_iff in Htarget.
  destruct (get_prev_trade_date (parse_tdx_day_file f) (TARGET_DATE cfg))
    as [pd|] eqn:Hprev; [|reflexivity].
  destruct (String.eqb pd "" || negb (existsb (String.eqb pd)
              (map trade_date (parse_tdx_day_file f))));
    [reflexivity|].
  cbn [negb]. unfold run_stage, load_day_df. rewrite Hfile. cbn [bind].
  destruct (guard_context cfg f pd Htarget Hprev)
    as (r & rs & p & ps & inc & Hr & Hp & _ & Hinc & _ & _).
  rewrite Hinc. cbn [bind]. destruct inc; [reflexivity|]. cbn [negb].
  rewrite Hr, Hp. cbn [iloc0 bind].
  destruct (profile_of_code tbl code Hcode) as (b & bs & Hb & Hin).
  rewrite Hb. cbn [iloc0 bind]. unfold share_col.
  rewrite Forall_forall in Hnone. rewrite (Hnone b Hin). reflexivity.
Qed.

Lemma scan_no_share (cfg : Config) (fs : FileSystem) (tbl : list BasicRow)
  (codes : list string) :
  Forall (fun b => circulating_share b = None) tbl ->
  incl codes (map ts_code tbl) ->
  scan cfg fs tbl codes []
  = if existsb (reaches_profile cfg fs tbl) codes
    then Raise (KeyError "circulating_share") else Ok [].
Proof.
  intros Hnone. induction codes as [|code codes IH]; intros Hincl;
    [reflexivity|].
  cbn [scan existsb].
  rewrite (process_stock_no_share cfg fs tbl code Hnone)
    by (apply Hincl; left; reflexivity).
  destruct (reaches_profile cfg fs tbl code); [reflexivity|].
  cbn [orb]. apply IH. intros c Hc. apply Hincl. right. exact Hc.
Qed.

(** X8. The script as written selects nothing. Whatever the configuration,
    the data directories and [stock_basic.csv] are: a run that completes
    the loop reports an empty collection; the only exception that leaves the
    loop is [KeyError] on the column [circulating_share], which
    [get_stock_basic_info] drops from the frame it returns, and it is raised
    exactly when some visited instrument gets through steps 2.1-2.4. (A
    file that step 1 cannot turn into a frame, one whose codes are read as
    numbers among them, ends the run in step 1, before the loop.) *)
Theorem script_never_selects (cfg : Config) (fs : FileSystem)
  (stock_basic : option (result CsvFrame)) :
  (forall final_selected,
      stock_selection_tdx_auto cfg fs stock_basic = Completed final_selected ->
      final_selected = [])
  /\ (forall e, stock_selection_tdx_auto cfg fs stock_basic = Crashed e ->
                e = KeyError "circulating_share")
  /\ (forall basic_df,
         get_stock_basic_info stock_basic = Ok basic_df ->
         let visited := cap_filter cfg basic_df in
         stock_selection_tdx_auto cfg fs stock_basic
         = Crashed (KeyError "circulating_share")
         <-> exists code,
               In code (map ts_code visited)
               /\ reaches_profile cfg fs visited code = true)
  /\ (forall e,
         get_stock_basic_info stock_basic = Raise e ->
         stock_selection_tdx_auto cfg fs stock_basic = SetupFailed e)
  /\ get_stock_basic_info (Some (Ok NumericCodes)) = Raise AttributeError.
Proof.
  assert (Hfail : forall e,
             get_stock_basic_info stock_basic = Raise e ->
             stock_selection_tdx_auto cfg fs stock_basic = SetupFailed e).
  { intros e H. unfold stock_selection_tdx_auto. rewrite H. reflexivity. }
  cut ((forall final_selected,
           stock_selection_tdx_auto cfg fs stock_basic
           = Completed final_selected ->
           final_selected = [])
       /\ (forall e, stock_selection_tdx_auto cfg fs stock_basic = Crashed e ->
                     e = KeyError "circulating_share")
       /\ (forall basic_df,
              get_stock_basic_info stock_basic = Ok basic_df ->
              let visited := cap_filter cfg basic_df in
              stock_selection_tdx_auto cfg fs stock_basic
              = Crashed (KeyError "circulating_share")
              <-> exists code,
                    In code (map ts_code visited)
                    /\ reaches_profile cfg fs visited code = true)).
  { intros (H1 & H2 & H3). repeat split; try assumption.
    - apply H3; assumption.
    - apply H3; assumption. }
  clear Hfail.
  unfold stock_selection_tdx_auto.
  destruct (get_stock_basic_info stock_basic) as [tbl|e0] eqn:Hinfo.
  2:{ split; [|split]; intros; discriminate. }
  pose proof (basic_info_no_share stock_basic tbl Hinfo) as Hnone.
  assert (Hnone' : Forall (fun b => circulating_share b = None)
                     (cap_filter cfg tbl)).
  { apply Forall_forall. intros b Hb. apply filter_In in Hb.
    rewrite Forall_forall in Hnone. apply Hnone, Hb. }
  cbv zeta.
  pose proof (scan_no_share cfg fs (cap_filter cfg tbl)
                (map ts_code (cap_filter cfg tbl)) Hnone' (incl_refl _))
    as Hscan.
  destruct (map ts_code (cap_filter cfg tbl)) as [|c codes] eqn:Hcodes.
  - split; [|split]; try (intros; discriminate).
    intros basic_df H. injection H as <-. rewrite Hcodes.
    split; [discriminate|]. intros (code & [] & _).
  - rewrite Hscan.
    destruct (existsb (reaches_profile cfg fs (cap_filter cfg tbl))
                (c :: codes)) eqn:Hex.
    + split; [|split]; try (intros; discriminate).
      * intros e H. injection H as <-. reflexivity.
      * intros basic_df H. injection H as <-. rewrite Hcodes.
        split; [|reflexivity]. intros _.
        apply existsb_exists in Hex. exact Hex.
    + split; [|split]; try (intros; discriminate).
      * intros l H. injection H as <-. reflexivity.
      * intros basic_df H. injection H as <-. rewrite Hcodes.
        split; [discriminate|].
        intros Hsome. apply existsb_exists in Hsome. congruence.
Qed.

(* ================================================================== *)
(** * The loop over the codes *)

(** A result appended for a code carries that code. *)
Lemma process_stock_code (cfg : Config) (fs : FileSystem)
  (basic_df : list BasicRow) (code : string) (res : ScreeningResult) :
  process_stock cfg fs basic_df code = Ok (Some res) -> sr_code res = code.
Proof.
  unfold process_stock, bind. intros H.
  repeat match type of H with
         | context [match ?x with _ => _ end] =>
             destruct x; try discriminate H
         end.
  injection H as <-. reflexivity.
Qed.

(** X9. How the loop ends. When the body raises for no code, the loop
    visits every code and the collection holds one result per selected
    code, in the order of [ts_codes] (a code listed twice is reported
    twice). When the body raises for a code and for none before it, the loop
    ends with that exception whatever was collected before: the results
    found so far are not reported. *)
Theorem scan_outcome (cfg : Config) (fs : FileSystem)
  (basic_df : list BasicRow) (ts_codes : list string) :
  (Forall (fun code => exists o, process_stock cfg fs basic_df code = Ok o)
     ts_codes ->
   exists final_selected,
     scan cfg fs basic_df ts_codes [] = Ok final_selected
     /\ map sr_code final_selected
        = filter (fun code => selected (process_stock cfg fs basic_df code))
            ts_codes)
  /\ (forall before code after e acc,
         ts_codes = before ++ code :: after ->
         Forall (fun c => exists o, process_stock cfg fs basic_df c = Ok o)
           before ->
         process_stock cfg fs basic_df code = Raise e ->
         scan cfg fs basic_df ts_codes acc = Raise e).
Proof.
  split.
  - induction 1 as [|code codes (o & Ho) _ (l & Hl & Hcodes)].
    + exists []. split; reflexivity.
    + cbn [scan filter]. rewrite Ho. destruct o as [res|]; cbn [selected].
      * rewrite scan_acc, Hl. exists (([] ++ [res]) ++ l).
        split; [reflexivity|]. cbn [app map]. rewrite Hcodes.
        rewrite (process_stock_code _ _ _ _ _ Ho). reflexivity.
      * exists l. split; assumption.
  - intros before code after e acc -> Hbefore Hraise. revert acc.
    induction Hbefore as [|c before (o & Ho) _ IH]; intros acc.
    + cbn [app scan]. rewrite Hraise. reflexivity.
    + cbn [app scan]. rewrite Ho. destruct o; apply IH.
Qed.

(* ================================================================== *)
(** * A history shorter than an averaging period *)

Lemma any_gen_true {A : Type} (f : A -> result bool) (l : list A) (x : A) :
  (forall y, In y l -> exists b, f y = Ok b) ->
  In x l -> f x = Ok true -> any_gen f l = Ok true.
Proof.
  induction l as [|y l IH]; intros Htot Hx Hfx; [destruct Hx|].
  cbn [any_gen]. destruct (Htot y (or_introl eq_refl)) as (b & Hb).
  rewrite Hb. destruct b; [reflexivity|].
  destruct Hx as [->|Hx]; [congruence|].
  apply IH; [|exact Hx|exact Hfx]. intros z Hz. apply Htot. right. exact Hz.
Qed.

(** The row [iloc[0]] picks among the rows of a date is the row at the
    first position of that date. *)
Lemma rows_on_first (df : list DayRow) (d : string) (i : nat) :
  index_of d (map trade_date df) = Some i ->
  exists r rs, nth_error df i = Some r /\ rows_on d df = r :: rs.
Proof.
  revert i. induction df as [|x df IH]; intros i H; cbn [map index_of] in H;
    [discriminate|].
  cbn [rows_on filter]. fold (rows_on d df).
  destruct (String.eqb (trade_date x) d) eqn:E.
  - injection H as <-. exists x, (rows_on d df). split; reflexivity.
  - destruct (index_of d (map trade_date df)) as [j|]; [|discriminate].
    injection H as <-. destruct (IH j eq_refl) as (r & rs & Hn & Hr).
    exists r, rs. split; assumption.
Qed.

(** X10. A target bar with too few bars behind it is skipped without an
    error: when the first row on the target date is at position [i] of the
    decoded frame and some period [P] of MA_LIST exceeds [i + 1], the
    average of that period is NaN at the target bar and the body leaves the
    instrument at step 2.4 at the latest, whatever the table and the
    concentration file hold: it reads neither, and it does not reach
    [check_box_break]. *)
Theorem short_history_skipped (cfg : Config) (fs : FileSystem)
  (basic_df : list BasicRow) (code : string) (f : list byte) (i P : nat) :
  day_files fs code = Some f ->
  index_of (TARGET_DATE cfg) (map trade_date (parse_tdx_day_file f)) = Some i ->
  In P (MA_LIST cfg) ->
  (i + 1 < P)%nat ->
  process_stock cfg fs basic_df code = Ok None.
Proof.
  intros Hfile Hi HP Hshort.
  assert (Hgen : forall tbl fs', day_files fs' code = Some f ->
                                 process_stock cfg fs' tbl code = Ok None).
  { clear Hfile. intros tbl fs' Hfile. unfold process_stock.
    rewrite Hfile. cbv zeta.
    destruct (negb (existsb (String.eqb (TARGET_DATE cfg))
                      (map trade_date (parse_tdx_day_file f)))) eqn:Htarget;
      [reflexivity|].
    apply negb_false_iff in Htarget.
    destruct (get_prev_trade_date (parse_tdx_day_file f) (TARGET_DATE cfg))
      as [pd|] eqn:Hprev; [|reflexivity].
    destruct (String.eqb pd "" || negb (existsb (String.eqb pd)
                (map trade_date (parse_tdx_day_file f))));
      [reflexivity|].
    destruct (guard_context cfg f pd Htarget Hprev)
      as (r & rs & p & ps & inc & Hr & Hp & Hma & Hinc & _ & _).
    assert (Htrue : any_gen
                      (fun q => bind (iloc0 (rows_on (TARGET_DATE cfg)
                                   (calculate_ma (parse_tdx_day_file f)
                                      (MA_LIST cfg))))
                                  (fun r0 => bind (ma_col q r0)
                                               (fun v => Ok (is_nan v))))
                      (MA_LIST cfg) = Ok true).
    { apply (any_gen_true _ _ P); [|exact HP|].
      - intros q Hq. rewrite Hr. cbn [iloc0 bind].
        destruct (Hma q Hq) as (v & ->). cbn [bind]. eauto.
      - pose proof (calculate_ma_columns (parse_tdx_day_file f) (MA_LIST cfg))
          as (_ & Hdates & _).
        rewrite <- Hdates in Hi.
        destruct (rows_on_first _ _ _ Hi) as (r' & rs' & Hn & Hr').
        rewrite Hr in Hr'. injection Hr' as <- <-.
        assert (Hlt : (i < length (parse_tdx_day_file f))%nat).
        { rewrite <- (length_map trade_date), <- Hdates, length_map.
          apply nth_error_Some. congruence. }
        destruct (nth_error (parse_tdx_day_file f) i) as [bar|] eqn:Hbar;
          [|apply nth_error_None in Hbar; lia].
        destruct (calculate_ma_nth _ (MA_LIST cfg) _ _ Hbar)
          as (row & Hrow & _ & _ & _ & Hcol).
        rewrite Hn in Hrow. injection Hrow as <-.
        rewrite Hr. cbn [iloc0 bind]. rewrite (Hcol P HP). cbn [bind].
        destruct (rolling_at_spec P i (map close (parse_tdx_day_file f)))
          as (Hnan & _); [rewrite length_map; exact Hlt|].
        rewrite Hnan by lia. reflexivity. }
    rewrite Htrue. reflexivity. }
  apply Hgen, Hfile.
Qed.

Lemma short_history_skipped_witness :
  process_stock source_config edge_fs [] "600014" = Ok None.
Proof.
  apply (short_history_skipped source_config edge_fs [] "600014" young_file
           10 20).
  - reflexivity.
  - vm_compute. reflexivity.
  - cbn. auto.
  - lia.
Defined.

(* ================================================================== *)
(** * [check_ma_break] on the frame [calculate_ma] returns *)

Lemma forallb_map_comp {A B : Type} (p : B -> bool) (g : A -> B) (l : list A) :
  forallb p (map g l) = forallb (fun x => p (g x)) l.
Proof. induction l as [|x l IH]; cbn; [reflexivity|]. rewrite IH. reflexivity. Qed.

Lemma existsb_map_comp {A B : Type} (p : B -> bool) (g : A -> B) (l : list A) :
  existsb p (map g l) = existsb (fun x => p (g x)) l.
Proof. induction l as [|x l IH]; cbn; [reflexivity|]. rewrite IH. reflexivity. Qed.

(** X11. [check_ma_break] applied to what [calculate_ma] returns, for a
    frame whose first row on the target date is [bar], at position [i]: it
    never raises, and answers by comparing the close of [bar] with the
    value pandas' rolling mean of each period holds at row [i]: every
    value below the close in mode all, some value below it in mode any,
    false in any other mode. A value the close is above is a number
    taken over a complete window ([P <= i + 1]); with a period in the list,
    a break in mode all is a break in mode any. In particular a flat
    window does not break: on closes that are all equal the value is the
    close itself. *)
Theorem ma_break_after_averages (df : list DayRow) (ma_list : list nat)
  (break_type target_date : string) (i : nat) (bar : DayRow) :
  index_of target_date (map trade_date df) = Some i ->
  nth_error df i = Some bar ->
  let avg := fun P => rolling_at P P (map close df) i in
  let above := fun P => (avg P <? close bar)%float in
  check_ma_break (calculate_ma df ma_list) target_date ma_list break_type
  = Ok (if String.eqb break_type "all" then forallb above ma_list
        else if String.eqb break_type "any" then existsb above ma_list
        else false)
  /\ (forall P, above P = true ->
                (P <= i + 1)%nat /\ is_nan (avg P) = false)
  /\ (ma_list <> [] -> forallb above ma_list = true ->
      existsb above ma_list = true)
  /\ (forall P,
        (1 <= P <= i + 1)%nat ->
        (forall j w, (i + 1 - P <= j <= i)%nat -> nth_error df j = Some w ->
                     close w = close bar) ->
        is_nan (close bar) = false -> is_infinity (close bar) = false ->
        above P = false).
Proof.
  intros Hi Hbar avg above. split; [|split; [|split]].
  - pose proof (calculate_ma_columns df ma_list) as (_ & Hdates & _).
    rewrite <- Hdates in Hi.
    destruct (rows_on_first _ _ _ Hi) as (r & rs & Hn & Hr).
    destruct (calculate_ma_nth _ ma_list _ _ Hbar)
      as (row & Hrow & _ & Hclose & _ & Hcol).
    rewrite Hn in Hrow. injection Hrow as <-.
    unfold check_ma_break. rewrite Hr.
    rewrite (list_gen_map _ avg) by exact Hcol. cbn [bind].
    rewrite forallb_map_comp, existsb_map_comp, Hclose.
    destruct (String.eqb break_type "all"); [reflexivity|].
    destruct (String.eqb break_type "any"); reflexivity.
  - intros P Habove. unfold above in Habove.
    assert (Hlt : (i < length (map close df))%nat).
    { rewrite length_map. apply nth_error_Some. congruence. }
    destruct (rolling_at_spec P i (map close df) Hlt) as (Hnan & _).
    destruct (Nat.le_gt_cases P (i + 1)) as [Hle|Hgt].
    + split; [exact Hle|].
      destruct (is_nan (avg P)) eqn:E; [|reflexivity].
      apply is_nan_eq in E. rewrite E, nan_not_below in Habove.
      discriminate.
    + unfold avg in Habove. rewrite Hnan, nan_not_below in Habove by lia.
      discriminate.
  - intros Hne Hall. destruct ma_list as [|P l]; [congruence|].
    cbn [forallb existsb] in *. apply andb_true_iff in Hall.
    rewrite (proj1 Hall). reflexivity.
  - intros P HP Hsame Hnan Hinf. unfold above, avg.
    assert (Hlt : (i < length (map close df))%nat).
    { rewrite length_map. apply nth_error_Some. congruence. }
    destruct (rolling_at_spec P i (map close df) Hlt) as (_ & Hconst).
    rewrite (Hconst (close bar)); try assumption; [|lia|].
    + apply flt_irrefl.
    + intros j Hj. rewrite nth_error_map.
      destruct (nth_error df j) as [w|] eqn:Hw;
        [|apply nth_error_None in Hw; rewrite length_map in Hlt; lia].
      cbn [option_map]. f_equal. apply (Hsame j w); [lia|exact Hw].
Qed.

Lemma ma_break_after_averages_witness :
  let avg := fun P => rolling_at P P (map close (parse_tdx_day_file rising_file)) 20%nat in
  let above := fun P => (avg P <? close (mkDayRow "20251030" 10.1 10.1 10.1 10.1 2000 20200 []))%float in
  check_ma_break (calculate_ma (parse_tdx_day_file rising_file) [5; 10; 20]%nat) "20251030" [5; 10; 20]%nat "all"
  = Ok (if String.eqb "all" "all" then forallb above [5; 10; 20]%nat
        else if String.eqb "all" "any" then existsb above [5; 10; 20]%nat
        else false)
  /\ (forall P, above P = true ->
                (P <= 20%nat + 1)%nat /\ is_nan (avg P) = false)
  /\ ([5; 10; 20]%nat <> [] -> forallb above [5; 10; 20]%nat = true ->
      existsb above [5; 10; 20]%nat = true)
  /\ (forall P,
        (1 <= P <= 20%nat + 1)%nat ->
        (forall j w, (20%nat + 1 - P <= j <= 20%nat)%nat -> nth_error (parse_tdx_day_file rising_file) j = Some w ->
                     close w = close (mkDayRow "20251030" 10.1 10.1 10.1 10.1 2000 20200 [])) ->
        is_nan (close (mkDayRow "20251030" 10.1 10.1 10.1 10.1 2000 20200 [])) = false -> is_infinity (close (mkDayRow "20251030" 10.1 10.1 10.1 10.1 2000 20200 [])) = false ->
        above P = false).
Proof.
  apply (ma_break_after_averages (parse_tdx_day_file rising_file)
           [5; 10; 20]%nat "all" "20251030" 20
           (mkDayRow "20251030" 10.1 10.1 10.1 10.1 2000 20200 [])).
  - vm_compute. reflexivity.
  - vm_compute. reflexivity.
Defined.

(* ================================================================== *)
(** * The exceptions of the loop body *)

(** X12. The loop body raises in three situations only: [IndexError] when
    the table has no row for the code (line 215; it does not happen for the
    codes the loop takes from the table); [KeyError] when the row has no
    column [circulating_share] (line 219); [ValueError] when fewer than
    BOX_DAYS bars precede the target date, on the unpacking of the pair
    [check_box_break] returns (line 238). Decoding, the guards, the
    averages, [check_ma_break] and the result never raise. *)
Theorem loop_body_exceptions (cfg : Config) (fs : FileSystem)
  (basic_df : list BasicRow) (code : string) (e : exn) :
  process_stock cfg fs basic_df code = Raise e ->
  (e = IndexError /\ ~ In code (map ts_code basic_df))
  \/ (e = KeyError "circulating_share"
      /\ exists b bs,
           filter (fun x => String.eqb (ts_code x) code) basic_df = b :: bs
           /\ circulating_share b = None)
  \/ (e = ValueError
      /\ exists f,
           day_files fs code = Some f
           /\ (length (bars_before (TARGET_DATE cfg) (parse_tdx_day_file f))
               < BOX_DAYS cfg)%nat).
Proof.
  intros H. unfold process_stock in H.
  destruct (day_files fs code) as [f|] eqn:Hfile; [|discriminate H].
  cbv zeta in H.
  destruct (negb (existsb (String.eqb (TARGET_DATE cfg))
                    (map trade_date (parse_tdx_day_file f)))) eqn:Htarget;
    [discriminate H|].
  apply negb_false_iff in Htarget.
  destruct (get_prev_trade_date (parse_tdx_day_file f) (TARGET_DATE cfg))
    as [pd|] eqn:Hprev; [|discriminate H].
  destruct (String.eqb pd "" || negb (existsb (String.eqb pd)
              (map trade_date (parse_tdx_day_file f))));
    [discriminate H|].
  destruct (guard_context cfg f pd Htarget Hprev)
    as (r & rs & p & ps & inc & Hr & Hp & Hma & Hinc & _ & Hcols).
  pose proof (bars_before_length_ma (TARGET_DATE cfg) (parse_tdx_day_file f)
                (MA_LIST cfg)) as Hlen.
  set (df' := calculate_ma (parse_tdx_day_file f) (MA_LIST cfg)) in *.
  rewrite Hinc in H. cbn [bind] in H.
  destruct inc; [discriminate H|].
  rewrite Hr, Hp in H. cbn [iloc0 bind] in H.
  destruct (filter (fun x => String.eqb (ts_code x) code) basic_df)
    as [|b bs] eqn:Hb; cbn [iloc0 bind] in H.
  { injection H as <-. left. split; [reflexivity|]. intros Hin.
    destruct (profile_of_code basic_df code Hin) as (b & bs & Hb' & _).
    congruence. }
  unfold share_col in H.
  destruct (circulating_share b) as [share|] eqn:Hs; cbn [bind] in H.
  2:{ injection H as <-. right. left. split; [reflexivity|].
      exists b, bs. split; [reflexivity|exact Hs]. }
  destruct (volume_growth (vol r) (vol p) <? VOLUME_GROWTH_RATIO cfg)%float;
    [discriminate H|].
  destruct (turnover_rate (vol r) share <? TURNOVER_RATE_THRESHOLD cfg)%float;
    [discriminate H|].
  destruct (parse_tdx_chip_data (chip_files fs code) (TARGET_DATE cfg))
    as [chip|]; [|discriminate H].
  destruct ((chip =? 0)%float || (chip <? CHIP_CONCENTRATION cfg)%float);
    [discriminate H|].
  unfold check_box_break in H. rewrite tail_length, Hlen in H.
  destruct (Nat.ltb_spec
              (Nat.min (BOX_DAYS cfg)
                 (length (bars_before (TARGET_DATE cfg)
                            (parse_tdx_day_file f))))
              (BOX_DAYS cfg)) as [Hshort|Hfull].
  { cbn [bind unpack3] in H. injection H as <-. right. right.
    split; [reflexivity|]. exists f. split; [reflexivity|lia]. }
  rewrite Hr in H. cbn [iloc0 bind unpack3] in H.
  match type of H with
  | context [negb ?c] => destruct c; cbn [negb] in H; [|discriminate H]
  end.
  destruct (check_ma_break_total df' (TARGET_DATE cfg) (MA_LIST cfg)
              (BREAK_MA_TYPE cfg) Hcols) as (ok & Hok).
  rewrite Hok in H. cbn [bind] in H.
  destruct ok; cbn [negb] in H; [|discriminate H].
  destruct (ma_entry_total cfg 5 r Hma) as (m5 & H5).
  destruct (ma_entry_total cfg 10 r Hma) as (m10 & H10).
  destruct (ma_entry_total cfg 20 r Hma) as (m20 & H20).
  rewrite H5 in H. cbn [bind] in H. rewrite H10 in H. cbn [bind] in H.
  rewrite H20 in H. cbn [bind] in H. discriminate H.
Qed.

Lemma loop_body_exceptions_witness :
  (ValueError = IndexError /\ ~ In "600002"%string (map ts_code [profile "600002"]))
  \/ (ValueError = KeyError "circulating_share"
      /\ exists b bs,
           filter (fun x => String.eqb (ts_code x) "600002")
             [profile "600002"] = b :: bs
           /\ circulating_share b = None)
  \/ (ValueError = ValueError
      /\ exists f,
           day_files sample_fs "600002" = Some f
           /\ (length (bars_before (TARGET_DATE source_config)
                         (parse_tdx_day_file f))
               < BOX_DAYS source_config)%nat).
Proof.
  apply (loop_body_exceptions source_config sample_fs [profile "600002"]
           "600002" ValueError).
  vm_compute. reflexivity.
Defined.

(* ================================================================== *)
(** * A selection is the conjunction of the conditions *)

Lemma run_stages_true (cfg : Config) (fs : FileSystem) (tbl : list BasicRow)
  (code : string) (order : list stage) :
  run_stages cfg fs tbl code order = Ok true
  <-> forall s, In s order -> run_stage cfg fs tbl code s = Ok true.
Proof.
  induction order as [|s order IH]; cbn [run_stages].
  - split; [intros _ s []|reflexivity].
  - split.
    + intros H s' [<-|Hin].
      * destruct (run_stage cfg fs tbl code s) as [[|]|e];
          [reflexivity|discriminate|discriminate].
      * destruct (run_stage cfg fs tbl code s) as [[|]|e];
          [|discriminate|discriminate].
        apply (proj1 IH H), Hin.
    + intros H. rewrite (H s (or_introl eq_refl)). apply IH.
      intros s' Hin. apply H. right. exact Hin.
Qed.

(** X13. For a code whose row of the table carries the share column, the
    loop body appends a result exactly when each of the seven conditions it
    applies holds taken alone, each evaluated on the files and the table as
    the source lines evaluate it: a bar on the target date and one before
    it, complete averages, volume growth, turnover, concentration, box
    breakout and moving-average breakout. *)
Theorem selected_iff_every_condition (cfg : Config) (fs : FileSystem)
  (basic_df : list BasicRow) (code : string) (b : BasicRow)
  (bs : list BasicRow) (share : float) :
  filter (fun x => String.eqb (ts_code x) code) basic_df = b :: bs ->
  circulating_share b = Some share ->
  selected (process_stock cfg fs basic_df code) = true
  <-> forall s,
        In s [SeriesAvailability; MACompleteness; VolumeGrowth; TurnoverRate;
              Concentration; BoxBreakout; MABreakout] ->
        run_stage cfg fs basic_df code s = Ok true.
Proof.
  intros Hprofile Hshare.
  destruct (process_stock_chain cfg fs basic_df code b bs share
              Hprofile Hshare) as (Hchain & _).
  cbn [List.tl stage_order] in Hchain.
  rewrite <- run_stages_true, Hchain.
  destruct (process_stock cfg fs basic_df code) as [[res|]|e];
    cbn [selected keeps]; split; congruence.
Qed.

Lemma selected_iff_every_condition_witness :
  selected (process_stock source_config sample_fs sample_table "600001") = true
  <-> forall s,
        In s [SeriesAvailability; MACompleteness; VolumeGrowth; TurnoverRate;
              Concentration; BoxBreakout; MABreakout] ->
        run_stage source_config sample_fs sample_table "600001" s = Ok true.
Proof.
  apply (selected_iff_every_condition source_config sample_fs sample_table
           "600001" (profile "600001")
           [] 10000%float).
  - reflexivity.
  - reflexivity.
Defined.

(* ================================================================== *)
(** * The codes the loop visits *)

Lemma filter_map_comm {A B : Type} (f : B -> bool) (g : A -> B) (l : list A) :
  filter f (map g l) = map g (filter (fun x => f (g x)) l).
Proof.
  induction l as [|x l IH]; cbn [map filter]; [reflexivity|].
  destruct (f (g x)); cbn [map]; rewrite IH; reflexivity.
Qed.

Lemma filter_filter_and {A : Type} (f g : A -> bool) (l : list A) :
  filter f (filter g l) = filter (fun x => g x && f x) l.
Proof.
  induction l as [|x l IH]; cbn [filter]; [reflexivity|].
  destruct (g x); cbn [andb filter]; rewrite IH; reflexivity.
Qed.

(** X14. Step 1 end to end, on a basic-information file whose codes are
    read as text, none of them empty, and whose market caps are read as
    numbers: the codes the loop visits are those of the
    lines whose code starts with 60, 00 or 30 and whose circulating market
    cap, divided by 10000, is not above MARKET_CAP_THRESHOLD, in the order
    of the file and with repetitions kept; the function returns before the
    loop exactly when there is no such line. On a file whose code column
    is read as numbers step 1 fails and no code is visited. *)
Theorem visited_codes (cfg : Config) (fs : FileSystem) (rows : list CsvRow) :
  Forall (fun r => csv_ts_code r <> None) rows ->
  Forall (fun r => exists x, csv_circulating_market_cap r = CapNumber x)
    rows ->
  let visited :=
    filter (fun r => a_share (row_code r)
                     && (row_cap r / 10000 <=? MARKET_CAP_THRESHOLD cfg)%float)
      rows in
  (exists basic_df,
      get_stock_basic_info (Some (Ok (TextCodes rows))) = Ok basic_df
      /\ map ts_code (cap_filter cfg basic_df) = map row_code visited
      /\ map name (cap_filter cfg basic_df) = map csv_name visited)
  /\ (stock_selection_tdx_auto cfg fs (Some (Ok (TextCodes rows)))
      = NoCandidates
      <-> visited = [])
  /\ stock_selection_tdx_auto cfg fs (Some (Ok NumericCodes))
     = SetupFailed AttributeError.
Proof.
  intros Hcodes Hcaps visited.
  set (coded := fun r : CsvRow => (row_code r, r)).
  set (basic := fun cr : string * CsvRow =>
                  mkBasicRow (fst cr) (csv_name (snd cr))
                    (row_cap (snd cr) / 10000)%float None).
  assert (Hinfo : get_stock_basic_info (Some (Ok (TextCodes rows)))
                  = Ok (map basic
                          (map coded
                             (filter (fun r => a_share (row_code r)) rows)))).
  { cbn [get_stock_basic_info].
    rewrite (list_gen_map _ coded).
    2:{ intros r Hr. rewrite Forall_forall in Hcodes.
        specialize (Hcodes r Hr). unfold coded, row_code.
        destruct (csv_ts_code r); [reflexivity|congruence]. }
    cbn [bind]. rewrite filter_map_comm. cbn [fst coded].
    apply list_gen_map. intros cr Hcr. apply in_map_iff in Hcr.
    destruct Hcr as (r & <- & Hr). apply filter_In in Hr.
    destruct Hr as (Hr & Ha). rewrite Forall_forall in Hcaps.
    destruct (Hcaps r Hr) as (x & Hx).
    unfold basic, coded, row_cap. cbn [fst snd]. rewrite Hx. reflexivity. }
  assert (Hvisit : cap_filter cfg
                     (map basic
                        (map coded
                           (filter (fun r => a_share (row_code r)) rows)))
                   = map basic (map coded visited)).
  { unfold cap_filter, visited. rewrite !filter_map_comm, filter_filter_and.
    reflexivity. }
  split; [|split].
  - eexists. split; [exact Hinfo|]. rewrite Hvisit, !map_map.
    split; reflexivity.
  - unfold stock_selection_tdx_auto. rewrite Hinfo. cbv zeta.
    rewrite Hvisit, !map_map. cbn [ts_code basic fst coded].
    destruct visited as [|r rest]; cbn [map].
    + split; reflexivity.
    + split; [|discriminate].
      destruct (scan _ _ _ _ _); discriminate.
  - reflexivity.
Qed.

Lemma visited_codes_witness :
  let rows := [mkCsvRow (Some "600001.SH"%string) "a" 10000 (CapNumber 500000);
               mkCsvRow (Some "900001.SH"%string) "b" 10000 (CapNumber 20000);
               mkCsvRow (Some "000002.SZ"%string) "c" 10000 (CapNumber 5000000)] in
  let visited :=
    filter (fun r => a_share (row_code r)
                     && (row_cap r / 10000
                         <=? MARKET_CAP_THRESHOLD source_config)%float)
      rows in
  (exists basic_df,
      get_stock_basic_info (Some (Ok (TextCodes rows))) = Ok basic_df
      /\ map ts_code (cap_filter source_config basic_df) = map row_code visited
      /\ map name (cap_filter source_config basic_df) = map csv_name visited)
  /\ (stock_selection_tdx_auto source_config sample_fs
        (Some (Ok (TextCodes rows))) = NoCandidates
      <-> visited = [])
  /\ stock_selection_tdx_auto source_config sample_fs (Some (Ok NumericCodes))
     = SetupFailed AttributeError.
Proof.
  apply (visited_codes source_config sample_fs
           [mkCsvRow (Some "600001.SH"%string) "a" 10000 (CapNumber 500000);
            mkCsvRow (Some "900001.SH"%string) "b" 10000 (CapNumber 20000);
            mkCsvRow (Some "000002.SZ"%string) "c" 10000 (CapNumber 5000000)]).
  - repeat constructor; discriminate.
  - repeat constructor; eexists; reflexivity.
Defined.

(* ================================================================== *)
(** * The rows of a decoded daily file *)

(** X15. Whatever bytes the daily file holds, every row of the decoded
    frame is the image of seven unsigned 32-bit fields: its date is the
    decimal numeral of the first, its prices and amount are the integer
    fields divided by 100, its volume is an integer in [0, 2^32), and it
    carries no average column yet. *)
Theorem decoded_rows_shape (f : list byte) (r : DayRow) :
  In r (parse_tdx_day_file f) ->
  (exists x, day_fields_ok x /\ day_frame [day_record_of_fields x] = [r])
  /\ 0 <= vol r < 2 ^ 32
  /\ trade_date r <> ""%string
  /\ ma r = [].
Proof.
  intros Hr.
  destruct (parse_row_fields f r Hr) as (Hvol & (d & _ & Hd) & Hma).
  split; [|split; [exact Hvol|split; [|exact Hma]]].
  - unfold parse_tdx_day_file in Hr.
    apply (Permutation_in _ (Permutation_sym (sort_values_perm _))) in Hr.
    unfold day_frame in Hr. apply in_map_iff in Hr.
    destruct Hr as (rec & <- & Hrec).
    rewrite day_data_complete in Hrec. apply in_map_iff in Hrec.
    destruct Hrec as (chunk & <- & _).
    exists (mkDayFields (unpack_I (slice 0 4 chunk))
              (unpack_I (slice 4 8 chunk)) (unpack_I (slice 8 12 chunk))
              (unpack_I (slice 12 16 chunk)) (unpack_I (slice 16 20 chunk))
              (unpack_I (slice 20 24 chunk)) (unpack_I (slice 24 28 chunk))).
    split; [|reflexivity].
    unfold day_fields_ok.
    cbn [f_date f_open f_high f_low f_close f_vol f_amount].
    repeat match goal with
           | |- _ /\ _ => split
           end.
    + apply (unpack_I_slice_range 0).
    + apply (unpack_I_slice_range 4).
    + apply (unpack_I_slice_range 8).
    + apply (unpack_I_slice_range 12).
    + apply (unpack_I_slice_range 16).
    + apply (unpack_I_slice_range 20).
    + apply (unpack_I_slice_range 24).
  - rewrite Hd. apply str_nonempty.
Qed.

Lemma decoded_rows_shape_witness :
  (exists x,
      day_fields_ok x
      /\ day_frame [day_record_of_fields x]
         = [mkDayRow "20251029" 10 10 10 10 1000 10000 []])
  /\ 0 <= vol (mkDayRow "20251029" 10 10 10 10 1000 10000 []) < 2 ^ 32
  /\ trade_date (mkDayRow "20251029" 10 10 10 10 1000 10000 []) <> ""%string
  /\ ma (mkDayRow "20251029" 10 10 10 10 1000 10000 []) = [].
Proof.
  apply (decoded_rows_shape descending_file
           (mkDayRow "20251029" 10 10 10 10 1000 10000 [])).
  vm_compute. left. reflexivity.
Defined.

(* ================================================================== *)
(** * Lowering the thresholds *)

Lemma SFltb_leb_trans (x y z : spec_float) :
  SFltb x y = true -> SFleb y z = true -> SFltb x z = true.
Proof.
  unfold SFltb, SFleb.
  destruct x as [a|a| |a mx ex], y as [b|b| |b my ey], z as [c|c| |c mz ez];
    cbn [SFcompare]; intros Hxy Hyz; sf_order.
Qed.

Lemma flt_le_trans (x y z : float) :
  (x <? y)%float = true -> (y <=? z)%float = true -> (x <? z)%float = true.
Proof.
  rewrite !FloatAxioms.ltb_spec, FloatAxioms.leb_spec. apply SFltb_leb_trans.
Qed.

(** A value that is not below a bound is not below a lower bound. *)
Lemma not_below_lower (x thr thr' : float) :
  (thr' <=? thr)%float = true ->
  negb (x <? thr)%float = true -> negb (x <? thr')%float = true.
Proof.
  intros Hle H. destruct (x <? thr')%float eqn:E; [|reflexivity].
  rewrite (flt_le_trans x thr' thr E Hle) in H. exact H.
Qed.

(** X17. Lowering a threshold never removes a selection: an instrument the
    loop body selects under a configuration is selected under every
    configuration with the same date, window, periods and mode whose bounds
    on volume growth, turnover and concentration are lower or equal. *)
Theorem looser_thresholds_keep (cfg cfg' : Config) (fs : FileSystem)
  (basic_df : list BasicRow) (code : string) (b : BasicRow)
  (bs : list BasicRow) (share : float) :
  filter (fun x => String.eqb (ts_code x) code) basic_df = b :: bs ->
  circulating_share b = Some share ->
  looser cfg cfg' ->
  selected (process_stock cfg fs basic_df code) = true ->
  selected (process_stock cfg' fs basic_df code) = true.
Proof.
  intros Hprofile Hshare Hl Hsel.
  destruct (process_stock_chain cfg fs basic_df code b bs share
              Hprofile Hshare) as (H1 & _).
  destruct (process_stock_chain cfg' fs basic_df code b bs share
              Hprofile Hshare) as (H2 & _).
  assert (Hall : run_stages cfg fs basic_df code (List.tl stage_order)
                 = Ok true).
  { rewrite H1. destruct (process_stock cfg fs basic_df code) as [[res|]|e];
      cbn [selected keeps] in *; congruence. }
  assert (Hall' : run_stages cfg' fs basic_df code (List.tl stage_order)
                  = Ok true).
  { rewrite run_stages_true in Hall |- *. intros s Hs.
    specialize (Hall s Hs). clear - Hall Hl Hs.
    destruct cfg as [T B V U M C L K], cfg' as [T' B' V' U' M' C' L' K'].
    unfold looser in Hl. cbn in Hl.
    destruct Hl as (-> & -> & -> & -> & HV & HU & HC).
    destruct s; try exact Hall;
      [exfalso; cbn in Hs; intuition discriminate|..];
      unfold run_stage, load_day_df, bind in Hall |- *;
      cbn [TARGET_DATE BOX_DAYS VOLUME_GROWTH_RATIO TURNOVER_RATE_THRESHOLD
           MARKET_CAP_THRESHOLD CHIP_CONCENTRATION MA_LIST BREAK_MA_TYPE]
        in Hall |- *;
      repeat match type of Hall with
             | context [match ?x with _ => _ end] =>
                 destruct x; try discriminate Hall
             end;
      injection Hall as Hall; f_equal.
    - exact (not_below_lower _ _ _ HV Hall).
    - exact (not_below_lower _ _ _ HU Hall).
    - apply negb_true_iff in Hall. apply orb_false_iff in Hall.
      destruct Hall as (Hz & Hc). rewrite Hz. cbn [orb].
      apply (not_below_lower _ _ _ HC). rewrite Hc. reflexivity. }
  rewrite H2 in Hall'.
  destruct (process_stock cfg' fs basic_df code) as [[res|]|e];
    cbn [selected keeps] in *; congruence.
Qed.

Lemma looser_thresholds_keep_witness :
  selected (process_stock lenient_config sample_fs sample_table "600001")
  = true.
Proof.
  apply (looser_thresholds_keep source_config lenient_config sample_fs
           sample_table "600001" (profile "600001") [] 10000%float).
  - reflexivity.
  - reflexivity.
  - repeat split.
  - vm_compute. reflexivity.
Defined.
